(** * Homestay booking site: pricing calculator, reservation repository
      and booking routes

    A shallow embedding of
    - [calculateTotal]   (client, booking form),
    - [MemStorage]       (server, in-memory repository),
    - [insertBookingSchema] (shared schema),
    - the [/api/bookings] handlers and the mail notifier (server),
    - the card fields of the payment form and the slideshow (client),
    together with the properties the specification states about them and
    further properties of the code. *)

From Stdlib Require Import ZArith QArith Qround Qreduction Lia List String Ascii Bool.
From Stdlib Require Import Sorted Permutation.
From Stdlib Require SpecFloat.
Import ListNotations.

Local Open Scope Z_scope.

(** ** JavaScript numbers

    A JavaScript number is an IEEE 754 binary64 value.  The finite ones are
    kept as the (reduced) rational they denote, every arithmetic operation
    rounds its exact result to the nearest binary64 value, ties to even.
    The sign of zero is not tracked: it is observable only through division
    by a zero and [Object.is], neither of which occurs in this program. *)
Module Number.

Inductive number : Type :=
| NaN
| Infinity (negative : bool)
| Fin (q : Q).

(** The number denoted by an integer literal, or an integer-valued result. *)
Definition Int (z : Z) : number := Fin (inject_Z z).

(** [scale a b k] is the fraction [a / (b * 2^k)], kept as a pair. *)
Definition scale (a b k : Z) : Z * Z :=
  if 0 <=? k then (a, b * 2 ^ k) else (a * 2 ^ (- k), b).

(** Nearest integer to [a / b] for [0 < b], ties to the even neighbour. *)
Definition rne (a b : Z) : Z :=
  let q := a / b in
  let r := a mod b in
  if 2 * r <? b then q
  else if b <? 2 * r then q + 1
  else if Z.even q then q else q + 1.

(** For [0 < a] and [0 < b], the [k] with [2^k <= a / b < 2^(k+1)]. *)
Definition binade (a b : Z) : Z :=
  let k := Z.log2 a - Z.log2 b in
  let '(a', b') := scale a b k in
  if a' <? b' then k - 1 else k.

(** The rational [m * 2^e]. *)
Definition dyadic (m e : Z) : Q :=
  if 0 <=? e then inject_Z (m * 2 ^ e) else Qmake m (Z.to_pos (2 ^ (- e))).

(** Rounding of the exact rational [q] to binary64: 53 significant bits,
    least exponent -1074 (subnormals), overflow to infinity at 2^1024. *)
Definition round64 (q : Q) : number :=
  let a := Qnum q in
  let b := Zpos (Qden q) in
  if a =? 0 then Fin 0
  else
    let e := Z.max (binade (Z.abs a) b - 52) (-1074) in
    let '(a', b') := scale a b e in
    let m := rne a' b' in
    if (0 <=? e) && (2 ^ 1024 <=? Z.abs m * 2 ^ e)
    then Infinity (a <? 0)
    else Fin (Qred (dyadic m e)).

Definition is_zero (q : Q) : bool := Qnum q =? 0.
Definition is_neg (q : Q) : bool := Qnum q <? 0.

(** [x + y] *)
Definition add (x y : number) : number :=
  match x, y with
  | NaN, _ | _, NaN => NaN
  | Infinity s, Infinity t => if Bool.eqb s t then Infinity s else NaN
  | Infinity s, Fin _ | Fin _, Infinity s => Infinity s
  | Fin p, Fin q => round64 (p + q)
  end.

(** [- x] *)
Definition neg (x : number) : number :=
  match x with
  | NaN => NaN
  | Infinity s => Infinity (negb s)
  | Fin p => Fin (Qred (- p))
  end.

(** [x - y] *)
Definition sub (x y : number) : number := add x (neg y).

(** [x * y] *)
Definition mul (x y : number) : number :=
  match x, y with
  | NaN, _ | _, NaN => NaN
  | Infinity s, Infinity t => Infinity (xorb s t)
  | Infinity s, Fin q | Fin q, Infinity s =>
      if is_zero q then NaN else Infinity (xorb s (is_neg q))
  | Fin p, Fin q => round64 (p * q)
  end.

(** [x / y] *)
Definition div (x y : number) : number :=
  match x, y with
  | NaN, _ | _, NaN => NaN
  | Infinity _, Infinity _ => NaN
  | Infinity s, Fin q => Infinity (xorb s (is_neg q))
  | Fin _, Infinity _ => Fin 0
  | Fin p, Fin q =>
      if is_zero q then (if is_zero p then NaN else Infinity (is_neg p))
      else round64 (p / q)
  end.

(** [x <= y]: false as soon as one side is NaN. *)
Definition le (x y : number) : bool :=
  match x, y with
  | NaN, _ | _, NaN => false
  | Infinity true, _ => true
  | _, Infinity false => true
  | Infinity false, _ => false
  | _, Infinity true => false
  | Fin p, Fin q => Qle_bool p q
  end.

(** [x < y] *)
Definition lt (x y : number) : bool :=
  match x, y with
  | NaN, _ | _, NaN => false
  | Infinity s, Infinity t => s && negb t
  | Infinity true, Fin _ => true
  | Fin _, Infinity false => true
  | Infinity false, Fin _ => false
  | Fin _, Infinity true => false
  | Fin p, Fin q => negb (Qle_bool q p)
  end.

(** [Math.ceil x]: the least integer not below [x]. *)
Definition Math_ceil (x : number) : number :=
  match x with
  | Fin p => Int (Qceiling p)
  | _ => x
  end.

(** [Math.round x]: the integer nearest to [x], halves go up:
    [floor (x + 1/2)]. *)
Definition Math_round (x : number) : number :=
  match x with
  | Fin p => Int (Qfloor (p + (1 # 2)))
  | _ => x
  end.

(** A decimal literal [n / d] of the source text. *)
Definition literal (n : Z) (d : positive) : number := round64 (Qmake n d).

End Number.
Export Number.

Declare Scope js_scope.
Delimit Scope js_scope with js.
Infix "+" := Number.add : js_scope.
Infix "-" := Number.sub : js_scope.
Infix "*" := Number.mul : js_scope.
Infix "/" := Number.div : js_scope.
Infix "<=" := Number.le : js_scope.

(** [x <= 0] holds. *)
Definition nonpos (x : number) : Prop := Number.le x (Int 0) = true.

(** *** The binary64 operations of the Standard Library

    [SpecFloat] is the specification the Standard Library gives of its
    primitive binary64 numbers.  The operations above are compared with it on
    the values this program meets. *)
Definition of_spec_float (x : SpecFloat.spec_float) : number :=
  match x with
  | SpecFloat.S754_zero _ => Fin 0
  | SpecFloat.S754_infinity s => Infinity s
  | SpecFloat.S754_nan => NaN
  | SpecFloat.S754_finite s m e =>
      Fin (Qred (Number.dyadic (if s then Zneg m else Zpos m) e))
  end.

(** The binary64 number nearest to [m * 2^e], there and here. *)
Definition binary64 (m e : Z) : SpecFloat.spec_float :=
  SpecFloat.binary_normalize 53 1024 m e false.

Definition scaled (m e : Z) : number := round64 (Number.dyadic m e).

(** ** Dates

    A [Date] object holds a time value: an integral number of milliseconds
    since the epoch, or NaN for an invalid date. *)
Inductive Date : Type :=
| InvalidDate
| TimeValue (t : Z).

(** [d.getTime()] *)
Definition getTime (d : Date) : number :=
  match d with
  | InvalidDate => NaN
  | TimeValue t => Int t
  end.

(** The largest magnitude of a time value (ECMAScript TimeClip): 10^8 days. *)
Definition maxTime : Z := 8640000000000000.

(** One day in milliseconds: [1000 * 60 * 60 * 24]. *)
Definition msPerDay : Z := 1000 * 60 * 60 * 24.

(** ** Pricing calculator (client/src/components/booking-form.tsx) *)
Section Pricing.

(** The host's [Date.parse]: the time value of a date string, if it has one. *)
Variable Date_parse : string -> option Z.

(** [new Date(s)] for a string [s]. *)
Definition new_Date (s : string) : Date :=
  match Date_parse s with
  | Some t => TimeValue t
  | None => InvalidDate
  end.

(** [!s] for a string: only the empty string is falsy. *)
Definition not_string (s : string) : bool :=
  match s with
  | EmptyString => true
  | _ => false
  end.

Definition basePrice : number := Int 850.

Definition calculateTotal (checkin checkout : string) (guests : number) : number :=
  if not_string checkin || not_string checkout then Int 0
  else
    let checkinDate := new_Date checkin in
    let checkoutDate := new_Date checkout in
    let nights :=
      Math_ceil ((getTime checkoutDate - getTime checkinDate)
                 / (Int 1000 * Int 60 * Int 60 * Int 24))%js in
    if (nights <= Int 0)%js then Int 0
    else
      let subtotal := (basePrice * nights)%js in
      let serviceFee := Math_round (subtotal * literal 6 100)%js in
      let taxes := Math_round (subtotal * literal 8 100)%js in
      (subtotal + serviceFee + taxes)%js.

End Pricing.

(** What every ECMAScript host guarantees of [Date.parse]: the empty string
    is not a date, and a time value is at most [maxTime] away from the
    epoch. *)
Record DateHost (Date_parse : string -> option Z) : Prop := {
  parse_empty : Date_parse EmptyString = None;
  parse_clip : forall s t, Date_parse s = Some t -> Z.abs t <= maxTime
}.

(** Some strings of the date-time string format with the time values every
    host gives them: two calendar days, two instants 44 hours apart, the
    earliest instant a [Date] can hold, the first millisecond of its last
    full day and its latest instant.  A host that knows no other date. *)
Definition sample_Date_parse (s : string) : option Z :=
  if String.eqb s "2024-03-10" then Some 1710028800000
  else if String.eqb s "2024-03-11" then Some 1710115200000
  else if String.eqb s "2024-03-10T14:00:00.000Z" then Some 1710079200000
  else if String.eqb s "2024-03-12T10:00:00.000Z" then Some 1710237600000
  else if String.eqb s "-271821-04-20T00:00:00.000Z" then Some (-8640000000000000)
  else if String.eqb s "+275760-09-12T00:00:00.001Z" then Some 8639999913600001
  else if String.eqb s "+275760-09-13T00:00:00.000Z" then Some 8640000000000000
  else None.

(** *** The price in the words of the specification *)

(** Round-half-up: the nearest integer, halves going up. *)
Definition round_half_up (q : Q) : Z := Qfloor (q + (1 # 2)).

(** Nights: the ceiling of (checkout - checkin) in whole days. *)
Definition spec_nights (checkin checkout : Z) : Z :=
  Qceiling (inject_Z (checkout - checkin) / inject_Z msPerDay).

(** Total = subtotal + service fee + taxes, the fee and the taxes rounded one
    by one. *)
Definition spec_total (nights : Z) : Z :=
  let subtotal := 850 * nights in
  let serviceFee := round_half_up (inject_Z subtotal * (6 # 100)) in
  let taxes := round_half_up (inject_Z subtotal * (8 # 100)) in
  subtotal + serviceFee + taxes.

(** The night count [calculateTotal] computes from two time values. *)
Definition nights_of (t1 t2 : Z) : number :=
  Math_ceil ((Int t2 - Int t1) / (Int 1000 * Int 60 * Int 60 * Int 24))%js.

(** ** Values of request bodies

    What [req.body] and its properties can be once the JSON body parser has
    run (or has not: [VUndefined]). *)
#[local] Unset Elimination Schemes.
Inductive value : Type :=
| VUndefined
| VNull
| VBool (b : bool)
| VNumber (n : number)
| VString (s : string)
| VArray (items : list value)
| VObject (props : list (string * value)).
#[local] Set Elimination Schemes.

(** JavaScript truthiness, the test behind [!v] and [v || w]. *)
Definition truthy (v : value) : bool :=
  match v with
  | VUndefined | VNull => false
  | VBool b => b
  | VNumber NaN => false
  | VNumber (Fin q) => negb (Number.is_zero q)
  | VNumber (Infinity _) => true
  | VString s => negb (not_string s)
  | VArray _ | VObject _ => true
  end.

(** Validation issues, as the validation library reports them. *)
Inductive issue_code : Type :=
| invalid_type | too_small | too_big | invalid_string.

(** The message of a validation issue: the one given in the schema, or the
    validation library's own text for the issue code. *)
Inductive issue_message : Type :=
| Custom (text : string)
| LibraryDefault.

Record issue : Type := mkIssue {
  path : list string;
  code : issue_code;
  message : issue_message
}.

(** Errors that can be thrown. *)
Inductive exn : Type :=
| ZodError (errors : list issue)
| TypeError (text : string)
| Error (text : string).

(** The outcome of a call: a value, or a thrown exception. *)
Inductive result (A : Type) : Type :=
| Return (a : A)
| Throw (e : exn).
Arguments Return {A} a.
Arguments Throw {A} e.

(** ** Entities (shared/schema.ts) *)

(** [Booking = typeof bookings.$inferSelect].  [guestPhone] is [string | null];
    [status] is declared a string and holds whatever an update stores in it. *)
Record Booking : Type := mkBooking {
  id : string;
  checkinDate : string;
  checkoutDate : string;
  guests : number;
  guestName : string;
  guestEmail : string;
  guestPhone : option string;
  totalAmount : string;
  status : value;
  createdAt : Date
}.

(** [InsertBooking = z.infer<typeof insertBookingSchema>]: [guestPhone] is
    optional ([None] is [undefined]). *)
Module Insert.
Record InsertBooking : Type := mk {
  checkinDate : string;
  checkoutDate : string;
  guests : number;
  guestName : string;
  guestEmail : string;
  guestPhone : option string;
  totalAmount : string;
  status : string
}.
End Insert.
Abbreviation InsertBooking := Insert.InsertBooking.

(** [Partial<Booking>]: each property present ([Some]) or not. *)
Module Partial.
Record PartialBooking : Type := mk {
  id : option string;
  checkinDate : option string;
  checkoutDate : option string;
  guests : option number;
  guestName : option string;
  guestEmail : option string;
  guestPhone : option (option string);
  totalAmount : option string;
  status : option value;
  createdAt : option Date
}.

(** The object literal [{ status }]. *)
Definition status_only (status : value) : PartialBooking :=
  mk None None None None None None None None (Some status) None.
End Partial.
Abbreviation PartialBooking := Partial.PartialBooking.

(** The other entities the repository holds; the booking methods leave their
    maps alone. *)
Record User : Type := mkUser {
  user_id : string;
  username : string;
  password : string
}.

Record Contact : Type := mkContact {
  contact_id : string;
  contact_name : string;
  contact_email : string;
  contact_message : string;
  contact_createdAt : Date
}.

Record ContentSection : Type := mkContentSection {
  section_id : string;
  sectionKey : string;
  section_title : string;
  section_content : string;
  section_metadata : option string;
  section_updatedAt : Date
}.

Record PropertyImage : Type := mkPropertyImage {
  image_id : string;
  image_category : string;
  image_url : string;
  image_title : option string;
  image_description : option string;
  image_sortOrder : option number;
  image_isActive : string
}.

(** ** [Map<string, V>]

    A JavaScript [Map] iterates in insertion order, and [set] on a key that is
    already present keeps the key's place: an association list. *)
Module JSMap.
Section WithValue.
Context {V : Type}.

Definition t : Type := list (string * V).

Definition empty : t := [].

Fixpoint get (m : t) (k : string) : option V :=
  match m with
  | [] => None
  | (k', v) :: m' => if String.eqb k' k then Some v else get m' k
  end.

Fixpoint set (m : t) (k : string) (v : V) : t :=
  match m with
  | [] => [(k, v)]
  | (k', v') :: m' =>
      if String.eqb k' k then (k', v) :: m' else (k', v') :: set m' k v
  end.

Definition keys (m : t) : list string := map fst m.

Definition values (m : t) : list V := map snd m.

End WithValue.
Arguments t V : clear implicits.
End JSMap.

(** ** [Array.prototype.sort(comparefn)]

    The sort is stable and decides by the sign of [comparefn(x, y)], a NaN
    counting as zero: [x] is moved behind [y] only when [comparefn(x, y) > 0].
    For a comparator that is a consistent ordering every stable sort returns
    the same array; insertion from the right is the one written here. *)
Section ArraySort.
Context {A : Type}.
Variable comparefn : A -> A -> number.

Fixpoint sort_insert (x : A) (l : list A) : list A :=
  match l with
  | [] => [x]
  | y :: l' =>
      if Number.lt (Int 0) (comparefn x y) then y :: sort_insert x l'
      else x :: y :: l'
  end.

Fixpoint Array_sort (l : list A) : list A :=
  match l with
  | [] => []
  | x :: l' => sort_insert x (Array_sort l')
  end.

End ArraySort.

(** ** Reservation repository (server/storage.ts) *)
Record MemStorage : Type := mkMemStorage {
  users : JSMap.t User;
  bookings : JSMap.t Booking;
  contacts : JSMap.t Contact;
  contentSections : JSMap.t ContentSection;
  propertyImages : JSMap.t PropertyImage
}.

Definition with_bookings (s : MemStorage) (b : JSMap.t Booking) : MemStorage :=
  mkMemStorage (users s) b (contacts s) (contentSections s) (propertyImages s).

(** [new Date(d)] for a [Date] [d]: a copy with the same time value. *)
Definition Date_copy (d : Date) : Date := d.

(** [getBookings()] *)
Definition getBookings (s : MemStorage) : list Booking :=
  Array_sort
    (fun a b => (getTime (Date_copy (createdAt b))
                 - getTime (Date_copy (createdAt a)))%js)
    (JSMap.values (bookings s)).

(** [getBooking(id)]: [None] is [undefined]. *)
Definition getBooking (s : MemStorage) (id : string) : option Booking :=
  JSMap.get (bookings s) id.

(** [insertBooking.guestPhone || null]: an absent and an empty phone both
    become [null] ([None] in [Booking]). *)
Definition phone_or_null (p : option string) : option string :=
  match p with
  | Some s => if not_string s then None else Some s
  | None => None
  end.

(** [createBooking(insertBooking)].  [uuid] is what [randomUUID()] returns and
    [now] the time value of [new Date()] during the call. *)
Definition createBooking (uuid : string) (now : Z) (s : MemStorage)
    (insertBooking : InsertBooking) : Booking * MemStorage :=
  let id := uuid in
  let booking :=
    {| id := id;
       checkinDate := Insert.checkinDate insertBooking;
       checkoutDate := Insert.checkoutDate insertBooking;
       guests := Insert.guests insertBooking;
       guestName := Insert.guestName insertBooking;
       guestEmail := Insert.guestEmail insertBooking;
       guestPhone := phone_or_null (Insert.guestPhone insertBooking);
       totalAmount := Insert.totalAmount insertBooking;
       status := VString (Insert.status insertBooking);
       createdAt := TimeValue now |} in
  (booking, with_bookings s (JSMap.set (bookings s) id booking)).

(** One property of [{ ...existing, ...updateData }]. *)
Definition spread {A : Type} (existing : A) (updateData : option A) : A :=
  match updateData with
  | Some v => v
  | None => existing
  end.

(** [{ ...existing, ...updateData }] *)
Definition merge (existing : Booking) (updateData : PartialBooking) : Booking :=
  {| id := spread (id existing) (Partial.id updateData);
     checkinDate := spread (checkinDate existing) (Partial.checkinDate updateData);
     checkoutDate := spread (checkoutDate existing) (Partial.checkoutDate updateData);
     guests := spread (guests existing) (Partial.guests updateData);
     guestName := spread (guestName existing) (Partial.guestName updateData);
     guestEmail := spread (guestEmail existing) (Partial.guestEmail updateData);
     guestPhone := spread (guestPhone existing) (Partial.guestPhone updateData);
     totalAmount := spread (totalAmount existing) (Partial.totalAmount updateData);
     status := spread (status existing) (Partial.status updateData);
     createdAt := spread (createdAt existing) (Partial.createdAt updateData) |}.

(** [updateBooking(id, updateData)] *)
Definition updateBooking (s : MemStorage) (id : string)
    (updateData : PartialBooking) : option Booking * MemStorage :=
  match JSMap.get (bookings s) id with
  | None => (None, s)
  | Some existing =>
      let updated := merge existing updateData in
      (Some updated, with_bookings s (JSMap.set (bookings s) id updated))
  end.

(** *** Words for the properties of the repository *)

(** The comparator [getBookings] sorts with. *)
Definition by_createdAt_desc (a b : Booking) : number :=
  (getTime (Date_copy (createdAt b)) - getTime (Date_copy (createdAt a)))%js.

(** The time value of a record's creation date. *)
Definition created_time (b : Booking) : Z :=
  match createdAt b with
  | TimeValue t => t
  | InvalidDate => 0
  end.

(** The creation date is a valid date, as [new Date()] makes them. *)
Definition valid_created (b : Booking) : Prop :=
  exists t, createdAt b = TimeValue t /\ Z.abs t <= maxTime.

(** Descending order of a key: nothing comes before a larger key. *)
Definition descending {A : Type} (key : A -> Z) (x y : A) : Prop := key y <= key x.

(** How one property of [{ ...existing, ...updateData }] relates to the two
    objects: the given value if the payload has the property, the previous
    value if not. *)
Definition merged {A : Type} (previous : A) (given : option A) (now : A) : Prop :=
  match given with
  | Some v => now = v
  | None => now = previous
  end.

(** What [randomUUID()] promises of the identifier it returns: it is not in
    use, no booking is stored under it. *)
Definition fresh (s : MemStorage) (uuid : string) : Prop :=
  ~ In uuid (JSMap.keys (bookings s)).

(** Every booking is stored under its own [id], as [createBooking] stores
    them. *)
Definition bookings_keyed (s : MemStorage) : Prop :=
  Forall (fun entry => id (snd entry) = fst entry) (bookings s).


(** A repository without entries, a payload as the booking form submits it,
    and a repository holding one pending booking under the key [b-1]. *)
Definition no_records : MemStorage := mkMemStorage [] [] [] [] [].

Definition payload (name phone : string) : InsertBooking :=
  Insert.mk "2024-03-10" "2024-03-11" (Int 2) name "ada@example.com"
    (Some phone) "969" "pending".

Definition one_booking : MemStorage :=
  snd (createBooking "b-1" 1710028800000 no_records (payload "Ada" "555-0100")).

(** ** Booking payload validation (shared/schema.ts)

    The part of the validation library that [insertBookingSchema] uses.  A
    schema reads a value found at a path and gives the issues it raises and,
    when the value has the right type, the parsed value. *)
Module Zod.
Section Schemas.

(** The library's test behind [.email()].  Its pattern is the library's, not
    this repository's; the schema only relies on its verdict. *)
Variable isEmail : string -> bool.

Definition schema (A : Type) : Type := list string -> value -> list issue * option A.
Definition check (A : Type) : Type := A -> option (issue_code * issue_message).

Definition run_checks {A : Type} (p : list string) (cs : list (check A)) (a : A)
  : list issue :=
  flat_map (fun c => match c a with
                     | Some (k, m) => [mkIssue p k m]
                     | None => []
                     end) cs.

(** [z.string()] followed by its checks. *)
Definition string_ (cs : list (check string)) : schema string :=
  fun p v =>
    match v with
    | VString s => (run_checks p cs s, Some s)
    | _ => ([mkIssue p invalid_type LibraryDefault], None)
    end.

(** [z.number()] followed by its checks; NaN is not accepted as a number. *)
Definition number_ (cs : list (check number)) : schema number :=
  fun p v =>
    match v with
    | VNumber NaN => ([mkIssue p invalid_type LibraryDefault], None)
    | VNumber n => (run_checks p cs n, Some n)
    | _ => ([mkIssue p invalid_type LibraryDefault], None)
    end.

(** [.min(n, message)] on a string: at least [n] characters. *)
Definition min_length (n : nat) (msg : string) : check string :=
  fun s => if Nat.ltb (String.length s) n then Some (too_small, Custom msg) else None.

(** [.email(message)] *)
Definition email (msg : string) : check string :=
  fun s => if isEmail s then None else Some (invalid_string, Custom msg).

(** [.min(n, message)] on a number: fails when the value is below [n]. *)
Definition min (n : number) (msg : string) : check number :=
  fun x => if Number.lt x n then Some (too_small, Custom msg) else None.

(** [.max(n, message)] on a number: fails when the value is above [n]. *)
Definition max (n : number) (msg : string) : check number :=
  fun x => if Number.lt n x then Some (too_big, Custom msg) else None.

(** [.optional()] *)
Definition optional {A : Type} (inner : schema A) : schema (option A) :=
  fun p v =>
    match v with
    | VUndefined => ([], Some None)
    | _ => let '(found, r) := inner p v in (found, option_map Some r)
    end.

(** [.default(d)] *)
Definition default {A : Type} (inner : schema A) (d : value) : schema A :=
  fun p v =>
    match v with
    | VUndefined => inner p d
    | _ => inner p v
    end.

(** [obj[key]] for an object that is known to be one. *)
Fixpoint prop (props : list (string * value)) (key : string) : value :=
  match props with
  | [] => VUndefined
  | (k, v) :: rest => if String.eqb k key then v else prop rest key
  end.

(** One key of a [z.object] shape. *)
Definition field {A : Type} (props : list (string * value)) (key : string)
    (s : schema A) : list issue * option A :=
  s [key] (prop props key).

(** The shape of [insertBookingSchema], key by key. *)
Definition checkinDate_ : schema string :=
  string_ [min_length 1 "Check-in date is required"].
Definition checkoutDate_ : schema string :=
  string_ [min_length 1 "Check-out date is required"].
Definition guests_ : schema number :=
  number_ [min (Int 1) "At least 1 guest is required";
           max (Int 10) "Maximum 10 guests allowed"].
Definition guestName_ : schema string :=
  string_ [min_length 1 "Guest name is required"].
Definition guestEmail_ : schema string :=
  string_ [email "Valid email is required"].
Definition guestPhone_ : schema (option string) :=
  optional (string_ []).
Definition totalAmount_ : schema string :=
  string_ [min_length 1 "Total amount is required"].
Definition status_ : schema string :=
  default (string_ []) (VString "pending").

(** All issues of an object against the shape, in the order of the keys. *)
Definition insertBookingSchema_issues (o : list (string * value)) : list issue :=
  fst (field o "checkinDate" checkinDate_)
  ++ fst (field o "checkoutDate" checkoutDate_)
  ++ fst (field o "guests" guests_)
  ++ fst (field o "guestName" guestName_)
  ++ fst (field o "guestEmail" guestEmail_)
  ++ fst (field o "guestPhone" guestPhone_)
  ++ fst (field o "totalAmount" totalAmount_)
  ++ fst (field o "status" status_).

(** [insertBookingSchema.parse(data)]: every key of the shape is validated
    and all issues are collected; unknown keys are dropped; one issue or more
    and a [ZodError] with all of them is thrown. *)
Definition insertBookingSchema_parse (data : value) : result InsertBooking :=
  match data with
  | VObject o =>
      match insertBookingSchema_issues o,
            snd (field o "checkinDate" checkinDate_),
            snd (field o "checkoutDate" checkoutDate_),
            snd (field o "guests" guests_),
            snd (field o "guestName" guestName_),
            snd (field o "guestEmail" guestEmail_),
            snd (field o "guestPhone" guestPhone_),
            snd (field o "totalAmount" totalAmount_),
            snd (field o "status" status_) with
      | [], Some ci, Some co, Some g, Some n, Some e, Some ph, Some t, Some st =>
          Return (Insert.mk ci co g n e ph t st)
      | issues, _, _, _, _, _, _, _, _ => Throw (ZodError issues)
      end
  | _ => Throw (ZodError [mkIssue [] invalid_type LibraryDefault])
  end.

End Schemas.
End Zod.

(** The string has an at sign. *)
Fixpoint has_at (s : string) : bool :=
  match s with
  | EmptyString => false
  | String c s' => Ascii.eqb c "@" || has_at s'
  end.

(** What the schema expects of the library's email test: no address without
    an at sign passes. *)
Definition email_needs_at (isEmail : string -> bool) : Prop :=
  forall s, isEmail s = true -> has_at s = true.

(** A request body for a confirmed booking with the given guest count and
    email. *)
Definition booking_body (guests : value) (email : string) : value :=
  VObject [("checkinDate", VString "2024-03-10");
           ("checkoutDate", VString "2024-03-11");
           ("guests", guests);
           ("guestName", VString "Ada");
           ("guestEmail", VString email);
           ("totalAmount", VString "969");
           ("status", VString "confirmed")]%string.

(** ** Effects of the server

    A handler runs against the process-wide [storage] and the console, and
    may throw. *)
Inductive log : Type :=
| Warn (text : string)
| LogError (text : string) (error : exn).

Record World : Type := mkWorld {
  storage : MemStorage;
  console : list log
}.

Definition M (A : Type) : Type := World -> result A * World.

Definition ret {A : Type} (a : A) : M A := fun w => (Return a, w).

Definition bind {A B : Type} (c : M A) (k : A -> M B) : M B :=
  fun w =>
    match c w with
    | (Return a, w') => k a w'
    | (Throw e, w') => (Throw e, w')
    end.

(** [try { c } catch (error) { handler }] *)
Definition try_catch {A : Type} (c : M A) (handler : exn -> M A) : M A :=
  fun w =>
    match c w with
    | (Return a, w') => (Return a, w')
    | (Throw e, w') => handler e w'
    end.

(** A call that neither reads nor writes the world. *)
Definition lift {A : Type} (r : result A) : M A := fun w => (r, w).

Declare Scope M_scope.
Delimit Scope M_scope with M.
Notation "x <- c ;; k" := (bind c (fun x => k))
  (at level 61, c at next level, right associativity) : M_scope.
Notation "c ;; k" := (bind c (fun _ => k))
  (at level 61, right associativity) : M_scope.
Local Open Scope M_scope.

Definition console_warn (text : string) : M unit :=
  fun w => (Return tt, mkWorld (storage w) (console w ++ [Warn text])).

Definition console_error (text : string) (error : exn) : M unit :=
  fun w => (Return tt, mkWorld (storage w) (console w ++ [LogError text error])).

(** [await storage.createBooking(data)] *)
Definition storage_createBooking (uuid : string) (now : Z) (data : InsertBooking)
  : M Booking :=
  fun w =>
    let '(booking, s') := createBooking uuid now (storage w) data in
    (Return booking, mkWorld s' (console w)).

(** [await storage.updateBooking(id, updateData)] *)
Definition storage_updateBooking (id : string) (updateData : PartialBooking)
  : M (option Booking) :=
  fun w =>
    let '(booking, s') := updateBooking (storage w) id updateData in
    (Return booking, mkWorld s' (console w)).

(** ** Notifier (server/email.ts) *)
Record EmailParams : Type := mkEmailParams {
  to : string;
  from : string;
  subject : string;
  html : string
}.

(** [s.slice(-n)]: the last [n] characters of [s], all of it when shorter. *)
Definition slice_last (n : nat) (s : string) : string :=
  substring (String.length s - n) n s.

Section Notifier.

(** The mail service's [send]: it resolves, or rejects with an error. *)
Variable mailService_send : EmailParams -> result unit.

(** The HTML of the confirmation mail.  Its text is formatted by the host's
    locale functions; for the caller it returns a string or throws. *)
Variable generateBookingConfirmationEmail : Booking -> result string.

Definition sendEmail (params : EmailParams) : M bool :=
  try_catch
    (lift (mailService_send params) ;;
     ret true)
    (fun error =>
       console_error "SendGrid email error:" error ;;
       ret false).

Definition sendBookingConfirmation (booking : Booking) : M bool :=
  emailHtml <- lift (generateBookingConfirmationEmail booking) ;;
  sendEmail
    {| to := guestEmail booking;
       from := "reservations@luxestay.com";
       subject := "Booking Confirmed - LuxeStay Villa Reservation #"
                  ++ slice_last 8 (id booking);
       html := emailHtml |}.

End Notifier.

(** ** Booking routes (server/routes.ts) *)
Inductive json : Type :=
| JBooking (booking : Booking)
| JBookings (bookings : list Booking)
| JMessage (message : string)
| JValidation (message : string) (errors : list issue).

(** What the handler sends: [res.status(code).json(body)]. *)
Record response : Type := mkResponse {
  statusCode : Z;
  body : json
}.

(** [v === s] for a string literal [s]. *)
Definition strict_eq_string (v : value) (s : string) : bool :=
  match v with
  | VString s' => String.eqb s' s
  | _ => false
  end.

(** [const { key } = v]: undefined and null cannot be destructured; a
    primitive or an array has no such property. *)
Definition destructure (v : value) (key : string) : result value :=
  match v with
  | VUndefined | VNull => Throw (TypeError "Cannot destructure property")
  | VObject props => Return (Zod.prop props key)
  | _ => Return VUndefined
  end.

Section Routes.

Variable isEmail : string -> bool.
Variable mailService_send : EmailParams -> result unit.
Variable generateBookingConfirmationEmail : Booking -> result string.

(** [app.post("/api/bookings", ...)] on the request body [req_body]; [uuid]
    and [now] are what [randomUUID()] and [new Date()] give during the
    request. *)
Definition post_bookings (uuid : string) (now : Z) (req_body : value) : M response :=
  try_catch
    (validatedData <- lift (Zod.insertBookingSchema_parse isEmail req_body) ;;
     booking <- storage_createBooking uuid now validatedData ;;
     (if strict_eq_string (status booking) "confirmed"
      then
        try_catch
          (emailSent <- sendBookingConfirmation mailService_send
                          generateBookingConfirmationEmail booking ;;
           if negb emailSent
           then console_warn ("Failed to send confirmation email for booking "
                              ++ id booking)
           else ret tt)
          (fun error =>
             console_error ("Error sending confirmation email for booking "
                            ++ id booking ++ ":") error)
      else ret tt) ;;
     ret (mkResponse 201 (JBooking booking)))
    (fun error =>
       match error with
       | ZodError errors => ret (mkResponse 400 (JValidation "Validation error" errors))
       | _ => ret (mkResponse 500 (JMessage "Failed to create booking"))
       end).

(** [app.patch("/api/bookings/:id", ...)] *)
Definition patch_booking (params_id : string) (req_body : value) : M response :=
  try_catch
    (status <- lift (destructure req_body "status") ;;
     if negb (truthy status)
     then ret (mkResponse 400 (JMessage "Status is required"))
     else
       booking <- storage_updateBooking params_id (Partial.status_only status) ;;
       match booking with
       | None => ret (mkResponse 404 (JMessage "Booking not found"))
       | Some b => ret (mkResponse 200 (JBooking b))
       end)
    (fun _ => ret (mkResponse 500 (JMessage "Failed to update booking"))).

End Routes.

(** The notifying step of the POST handler: its inner try and catch. *)
Definition notify (mailService_send : EmailParams -> result unit)
    (generateBookingConfirmationEmail : Booking -> result string)
    (booking : Booking) : M unit :=
  try_catch
    (emailSent <- sendBookingConfirmation mailService_send
                    generateBookingConfirmationEmail booking ;;
     if negb emailSent
     then console_warn ("Failed to send confirmation email for booking "
                        ++ id booking)
     else ret tt)
    (fun error =>
       console_error ("Error sending confirmation email for booking "
                      ++ id booking ++ ":") error).

(** A mail service that is down, one that works, a template that returns and
    one that throws; a server that has just started. *)
Definition mail_down (_ : EmailParams) : result unit :=
  Throw (Error "Service Unavailable").
Definition mail_up (_ : EmailParams) : result unit := Return tt.
Definition template_ok (_ : Booking) : result string := Return "<html></html>"%string.
Definition template_throws (_ : Booking) : result string :=
  Throw (TypeError "toLocaleDateString").

Definition fresh_world : World := mkWorld no_records [].

(** ** Card fields of the payment form (client/src/components/booking-form.tsx)

    The strings of the two fields are taken as sequences of code units below
    256, the characters of [string]. *)

(** [\d] and [[0-9]] *)
Definition is_digit (c : ascii) : bool :=
  let n := nat_of_ascii c in (Nat.leb 48 n && Nat.leb n 57)%bool.

(** [\s] on code units below 256: tab, line feed, vertical tab, form feed,
    carriage return, space and no-break space. *)
Definition is_space (c : ascii) : bool :=
  let n := nat_of_ascii c in
  (Nat.leb 9 n && Nat.leb n 13 || Nat.eqb n 32 || Nat.eqb n 160)%bool.

(** [s.replace(/class/g, '')] and [s.replace(/class+/g, '')]: every character
    of the class is deleted. *)
Fixpoint delete_all (class : ascii -> bool) (s : string) : string :=
  match s with
  | EmptyString => EmptyString
  | String c s' => if class c then delete_all class s' else String c (delete_all class s')
  end.

(** The longest run of at most [n] digits that starts [s]. *)
Fixpoint digit_run (n : nat) (s : string) : string :=
  match n, s with
  | S n', String c s' => if is_digit c then String c (digit_run n' s') else EmptyString
  | _, _ => EmptyString
  end.

(** [s.match(/\d{4,16}/g)] as far as its first element: the leftmost run of
    four digits or more, up to sixteen of them; [None] is [null]. *)
Fixpoint first_card_match (s : string) : option string :=
  match s with
  | EmptyString => None
  | String _ s' =>
      let run := digit_run 16 s in
      if Nat.leb 4 (String.length run) then Some run else first_card_match s'
  end.

(** The loop [for (i = 0; i < len; i += 4) parts.push(match.substring(i, i + 4))],
    from index [i] on; [fuel] bounds the number of rounds. *)
Fixpoint card_parts (fuel i : nat) (matched : string) : list string :=
  match fuel with
  | O => []
  | S fuel' =>
      if Nat.ltb i (String.length matched)
      then substring i 4 matched :: card_parts fuel' (i + 4) matched
      else []
  end.

(** [parts.join(sep)] *)
Fixpoint join (sep : string) (parts : list string) : string :=
  match parts with
  | [] => EmptyString
  | [p] => p
  | p :: rest => p ++ sep ++ join sep rest
  end.

Definition formatCardNumber (value : string) : string :=
  let v := delete_all (fun c => negb (is_digit c)) (delete_all is_space value) in
  let matches := first_card_match v in
  let matched := match matches with Some m => m | None => EmptyString end in
  let parts := card_parts (String.length matched) 0 matched in
  match parts with
  | [] => v
  | _ => join " " parts
  end.

Definition formatExpiry (value : string) : string :=
  let v := delete_all (fun c => negb (is_digit c)) (delete_all is_space value) in
  if Nat.leb 2 (String.length v)
  then substring 0 2 v ++ "/" ++ substring 2 2 v
  else v.


(** The digits of a string, in order. *)
Definition digits_of (value : string) : string :=
  delete_all (fun c => negb (is_digit c)) value.

(** Every character of the string is in the class. *)
Fixpoint all_chars (class : ascii -> bool) (s : string) : bool :=
  match s with
  | EmptyString => true
  | String c s' => class c && all_chars class s'
  end.

(** The string without its first [n] characters. *)
Fixpoint drop (n : nat) (s : string) : string :=
  match n, s with
  | S n', String _ s' => drop n' s'
  | _, _ => s
  end.

(** ** Slideshow (client/src/components/slideshow.tsx) *)

(** The integer part of a rational, towards zero. *)
Definition Qtrunc (r : Q) : Z := if Qle_bool 0 r then Qfloor r else Qceiling r.

(** [x % y]: the remainder has the sign of [x] and is a binary64 number
    whenever [x] and [y] are, so nothing is rounded. *)
Definition Number_rem (x y : number) : number :=
  match x, y with
  | NaN, _ | _, NaN => NaN
  | Infinity _, _ => NaN
  | Fin p, Infinity _ => Fin p
  | Fin p, Fin q =>
      if Number.is_zero q then NaN
      else Fin (Qred (p - q * inject_Z (Qtrunc (p / q))))
  end.
Infix "mod" := Number_rem : js_scope.

(** [setCurrentSlide((prev) => (prev + 1) % images.length)]: the new index,
    for [images.length] and the index before. *)
Definition nextSlide (images_length prev : number) : number :=
  ((prev + Int 1) mod images_length)%js.

(** [setCurrentSlide((prev) => (prev - 1 + images.length) % images.length)] *)
Definition previousSlide (images_length prev : number) : number :=
  ((prev - Int 1 + images_length) mod images_length)%js.

(** [setCurrentSlide(index)] *)
Definition goToSlide (index : number) : number := index.

(** ** The rest of the repository (server/storage.ts) *)

(** [InsertUser], [InsertContact], [InsertContentSection] and
    [InsertPropertyImage], as the schemas infer them. *)
Module NewUser.
Record InsertUser : Type := mk {
  username : string;
  password : string
}.
End NewUser.

Module NewContact.
Record InsertContact : Type := mk {
  name : string;
  email : string;
  message : string
}.
End NewContact.

Module NewSection.
Record InsertContentSection : Type := mk {
  sectionKey : string;
  title : string;
  content : string;
  metadata : option string
}.
End NewSection.

Module NewImage.
Record InsertPropertyImage : Type := mk {
  category : string;
  url : string;
  title : option string;
  description : option string;
  sortOrder : number;
  isActive : string
}.
End NewImage.

(** [Partial<ContentSection>] and [Partial<PropertyImage>]. *)
Module PartialSection.
Record PartialContentSection : Type := mk {
  id : option string;
  sectionKey : option string;
  title : option string;
  content : option string;
  metadata : option (option string);
  updatedAt : option Date
}.
End PartialSection.

Module PartialImage.
End PartialImage.

Definition with_users (s : MemStorage) (m : JSMap.t User) : MemStorage :=
  mkMemStorage m (bookings s) (contacts s) (contentSections s) (propertyImages s).
Definition with_contacts (s : MemStorage) (m : JSMap.t Contact) : MemStorage :=
  mkMemStorage (users s) (bookings s) m (contentSections s) (propertyImages s).
Definition with_contentSections (s : MemStorage) (m : JSMap.t ContentSection)
  : MemStorage :=
  mkMemStorage (users s) (bookings s) (contacts s) m (propertyImages s).
Definition with_propertyImages (s : MemStorage) (m : JSMap.t PropertyImage)
  : MemStorage :=
  mkMemStorage (users s) (bookings s) (contacts s) (contentSections s) m.

(** [m.delete(k)]: the map without the key, and whether the key was there. *)
Fixpoint Map_delete {V : Type} (m : JSMap.t V) (k : string) : bool * JSMap.t V :=
  match m with
  | [] => (false, [])
  | (k', v) :: m' =>
      if String.eqb k' k then (true, m')
      else let '(found, rest) := Map_delete m' k in (found, (k', v) :: rest)
  end.

(** [s || null] for an optional string: absent and empty both give null. *)
Definition string_or_null (s : option string) : option string :=
  match s with
  | Some text => if not_string text then None else Some text
  | None => None
  end.

(** Truthiness of a number: all but 0 and NaN. *)
Definition number_truthy (n : number) : bool :=
  match n with
  | NaN => false
  | Infinity _ => true
  | Fin q => negb (Number.is_zero q)
  end.

(** [n || 0] for a number that may be null. *)
Definition number_or_zero (n : option number) : number :=
  match n with
  | Some x => if number_truthy x then x else Int 0
  | None => Int 0
  end.

(** [getUser(id)] *)
Definition getUser (s : MemStorage) (id : string) : option User :=
  JSMap.get (users s) id.

(** [getUserByUsername(username)]: the first user, in insertion order, of
    that name. *)
Definition getUserByUsername (s : MemStorage) (name : string) : option User :=
  find (fun user => String.eqb (username user) name) (JSMap.values (users s)).

(** [createUser(insertUser)] *)
Definition createUser (uuid : string) (s : MemStorage)
    (insertUser : NewUser.InsertUser) : User * MemStorage :=
  let id := uuid in
  let user :=
    {| user_id := id;
       username := NewUser.username insertUser;
       password := NewUser.password insertUser |} in
  (user, with_users s (JSMap.set (users s) id user)).

(** [getContacts()] *)
Definition getContacts (s : MemStorage) : list Contact :=
  Array_sort
    (fun a b => (getTime (Date_copy (contact_createdAt b))
                 - getTime (Date_copy (contact_createdAt a)))%js)
    (JSMap.values (contacts s)).

(** [createContact(insertContact)] *)
Definition createContact (uuid : string) (now : Z) (s : MemStorage)
    (insertContact : NewContact.InsertContact) : Contact * MemStorage :=
  let id := uuid in
  let contact :=
    {| contact_id := id;
       contact_name := NewContact.name insertContact;
       contact_email := NewContact.email insertContact;
       contact_message := NewContact.message insertContact;
       contact_createdAt := TimeValue now |} in
  (contact, with_contacts s (JSMap.set (contacts s) id contact)).

(** [getContentSections()] *)
Definition getContentSections (s : MemStorage) : list ContentSection :=
  Array_sort
    (fun a b => (getTime (Date_copy (section_updatedAt b))
                 - getTime (Date_copy (section_updatedAt a)))%js)
    (JSMap.values (contentSections s)).

(** [getContentSection(sectionKey)]: found by its property, not by the key
    of the map. *)
Definition getContentSection (s : MemStorage) (key : string) : option ContentSection :=
  find (fun section => String.eqb (sectionKey section) key)
       (JSMap.values (contentSections s)).

(** [createContentSection(insertContent)]: stored under its [sectionKey]. *)
Definition createContentSection (uuid : string) (now : Z) (s : MemStorage)
    (insertContent : NewSection.InsertContentSection) : ContentSection * MemStorage :=
  let id := uuid in
  let content :=
    {| section_id := id;
       sectionKey := NewSection.sectionKey insertContent;
       section_title := NewSection.title insertContent;
       section_content := NewSection.content insertContent;
       section_metadata := string_or_null (NewSection.metadata insertContent);
       section_updatedAt := TimeValue now |} in
  (content,
   with_contentSections s (JSMap.set (contentSections s) (sectionKey content) content)).

(** [{ ...existing, ...updateData, updatedAt: new Date() }] *)
Definition merge_section (now : Z) (existing : ContentSection)
    (updateData : PartialSection.PartialContentSection) : ContentSection :=
  {| section_id := spread (section_id existing) (PartialSection.id updateData);
     sectionKey := spread (sectionKey existing) (PartialSection.sectionKey updateData);
     section_title := spread (section_title existing) (PartialSection.title updateData);
     section_content := spread (section_content existing) (PartialSection.content updateData);
     section_metadata :=
       spread (section_metadata existing) (PartialSection.metadata updateData);
     section_updatedAt := TimeValue now |}.

(** [updateContentSection(sectionKey, updateData)] *)
Definition updateContentSection (now : Z) (s : MemStorage) (key : string)
    (updateData : PartialSection.PartialContentSection) : option ContentSection * MemStorage :=
  match getContentSection s key with
  | None => (None, s)
  | Some existing =>
      let updated := merge_section now existing updateData in
      (Some updated,
       with_contentSections s (JSMap.set (contentSections s) key updated))
  end.


(** [getPropertyImage(id)] *)
Definition getPropertyImage (s : MemStorage) (id : string) : option PropertyImage :=
  JSMap.get (propertyImages s) id.

(** [createPropertyImage(insertImage)] *)
Definition createPropertyImage (uuid : string) (s : MemStorage)
    (insertImage : NewImage.InsertPropertyImage) : PropertyImage * MemStorage :=
  let id := uuid in
  let image :=
    {| image_id := id;
       image_category := NewImage.category insertImage;
       image_url := NewImage.url insertImage;
       image_title := string_or_null (NewImage.title insertImage);
       image_description := string_or_null (NewImage.description insertImage);
       image_sortOrder := Some (number_or_zero (Some (NewImage.sortOrder insertImage)));
       image_isActive :=
         if not_string (NewImage.isActive insertImage) then "true"%string
         else NewImage.isActive insertImage |} in
  (image, with_propertyImages s (JSMap.set (propertyImages s) id image)).



(** [deletePropertyImage(id)] *)
Definition deletePropertyImage (s : MemStorage) (id : string) : bool * MemStorage :=
  let '(found, m) := Map_delete (propertyImages s) id in
  (found, with_propertyImages s m).

(** *** Words for the properties of the rest of the repository *)

(** A valid date, and its time value. *)
Definition valid_date (d : Date) : Prop :=
  exists t, d = TimeValue t /\ Z.abs t <= maxTime.

Definition time_of (d : Date) : Z :=
  match d with
  | TimeValue t => t
  | InvalidDate => 0
  end.

(** Every content section is stored under its own [sectionKey]. *)
Definition sections_keyed (s : MemStorage) : Prop :=
  Forall (fun entry => sectionKey (snd entry) = fst entry) (contentSections s).



(** What the booking routes keep true of the repository: every booking has a
    valid creation date and is stored under its own [id]. *)
Definition repository_ok (s : MemStorage) : Prop :=
  Forall valid_created (JSMap.values (bookings s)) /\ bookings_keyed s.



(** ** The reading routes of the bookings (server/routes.ts) *)

(** [await storage.getBookings()] and [await storage.getBooking(id)] *)
Definition storage_getBookings : M (list Booking) :=
  fun w => (Return (getBookings (storage w)), w).

Definition storage_getBooking (id : string) : M (option Booking) :=
  fun w => (Return (getBooking (storage w) id), w).

(** [app.get("/api/bookings", ...)] *)
Definition get_bookings : M response :=
  try_catch
    (bookings <- storage_getBookings ;;
     ret (mkResponse 200 (JBookings bookings)))
    (fun _ => ret (mkResponse 500 (JMessage "Failed to fetch bookings"))).

(** [app.get("/api/bookings/:id", ...)] *)
Definition get_booking (params_id : string) : M response :=
  try_catch
    (booking <- storage_getBooking params_id ;;
     match booking with
     | None => ret (mkResponse 404 (JMessage "Booking not found"))
     | Some b => ret (mkResponse 200 (JBooking b))
     end)
    (fun _ => ret (mkResponse 500 (JMessage "Failed to fetch booking"))).

(** A request body that leaves the status and the phone out. *)
Definition plain_body (guests : value) (email : string) : value :=
  VObject [("checkinDate", VString "2024-03-10");
           ("checkoutDate", VString "2024-03-11");
           ("guests", guests);
           ("guestName", VString "Ada");
           ("guestEmail", VString email);
           ("totalAmount", VString "969")]%string.

(** * Properties *)

(** ** Rounding *)
Module NumberFacts.

Lemma Qred_inject_Z (z : Z) : Qred (inject_Z z) = inject_Z z.
Proof.
  unfold Qred, inject_Z.
  generalize (Z.ggcd_gcd z 1) (Z.ggcd_correct_divisors z 1).
  destruct (Z.ggcd z 1) as [g [u v]]; simpl.
  rewrite Z.gcd_1_r. intros -> [Hu Hv].
  replace u with z by lia. replace v with 1 by lia. reflexivity.
Qed.

Lemma Qred_Int_eq (q : Q) (z : Z) : q == inject_Z z -> Qred q = inject_Z z.
Proof.
  intros H. rewrite <- (Qred_inject_Z z). now apply Qred_complete.
Qed.

Lemma round64_ext (p q : Q) :
  Qnum p = Qnum q -> Qden p = Qden q -> round64 p = round64 q.
Proof. destruct p, q; simpl; intros -> ->; reflexivity. Qed.

Lemma rne_exact (q b : Z) : 0 < b -> rne (q * b) b = q.
Proof.
  intros Hb. unfold rne.
  rewrite Z.div_mul, Z.mod_mul by lia.
  destruct (Z.ltb_spec (2 * 0) b); [reflexivity | lia].
Qed.

(** The nearest integer is within one half. *)
Lemma rne_1 (a : Z) : rne a 1 = a.
Proof. rewrite <- (Z.mul_1_r a) at 1. apply rne_exact. lia. Qed.

Lemma rne_bounds (a b : Z) :
  0 < b -> 2 * a - b <= 2 * (rne a b * b) <= 2 * a + b.
Proof.
  intros Hb. unfold rne.
  pose proof (Z.div_mod a b ltac:(lia)) as E.
  pose proof (Z.mod_pos_bound a b Hb) as R.
  destruct (Z.ltb_spec (2 * (a mod b)) b);
    [| destruct (Z.ltb_spec b (2 * (a mod b))); [| destruct (Z.even (a / b))]];
    nia.
Qed.

Lemma rne_sign_neg (a b : Z) : 0 < b -> a <= 0 -> rne a b <= 0.
Proof.
  intros Hb Ha. pose proof (rne_bounds a b Hb). nia.
Qed.

Lemma binade_Z (a : Z) : 0 < a -> binade a 1 = Z.log2 a.
Proof.
  intros Ha. unfold binade, scale. simpl (Z.log2 1). rewrite Z.sub_0_r.
  pose proof (Z.log2_nonneg a) as Hn.
  destruct (Z.leb_spec 0 (Z.log2 a)); [| lia].
  pose proof (Z.log2_spec a Ha) as [Hl _].
  destruct (Z.ltb_spec a (1 * 2 ^ Z.log2 a)); lia.
Qed.

Lemma binade_pow2_den (a j : Z) :
  0 < a -> 0 <= j -> binade a (2 ^ j) = Z.log2 a - j.
Proof.
  intros Ha Hj. unfold binade, scale. rewrite Z.log2_pow2 by lia.
  pose proof (Z.log2_spec a Ha) as [Hl _].
  pose proof (Z.log2_nonneg a) as Hn.
  destruct (Z.leb_spec 0 (Z.log2 a - j)).
  - rewrite <- Z.pow_add_r by lia. replace (j + (Z.log2 a - j)) with (Z.log2 a) by lia.
    destruct (Z.ltb_spec a (2 ^ Z.log2 a)); lia.
  - assert (2 ^ j = 2 ^ Z.log2 a * 2 ^ (- (Z.log2 a - j))) as E.
    { rewrite <- Z.pow_add_r by lia. f_equal. lia. }
    assert (0 < 2 ^ (- (Z.log2 a - j))) by (apply Z.pow_pos_nonneg; lia).
    destruct (Z.ltb_spec (a * 2 ^ (- (Z.log2 a - j))) (2 ^ j)); [| reflexivity].
    nia.
Qed.

Lemma binade_bounds (a b : Z) :
  Z.log2 a - Z.log2 b - 1 <= binade a b <= Z.log2 a - Z.log2 b.
Proof.
  unfold binade. destruct (scale a b (Z.log2 a - Z.log2 b)) as [x y].
  destruct (x <? y); lia.
Qed.

(** Integers of at most 53 bits are binary64 values: rounding keeps them. *)
Lemma round64_Z (z : Z) : Z.abs z <= 2 ^ 53 -> round64 (inject_Z z) = Int z.
Proof.
  intros Hz. unfold round64, Int. cbn [Qnum Qden inject_Z].
  destruct (Z.eqb_spec z 0) as [-> | Hnz]; [reflexivity |].
  assert (0 < Z.abs z) as Hpos by lia.
  rewrite (binade_Z _ Hpos).
  pose proof (Z.log2_spec _ Hpos) as [Hlo Hhi].
  pose proof (Z.log2_nonneg (Z.abs z)) as Hn.
  assert (Z.log2 (Z.abs z) <= 53) as Hl.
  { replace 53 with (Z.log2 (2 ^ 53)) by reflexivity. now apply Z.log2_le_mono. }
  set (l := Z.log2 (Z.abs z)) in *.
  rewrite Z.max_l by lia.
  unfold scale, dyadic.
  destruct (Z.leb_spec 0 (l - 52)) as [He | He].
  - (* 52 or 53 bits *)
    assert (l = 52 \/ l = 53) as [E | E] by lia; rewrite E in *.
    + change (52 - 52) with 0. change (1 * 2 ^ 0) with 1.
      rewrite rne_1.
      cbn [andb]. destruct (Z.leb_spec (2 ^ 1024) (Z.abs z * 2 ^ 0)) as [Hov | _].
      { exfalso. change (2 ^ 0) with 1 in Hov.
        assert (2 ^ 53 < 2 ^ 1024) by (apply Z.pow_lt_mono_r; lia). lia. }
      f_equal. change (2 ^ 0) with 1. rewrite Z.mul_1_r. apply Qred_inject_Z.
    + change (53 - 52) with 1. change (1 * 2 ^ 1) with 2.
      assert (Z.abs z = 2 ^ 53) as Habs by (change (2 ^ 53) with 9007199254740992 in *; lia).
      assert (exists h, z = h * 2 /\ Z.abs h = 2 ^ 52) as (h & -> & Hh).
      { change (2 ^ 53) with 9007199254740992 in Habs.
        assert (z = 9007199254740992 \/ z = - 9007199254740992) as [-> | ->] by lia;
          [exists 4503599627370496 | exists (- 4503599627370496)]; split; reflexivity. }
      rewrite rne_exact by lia.
      cbn [andb]. destruct (Z.leb_spec (2 ^ 1024) (Z.abs h * 2 ^ 1)) as [Hov | _].
      { exfalso. rewrite Hh in Hov. vm_compute in Hov. now apply Hov. }
      f_equal. apply Qred_Int_eq. reflexivity.
  - destruct (Z.leb_spec 0 (l - 52)); [lia |]. cbn [andb].
    replace (- (l - 52)) with (52 - l) by lia.
    assert (0 < 2 ^ (52 - l)) as HP by (apply Z.pow_pos_nonneg; lia).
    rewrite rne_1.
    f_equal. apply Qred_Int_eq. unfold Qeq. cbn [Qnum Qden inject_Z].
    rewrite Z2Pos.id by lia. ring.
Qed.

(** Integers of 54 bits are rounded to the nearest even integer. *)
Lemma round64_Z_54 (z : Z) :
  2 ^ 53 <= Z.abs z < 2 ^ 54 -> round64 (inject_Z z) = Int (rne z 2 * 2).
Proof.
  intros Hz. unfold round64, Int. cbn [Qnum Qden inject_Z].
  change (2 ^ 53) with 9007199254740992 in Hz.
  change (2 ^ 54) with 18014398509481984 in Hz.
  destruct (Z.eqb_spec z 0) as [-> | Hnz]; [simpl in Hz; lia |].
  assert (0 < Z.abs z) as Hpos by lia.
  rewrite (binade_Z _ Hpos).
  assert (Z.log2 (Z.abs z) = 53) as ->.
  { apply Z.log2_unique; [lia |]. change (2 ^ 53) with 9007199254740992.
    change (2 ^ Z.succ 53) with 18014398509481984. lia. }
  change (Z.max (53 - 52) (-1074)) with 1.
  change (scale z 1 1) with (z, 2). cbv beta iota.
  pose proof (rne_bounds z 2 ltac:(lia)) as Hm.
  destruct (Z.leb_spec (2 ^ 1024) (Z.abs (rne z 2) * 2 ^ 1)) as [Hov | _].
  { exfalso. assert (2 ^ 55 < 2 ^ 1024) by (apply Z.pow_lt_mono_r; lia).
    change (2 ^ 55) with 36028797018963968 in *. change (2 ^ 1) with 2 in Hov. lia. }
  change (0 <=? 1) with true. cbn [andb]. f_equal. apply Qred_Int_eq. reflexivity.
Qed.

(** Positive rationals in the normal range below 2^52: the significand is the
    rational scaled by [2^(52-k)] and rounded to an integer. *)
Lemma round64_normal (a : Z) (b : positive) :
  0 < a ->
  let k := binade a (Zpos b) in
  -1022 <= k < 52 ->
  round64 (a # b) =
  Fin (Qred (rne (a * 2 ^ (52 - k)) (Zpos b) # Z.to_pos (2 ^ (52 - k)))).
Proof.
  intros Ha k Hk. unfold round64. cbn [Qnum Qden].
  destruct (Z.eqb_spec a 0); [lia |].
  rewrite Z.abs_eq by lia. fold k.
  rewrite Z.max_l by lia.
  unfold scale, dyadic.
  destruct (Z.leb_spec 0 (k - 52)); [lia |]. cbn [andb].
  replace (- (k - 52)) with (52 - k) by lia. reflexivity.
Qed.

Lemma scale_den_pos (a b e : Z) : 0 < b -> 0 < snd (scale a b e).
Proof.
  intros Hb. unfold scale. destruct (Z.leb_spec 0 e); simpl; [| assumption].
  assert (0 < 2 ^ e) by (apply Z.pow_pos_nonneg; lia). nia.
Qed.

Lemma scale_num_nonpos (a b e : Z) : a <= 0 -> fst (scale a b e) <= 0.
Proof.
  intros Ha. unfold scale. destruct (Z.leb_spec 0 e); simpl; [assumption |].
  assert (0 < 2 ^ (- e)) by (apply Z.pow_pos_nonneg; lia). nia.
Qed.

Lemma dyadic_nonpos (m e : Z) : m <= 0 -> (dyadic m e <= 0)%Q.
Proof.
  intros Hm. unfold dyadic. destruct (Z.leb_spec 0 e).
  - assert (0 < 2 ^ e) by (apply Z.pow_pos_nonneg; lia).
    unfold Qle, inject_Z; simpl. nia.
  - unfold Qle; simpl. lia.
Qed.

(** Rounding does not turn a non-positive number into a positive one. *)
Lemma round64_nonpos (q : Q) : (q <= 0)%Q -> nonpos (round64 q).
Proof.
  intros Hq. unfold nonpos, round64.
  assert (Qnum q <= 0) as Ha by (unfold Qle in Hq; simpl in Hq; lia).
  destruct (Z.eqb_spec (Qnum q) 0); [reflexivity |].
  set (e := Z.max _ _).
  pose proof (scale_den_pos (Qnum q) (Zpos (Qden q)) e ltac:(lia)) as Hd.
  pose proof (scale_num_nonpos (Qnum q) (Zpos (Qden q)) e Ha) as Hn.
  destruct (scale (Qnum q) (Z.pos (Qden q)) e) as [a' b']; simpl in Hd, Hn.
  destruct (_ && _).
  - destruct (Z.ltb_spec (Qnum q) 0); [reflexivity | lia].
  - simpl. apply Qle_bool_iff. rewrite Qred_correct.
    apply dyadic_nonpos. now apply rne_sign_neg.
Qed.

(** *** Arithmetic on integer-valued numbers *)

Lemma add_Int (x y : Z) : (Int x + Int y)%js = round64 (inject_Z (x + y)).
Proof.
  unfold Number.add, Int. apply round64_ext; cbn [Qplus Qnum Qden inject_Z].
  - ring.
  - reflexivity.
Qed.

Lemma neg_Int (y : Z) : Number.neg (Int y) = Int (- y).
Proof. unfold Number.neg, Int. f_equal. apply Qred_Int_eq. reflexivity. Qed.

Lemma sub_Int (x y : Z) : (Int x - Int y)%js = round64 (inject_Z (x - y)).
Proof. unfold Number.sub. rewrite neg_Int, add_Int. reflexivity. Qed.

Lemma mul_Int (x y : Z) : (Int x * Int y)%js = round64 (inject_Z (x * y)).
Proof.
  unfold Number.mul, Int. apply round64_ext; cbn [Qmult Qnum Qden inject_Z]; reflexivity.
Qed.

Lemma div_Int (x : Z) (y : positive) :
  (Int x / Int (Zpos y))%js = round64 (x # y).
Proof.
  unfold Number.div, Int, Number.is_zero. cbn [Qnum inject_Z].
  change (Z.pos y =? 0) with false. cbv beta iota.
  apply round64_ext; unfold Qdiv, Qinv; cbn [Qmult Qnum Qden inject_Z].
  - ring.
  - reflexivity.
Qed.

Lemma le_Int (x y : Z) : (Int x <= Int y)%js = (x <=? y).
Proof.
  unfold Number.le, Int, Qle_bool; cbn [Qnum Qden inject_Z].
  rewrite !Z.mul_1_r. reflexivity.
Qed.

Lemma lt_Int (x y : Z) : Number.lt (Int x) (Int y) = (x <? y).
Proof.
  unfold Number.lt, Int, Qle_bool; cbn [Qnum Qden inject_Z].
  rewrite !Z.mul_1_r. rewrite Z.ltb_antisym. reflexivity.
Qed.

(** *** The night count

    For a span [d] of at most [2^53] milliseconds the quotient [d / c] is
    rounded by less than [1 / c] when [c] lies between [2^26] and [2^27], so its ceiling is the ceiling of the exact quotient. *)
Lemma ceil_div_exact (d : Z) (c : positive) :
  0 < d <= 2 ^ 53 ->
  2 ^ 26 < Zpos c < 2 ^ 27 ->
  Math_ceil (Int d / Int (Zpos c))%js = Int (Qceiling (d # c)).
Proof.
  intros Hd Hc. rewrite div_Int.
  change (2 ^ 53) with 9007199254740992 in Hd.
  change (2 ^ 26) with 67108864 in Hc. change (2 ^ 27) with 134217728 in Hc.
  pose proof (binade_bounds d (Zpos c)) as Hk.
  assert (Z.log2 (Zpos c) = 26) as Hlc.
  { apply Z.log2_unique; [lia |]. change (2 ^ 26) with 67108864.
    change (2 ^ Z.succ 26) with 134217728. lia. }
  rewrite Hlc in Hk.
  pose proof (Z.log2_nonneg d) as Hln.
  assert (Z.log2 d <= 53) as Hl.
  { replace 53 with (Z.log2 (2 ^ 53)) by reflexivity. apply Z.log2_le_mono.
    change (2 ^ 53) with 9007199254740992. lia. }
  assert (binade d (Zpos c) <= 26) as Hk26.
  { destruct (Z.eq_dec (Z.log2 d) 53) as [E | NE]; [| lia].
    unfold binade. rewrite Hlc, E. change (53 - 26) with 27.
    unfold scale. change (0 <=? 27) with true. cbv beta iota.
    change (2 ^ 27) with 134217728.
    destruct (Z.ltb_spec d (Zpos c * 134217728)); lia. }
  rewrite round64_normal by lia.
  set (k := binade d (Zpos c)) in *.
  assert (2 ^ 26 <= 2 ^ (52 - k)) as HP by (apply Z.pow_le_mono_r; lia).
  change (2 ^ 26) with 67108864 in HP.
  set (P := 2 ^ (52 - k)) in *.
  pose proof (rne_bounds (d * P) (Zpos c) ltac:(lia)) as Hm.
  set (m := rne (d * P) (Zpos c)) in *.
  unfold Math_ceil. apply (f_equal Int).
  rewrite (Qceiling_comp _ _ (Qred_correct _)).
  unfold Qceiling, Qfloor, Qopp. cbn [Qnum Qden].
  rewrite Z2Pos.id by lia.
  f_equal.
  (* floor (-m / P) = floor (-d / c) *)
  pose proof (Z.div_mod (- d) (Zpos c) ltac:(lia)) as E.
  pose proof (Z.mod_pos_bound (- d) (Zpos c) ltac:(lia)) as R.
  set (q := (- d) / Zpos c) in *. set (r := (- d) mod Zpos c) in *.
  symmetry. apply (Z.div_unique_pos _ _ _ (- m - q * P)); [| ring].
  assert (d * P = (- q) * P * Zpos c - r * P) as EP
    by (transitivity (- (- d) * P); [ring | rewrite E; ring]).
  assert (0 <= r * P) as Hr0 by nia.
  assert (r = 0 \/ P <= r * P) as Hr1 by nia.
  assert (r * P <= (Zpos c - 1) * P) as Hr2 by nia.
  set (X := q * P) in *. set (Y := r * P) in *.
  assert (d * P = - X * Zpos c - Y) as EP' by (subst X; rewrite EP; ring).
  clearbody m X Y P. clear EP.
  split.
  - (* m <= - X : m c <= dP + c/2 = -X c - Y + c/2 *)
    destruct Hr1 as [-> | Hr1]; nia.
  - nia.
Qed.

(** Even integers of 54 bits are binary64 values too. *)
Lemma round64_even (z : Z) :
  Z.abs z < 2 ^ 54 -> Z.even z = true -> round64 (inject_Z z) = Int z.
Proof.
  intros Hz He.
  destruct (Z_le_gt_dec (Z.abs z) (2 ^ 53)) as [Hs | Hl]; [now apply round64_Z |].
  rewrite round64_Z_54 by lia.
  apply Z.even_spec in He. destruct He as [h ->].
  replace (2 * h) with (h * 2) by ring. rewrite rne_exact by lia. reflexivity.
Qed.

(** A whole multiple of the divisor is divided without rounding. *)
Lemma div_whole (k : Z) (c : positive) :
  0 < k < 2 ^ 28 ->
  2 ^ 26 < Zpos c < 2 ^ 27 ->
  (Int (k * Zpos c) / Int (Zpos c))%js = Int k.
Proof.
  intros Hk Hc. rewrite div_Int.
  change (2 ^ 28) with 268435456 in Hk.
  change (2 ^ 26) with 67108864 in Hc. change (2 ^ 27) with 134217728 in Hc.
  assert (0 < k * Zpos c) as Ha by nia.
  pose proof (binade_bounds (k * Zpos c) (Zpos c)) as Hb.
  assert (Z.log2 (Zpos c) = 26) as Hlc.
  { apply Z.log2_unique; [lia |]. change (2 ^ 26) with 67108864.
    change (2 ^ Z.succ 26) with 134217728. lia. }
  rewrite Hlc in Hb.
  assert (26 <= Z.log2 (k * Zpos c)) as Hlo.
  { apply Z.log2_le_pow2; [lia |]. change (2 ^ 26) with 67108864. nia. }
  assert (Z.log2 (k * Zpos c) < 55) as Hhi.
  { apply Z.log2_lt_pow2; [lia |]. change (2 ^ 55) with 36028797018963968. nia. }
  rewrite round64_normal by lia.
  set (P := 2 ^ (52 - binade (k * Zpos c) (Zpos c))).
  assert (0 < P) as HP by (apply Z.pow_pos_nonneg; lia).
  replace (k * Zpos c * P) with (k * P * Zpos c) by ring.
  rewrite rne_exact by lia.
  unfold Int. f_equal. apply Qred_Int_eq.
  unfold Qeq. cbn [Qnum Qden inject_Z]. rewrite Z2Pos.id by lia. ring.
Qed.

(** *** Fee and tax

    A product that lies within a quarter of an integer [t] and below [2^50]
    is rounded by [Math.round] to [t], whatever the binary64 rounding of the
    product itself did. *)
Lemma round_mul_near_integer (s M t j : Z) (B : positive) :
  Zpos B = 2 ^ j -> 0 <= j ->
  0 < t ->
  4 * Z.abs (s * M - t * Zpos B) <= Zpos B ->
  s * M < 2 ^ 50 * Zpos B ->
  Math_round (Int s * Fin (M # B))%js = Int t.
Proof.
  intros HB Hj Ht Hnear Hlt.
  change (Int s * Fin (M # B))%js with (round64 (inject_Z s * (M # B))).
  assert (round64 (inject_Z s * (M # B)) = round64 (s * M # B)) as ->
    by (apply round64_ext; reflexivity).
  set (a := s * M) in *.
  assert (0 < a) as Ha by nia.
  assert (binade a (Zpos B) = Z.log2 a - j) as Hk
    by (rewrite HB; now apply binade_pow2_den).
  assert (j - 1 <= Z.log2 a) as Hlo.
  { apply Z.log2_le_pow2; [lia |].
    destruct (Z.eq_dec j 0) as [-> | Hj0].
    - change (2 ^ (0 - 1)) with 0. lia.
    - assert (2 ^ j = 2 * 2 ^ (j - 1)) as E'.
      { rewrite <- Z.pow_succ_r by lia. f_equal. lia. }
      nia. }
  assert (Z.log2 a < j + 50) as Hhi.
  { apply Z.log2_lt_pow2; [lia |]. rewrite Z.pow_add_r by lia. nia. }
  rewrite round64_normal by lia.
  rewrite Hk.
  assert (2 ^ 3 <= 2 ^ (52 - (Z.log2 a - j))) as HP by (apply Z.pow_le_mono_r; lia).
  change (2 ^ 3) with 8 in HP.
  set (P := 2 ^ (52 - (Z.log2 a - j))) in *.
  pose proof (rne_bounds (a * P) (Zpos B) ltac:(lia)) as Hm.
  set (m := rne (a * P) (Zpos B)) in *.
  unfold Math_round. apply (f_equal Int).
  rewrite (Qred_correct (m # Z.to_pos P)).
  unfold Qfloor, Qplus. cbn [Qnum Qden].
  rewrite Pos2Z.inj_mul, Z2Pos.id by lia.
  symmetry. apply (Z.div_unique_pos _ _ _ (m * 2 + 1 * P - t * (P * 2))); [| ring].
  set (U := t * P) in *.
  set (W := (a - t * Zpos B) * P).
  assert (a * P = U * Zpos B + W) as EP by (subst U W; ring).
  assert (- (Zpos B * P) <= 4 * W <= Zpos B * P) as HW by (subst W; nia).
  replace (t * (P * 2)) with (2 * U) by (subst U; ring).
  clearbody m U W P. rewrite EP in Hm. clear EP Hnear Hlt Hk Hlo Hhi HB.
  assert (0 < Zpos B) as HBpos by lia.
  set (b := Zpos B) in *. clearbody b.
  split.
  - (* 2U <= 2m + P *)
    assert (0 <= (2 * m + P - 2 * U) * b); [nia | nia].
  - assert (0 < (2 * U + P - 2 * m) * b); [nia | nia].
Qed.

End NumberFacts.

(** ** The number model against the Standard Library's binary64 *)
Module Conformance.
Import SpecFloat.

Example conform_literal :
  literal 6 100 = of_spec_float (SFdiv 53 1024 (binary64 6 0) (binary64 100 0))
  /\ literal 8 100 = of_spec_float (SFdiv 53 1024 (binary64 8 0) (binary64 100 0)).
Proof. repeat apply conj; vm_compute; reflexivity. Qed.

Example conform_sub :
  (Int 8639999913600001 - Int (-8640000000000000))%js
  = of_spec_float (SFsub 53 1024 (binary64 8639999913600001 0)
                     (binary64 (-8640000000000000) 0))
  /\ (Int 1710028800000 - Int 1710237600000)%js
  = of_spec_float (SFsub 53 1024 (binary64 1710028800000 0)
                     (binary64 1710237600000 0)).
Proof. repeat apply conj; vm_compute; reflexivity. Qed.

Example conform_div :
  (Int 158400000 / Int 86400000)%js
  = of_spec_float (SFdiv 53 1024 (binary64 158400000 0) (binary64 86400000 0))
  /\ (Int 1 / Int 86400000)%js
  = of_spec_float (SFdiv 53 1024 (binary64 1 0) (binary64 86400000 0))
  /\ (Int 9007199254740991 / Int 86400000)%js
  = of_spec_float (SFdiv 53 1024 (binary64 9007199254740991 0) (binary64 86400000 0))
  /\ (Int (-7) / Int 3)%js
  = of_spec_float (SFdiv 53 1024 (binary64 (-7) 0) (binary64 3 0)).
Proof. repeat apply conj; vm_compute; reflexivity. Qed.

Example conform_mul :
  (Int 850 * literal 6 100)%js
  = of_spec_float (SFmul 53 1024 (binary64 850 0)
                     (SFdiv 53 1024 (binary64 6 0) (binary64 100 0)))
  /\ (Int (850 * 7) * literal 8 100)%js
  = of_spec_float (SFmul 53 1024 (binary64 (850 * 7) 0)
                     (SFdiv 53 1024 (binary64 8 0) (binary64 100 0)))
  /\ (Int (850 * 200000000) * literal 6 100)%js
  = of_spec_float (SFmul 53 1024 (binary64 (850 * 200000000) 0)
                     (SFdiv 53 1024 (binary64 6 0) (binary64 100 0))).
Proof. repeat apply conj; vm_compute; reflexivity. Qed.

Example conform_add :
  (Int 2550 + Int 153 + Int 204)%js
  = of_spec_float (SFadd 53 1024 (SFadd 53 1024 (binary64 2550 0) (binary64 153 0))
                     (binary64 204 0))
  /\ (Int 9007199254740992 + Int 1)%js
  = of_spec_float (SFadd 53 1024 (binary64 9007199254740992 0) (binary64 1 0))
  /\ (Int 9007199254740992 + Int 3)%js
  = of_spec_float (SFadd 53 1024 (binary64 9007199254740992 0) (binary64 3 0)).
Proof. repeat apply conj; vm_compute; reflexivity. Qed.

(** At the ends of the range: overflow to infinity, the last tie below it,
    and the subnormal numbers. *)
Example conform_range :
  (scaled 1 1023 * Int 2)%js
  = of_spec_float (SFmul 53 1024 (binary64 1 1023) (binary64 2 0))
  /\ (scaled 9007199254740991 971 + scaled 1 970)%js
  = of_spec_float (SFadd 53 1024 (binary64 9007199254740991 971) (binary64 1 970))
  /\ (scaled 9007199254740991 971 + scaled 1 969)%js
  = of_spec_float (SFadd 53 1024 (binary64 9007199254740991 971) (binary64 1 969))
  /\ (scaled 1 (-1074) / Int 2)%js
  = of_spec_float (SFdiv 53 1024 (binary64 1 (-1074)) (binary64 2 0))
  /\ (scaled 3 (-1074) / Int 2)%js
  = of_spec_float (SFdiv 53 1024 (binary64 3 (-1074)) (binary64 2 0))
  /\ (scaled 123456789 (-30) * scaled 987654321 (-1060))%js
  = of_spec_float (SFmul 53 1024 (binary64 123456789 (-30))
                     (binary64 987654321 (-1060)))
  /\ scaled 5 (-1076) = of_spec_float (binary64 5 (-1076)).
Proof. repeat apply conj; vm_compute; reflexivity. Qed.

End Conformance.

Import NumberFacts.

(** ** Pricing calculator *)
Module PricingFacts.

Lemma Zdiv_interval (x d q : Z) : 0 < d -> q * d <= x < (q + 1) * d -> x / d = q.
Proof.
  intros Hd Hx. symmetry. apply (Z.div_unique_pos _ _ _ (x - q * d)); lia.
Qed.

Lemma day_ms : (Int 1000 * Int 60 * Int 60 * Int 24)%js = Int msPerDay.
Proof. vm_compute. reflexivity. Qed.

Lemma literal_6_100 : literal 6 100 = Fin (1080863910568919 # 18014398509481984).
Proof. vm_compute. reflexivity. Qed.

Lemma literal_8_100 : literal 8 100 = Fin (5764607523034235 # 72057594037927936).
Proof. vm_compute. reflexivity. Qed.

(** The exact ceiling, as an integer division. *)
Lemma Qceiling_Qmake (d : Z) (c : positive) :
  Qceiling (d # c) = - ((- d) / Zpos c).
Proof. reflexivity. Qed.

Lemma spec_nights_Qmake (t1 t2 : Z) :
  spec_nights t1 t2 = Qceiling ((t2 - t1) # 86400000).
Proof.
  unfold spec_nights. apply Qceiling_comp.
  change (inject_Z msPerDay) with (inject_Z (Zpos 86400000)).
  symmetry. apply Qmake_Qdiv.
Qed.

Lemma nights_bounds (d : Z) :
  0 < d <= 2 ^ 53 -> 1 <= Qceiling (d # 86400000) <= 104249992.
Proof.
  intros Hd. change (2 ^ 53) with 9007199254740992 in Hd.
  rewrite Qceiling_Qmake.
  pose proof (Z.div_mod (- d) 86400000 ltac:(lia)).
  pose proof (Z.mod_pos_bound (- d) 86400000 ltac:(lia)).
  lia.
Qed.

(** In exact arithmetic the fee is 51 and the tax 68 per night. *)
Lemma spec_total_969 (n : Z) : spec_total n = 969 * n.
Proof.
  unfold spec_total, round_half_up, Qfloor, Qplus, Qmult, inject_Z.
  cbn [Qnum Qden]. change (Z.pos (1 * 100 * 2)) with 200.
  rewrite (Zdiv_interval _ 200 (51 * n)) by lia.
  rewrite (Zdiv_interval _ 200 (68 * n)) by lia.
  ring.
Qed.

(** The computation on numbers, from the span in milliseconds on. *)
Lemma total_of_nights (n : Z) :
  1 <= n <= 200000000 ->
  let subtotal := (basePrice * Int n)%js in
  (subtotal + Math_round (subtotal * literal 6 100) +
   Math_round (subtotal * literal 8 100))%js = Int (969 * n).
Proof.
  intros Hn subtotal.
  assert (subtotal = Int (850 * n)) as ->.
  { unfold subtotal, basePrice. rewrite mul_Int. apply round64_Z.
    change (2 ^ 53) with 9007199254740992. lia. }
  rewrite literal_6_100, literal_8_100.
  rewrite (round_mul_near_integer (850 * n) _ (51 * n) 54);
    [| reflexivity | lia | lia
     | change (Z.pos 18014398509481984) with 18014398509481984; lia
     | change (2 ^ 50) with 1125899906842624; lia].
  rewrite (round_mul_near_integer (850 * n) _ (68 * n) 56);
    [| reflexivity | lia | lia
     | change (Z.pos 72057594037927936) with 72057594037927936; lia
     | change (2 ^ 50) with 1125899906842624; lia].
  rewrite add_Int, round64_Z by (change (2 ^ 53) with 9007199254740992; lia).
  rewrite add_Int, round64_Z by (change (2 ^ 53) with 9007199254740992; lia).
  f_equal. ring.
Qed.

Lemma parsed_not_empty Date_parse (H : DateHost Date_parse) (s : string) (t : Z) :
  Date_parse s = Some t -> not_string s = false.
Proof.
  destruct s; [| reflexivity]. rewrite (parse_empty _ H). discriminate.
Qed.

Lemma calculateTotal_parsed Date_parse (H : DateHost Date_parse)
    (checkin checkout : string) (guests : number) (t1 t2 : Z) :
  Date_parse checkin = Some t1 ->
  Date_parse checkout = Some t2 ->
  calculateTotal Date_parse checkin checkout guests =
  if (nights_of t1 t2 <= Int 0)%js then Int 0
  else
    let subtotal := (basePrice * nights_of t1 t2)%js in
    (subtotal + Math_round (subtotal * literal 6 100) +
     Math_round (subtotal * literal 8 100))%js.
Proof.
  intros H1 H2. unfold calculateTotal, new_Date.
  rewrite (parsed_not_empty _ H _ _ H1), (parsed_not_empty _ H _ _ H2), H1, H2.
  reflexivity.
Qed.

Lemma nights_of_exact (t1 t2 : Z) :
  0 < t2 - t1 <= 2 ^ 53 ->
  nights_of t1 t2 = Int (spec_nights t1 t2).
Proof.
  intros Hd. unfold nights_of.
  rewrite sub_Int, round64_Z, day_ms by lia.
  rewrite spec_nights_Qmake.
  apply (ceil_div_exact _ 86400000); [assumption |].
  change (2 ^ 26) with 67108864. change (2 ^ 27) with 134217728. lia.
Qed.

(** A span of whole days, however long, is counted exactly. *)
Lemma nights_of_whole_days (t1 t2 k : Z) :
  Z.abs t1 <= maxTime -> Z.abs t2 <= maxTime ->
  0 < k -> t2 - t1 = k * msPerDay ->
  nights_of t1 t2 = Int k /\ spec_nights t1 t2 = k /\ k <= 200000000.
Proof.
  unfold maxTime, msPerDay. intros H1 H2 Hk E.
  change (1000 * 60 * 60 * 24) with 86400000 in E.
  assert (k <= 200000000) as Hk' by lia.
  split; [| split; [| exact Hk']].
  - unfold nights_of. rewrite sub_Int, E, day_ms.
    rewrite round64_even.
    + change (Int msPerDay) with (Int (Zpos 86400000)).
      rewrite (div_whole k 86400000).
      * unfold Math_ceil, Int. now rewrite Qceiling_Z.
      * change (2 ^ 28) with 268435456. lia.
      * change (2 ^ 26) with 67108864. change (2 ^ 27) with 134217728. lia.
    + change (2 ^ 54) with 18014398509481984. lia.
    + rewrite Z.even_mul. change (Z.even 86400000) with true. apply orb_true_r.
  - rewrite spec_nights_Qmake, E, Qceiling_Qmake.
    replace (- (k * 86400000)) with ((- k) * 86400000) by ring.
    rewrite Z.div_mul by lia. lia.
Qed.

Lemma nonpos_cases (x : number) :
  nonpos x -> x = Infinity true \/ exists p, x = Fin p /\ (p <= 0)%Q.
Proof.
  unfold nonpos. destruct x as [| [|] | p]; simpl; try discriminate.
  - now left.
  - intros Hp. right. exists p. split; [reflexivity | now apply Qle_bool_iff].
Qed.

Lemma div_nonpos (x : number) (c : positive) :
  nonpos x -> nonpos (x / Int (Zpos c))%js.
Proof.
  intros [-> | (p & -> & Hp)]%nonpos_cases; [reflexivity |].
  unfold Number.div, Int, Number.is_zero. cbn [Qnum inject_Z].
  change (Z.pos c =? 0) with false. cbv beta iota.
  apply round64_nonpos.
  unfold Qdiv, Qinv, Qmult, Qle in *. cbn [Qnum Qden inject_Z] in *. lia.
Qed.

Lemma ceil_nonpos (x : number) : nonpos x -> nonpos (Math_ceil x).
Proof.
  intros [-> | (p & -> & Hp)]%nonpos_cases; [reflexivity |].
  unfold Math_ceil, nonpos. rewrite le_Int. apply Z.leb_le.
  change 0 with (Qceiling 0). now apply Qceiling_resp_le.
Qed.

Lemma nights_of_nonpos (t1 t2 : Z) : t2 <= t1 -> nonpos (nights_of t1 t2).
Proof.
  intros Ht. unfold nights_of. rewrite day_ms.
  apply ceil_nonpos, (div_nonpos _ 86400000).
  rewrite sub_Int. apply round64_nonpos.
  unfold Qle, inject_Z; cbn [Qnum Qden]. lia.
Qed.

(** A missing date gives 0. *)
Lemma calculateTotal_missing Date_parse (checkin checkout : string) (guests : number) :
  checkin = EmptyString \/ checkout = EmptyString ->
  calculateTotal Date_parse checkin checkout guests = Int 0.
Proof.
  unfold calculateTotal. intros [-> | ->]; [reflexivity |].
  now rewrite orb_true_r.
Qed.

(** A check-out that is not after the check-in gives 0. *)
Lemma calculateTotal_not_after Date_parse (H : DateHost Date_parse)
    (checkin checkout : string) (guests : number) (t1 t2 : Z) :
  Date_parse checkin = Some t1 ->
  Date_parse checkout = Some t2 ->
  t2 <= t1 ->
  calculateTotal Date_parse checkin checkout guests = Int 0.
Proof.
  intros H1 H2 Ht. rewrite (calculateTotal_parsed _ H _ _ _ _ _ H1 H2).
  now rewrite (nights_of_nonpos _ _ Ht).
Qed.

(** A date that is given but cannot be parsed gives NaN: the night count is
    NaN, [NaN <= 0] is false, and NaN runs through the sums. *)
Lemma calculateTotal_unparseable Date_parse (checkin checkout : string) (guests : number) :
  checkin <> EmptyString -> checkout <> EmptyString ->
  Date_parse checkin = None \/ Date_parse checkout = None ->
  calculateTotal Date_parse checkin checkout guests = NaN.
Proof.
  intros Hi Ho Hp. unfold calculateTotal, new_Date.
  destruct checkin; [congruence |]. destruct checkout; [congruence |].
  cbn [not_string orb].
  destruct Hp as [-> | ->]; destruct (Date_parse _); reflexivity.
Qed.

Lemma sample_host : DateHost sample_Date_parse.
Proof.
  split; [reflexivity |].
  intros s t. unfold sample_Date_parse, maxTime.
  repeat (destruct (String.eqb s _); [intros [= <-]; simpl; lia |]).
  discriminate.
Qed.

End PricingFacts.
Import PricingFacts.

(** C1, for check-out after check-in a whole number of days or at most 2^53
    milliseconds later.  For every such pair of parseable dates
    [calculateTotal] returns subtotal + serviceFee + taxes, where nights is
    the ceiling of the span in whole days, subtotal is 850 a night and the fee
    (6%) and the taxes (8%) are rounded half-up one by one; one day apart the
    result is 969. *)
Theorem calculateTotal_price Date_parse (H : DateHost Date_parse)
    (checkin checkout : string) (guests : number) (t1 t2 : Z) :
  Date_parse checkin = Some t1 ->
  Date_parse checkout = Some t2 ->
  t1 < t2 ->
  t2 - t1 <= 2 ^ 53 \/ (msPerDay | t2 - t1) ->
  calculateTotal Date_parse checkin checkout guests
    = Int (spec_total (spec_nights t1 t2))
  /\ (t2 = t1 + msPerDay ->
      calculateTotal Date_parse checkin checkout guests = Int 969).
Proof.
  intros H1 H2 Hlt Hspan.
  assert (nights_of t1 t2 = Int (spec_nights t1 t2)
          /\ 1 <= spec_nights t1 t2 <= 200000000) as [En Hn].
  { destruct Hspan as [Hshort | [k Hk]].
    - split; [apply nights_of_exact; lia |].
      pose proof (nights_bounds (t2 - t1) ltac:(lia)) as Hb.
      rewrite <- spec_nights_Qmake in Hb. lia.
    - assert (0 < k) as Hpos by (unfold msPerDay in Hk; lia).
      destruct (nights_of_whole_days t1 t2 k
                  (parse_clip _ H _ _ H1) (parse_clip _ H _ _ H2) Hpos Hk)
        as (E1 & E2 & Hle).
      rewrite E2. split; [exact E1 | lia]. }
  assert (calculateTotal Date_parse checkin checkout guests
          = Int (969 * spec_nights t1 t2)) as E.
  { rewrite (calculateTotal_parsed _ H _ _ _ _ _ H1 H2), En.
    rewrite le_Int. destruct (Z.leb_spec (spec_nights t1 t2) 0); [lia |].
    now apply total_of_nights. }
  split.
  - now rewrite spec_total_969.
  - intros ->. rewrite E, spec_nights_Qmake.
    replace (t1 + msPerDay - t1) with msPerDay by ring.
    reflexivity.
Qed.

Lemma calculateTotal_price_witness :
  calculateTotal sample_Date_parse "2024-03-10T14:00:00.000Z"
    "2024-03-12T10:00:00.000Z" (Int 2) = Int 1938
  /\ calculateTotal sample_Date_parse "2024-03-10" "2024-03-11" (Int 2) = Int 969
  /\ calculateTotal sample_Date_parse "-271821-04-20T00:00:00.000Z"
       "+275760-09-13T00:00:00.000Z" (Int 2) = Int 193800000000.
Proof.
  assert (1710237600000 - 1710079200000 <= 2 ^ 53) as Hshort
    by (vm_compute; discriminate).
  assert (1710115200000 - 1710028800000 <= 2 ^ 53) as Hday
    by (vm_compute; discriminate).
  assert ((msPerDay | 8640000000000000 - -8640000000000000)) as Hwhole
    by (exists 200000000; reflexivity).
  split; [| split].
  - exact (proj1 (calculateTotal_price sample_Date_parse sample_host
             "2024-03-10T14:00:00.000Z" "2024-03-12T10:00:00.000Z" (Int 2)
             1710079200000 1710237600000 eq_refl eq_refl eq_refl
             (or_introl Hshort))).
  - exact (proj2 (calculateTotal_price sample_Date_parse sample_host
             "2024-03-10" "2024-03-11" (Int 2)
             1710028800000 1710115200000 eq_refl eq_refl eq_refl
             (or_introl Hday)) eq_refl).
  - exact (proj1 (calculateTotal_price sample_Date_parse sample_host
             "-271821-04-20T00:00:00.000Z" "+275760-09-13T00:00:00.000Z" (Int 2)
             (-8640000000000000) 8640000000000000 eq_refl eq_refl eq_refl
             (or_intror Hwhole))).
Defined.

(** C1 as it is stated fails for dates more than 2^53 ms apart: from the
    earliest instant of a [Date] to the first millisecond of its last full
    day there are 199999999 days and one millisecond, that is 200000000
    nights, and the code charges 199999999. *)
Lemma calculateTotal_far_apart :
  DateHost sample_Date_parse
  /\ sample_Date_parse "-271821-04-20T00:00:00.000Z" = Some (-8640000000000000)
  /\ sample_Date_parse "+275760-09-12T00:00:00.001Z" = Some 8639999913600001
  /\ -8640000000000000 < 8639999913600001
  /\ spec_total (spec_nights (-8640000000000000) 8639999913600001) = 193800000000
  /\ calculateTotal sample_Date_parse "-271821-04-20T00:00:00.000Z"
       "+275760-09-12T00:00:00.001Z" (Int 2) = Int 193799999031
  /\ calculateTotal sample_Date_parse "-271821-04-20T00:00:00.000Z"
       "+275760-09-12T00:00:00.001Z" (Int 2)
     <> Int (spec_total (spec_nights (-8640000000000000) 8639999913600001)).
Proof.
  split; [exact sample_host |].
  repeat split; try reflexivity.
  vm_compute. discriminate.
Qed.

(** C2.  A check-in that is given but is not a date: the result is NaN, not 0. *)
Theorem calculateTotal_unparseable_is_NaN :
  sample_Date_parse "tomorrow" = None
  /\ calculateTotal sample_Date_parse "tomorrow" "2024-03-11" (Int 2) = NaN
  /\ calculateTotal sample_Date_parse "tomorrow" "2024-03-11" (Int 2) <> Int 0.
Proof.
  split; [reflexivity |].
  assert (calculateTotal sample_Date_parse "tomorrow" "2024-03-11" (Int 2) = NaN) as E
    by (apply calculateTotal_unparseable; [discriminate | discriminate | now left]).
  split; [exact E | rewrite E; discriminate].
Qed.

(** C10.  The guest count has no influence on the price. *)
Theorem calculateTotal_ignores_guests Date_parse (checkin checkout : string)
    (g1 g2 : number) :
  calculateTotal Date_parse checkin checkout g1
  = calculateTotal Date_parse checkin checkout g2.
Proof.
  unfold calculateTotal.
  destruct (not_string checkin || not_string checkout); reflexivity.
Qed.

(** ** Reservation repository *)
Module MapFacts.
Section WithValue.
Context {V : Type}.
Implicit Types (m : JSMap.t V) (k : string) (v : V).

Lemma get_set_same m k v : JSMap.get (JSMap.set m k v) k = Some v.
Proof.
  induction m as [| [k' v'] m IH]; simpl.
  - now rewrite String.eqb_refl.
  - destruct (String.eqb k' k) eqn:E; simpl; rewrite E; [reflexivity | exact IH].
Qed.

Lemma get_set_other m k k' v :
  k' <> k -> JSMap.get (JSMap.set m k v) k' = JSMap.get m k'.
Proof.
  intros Hne. induction m as [| [k0 v0] m IH]; simpl.
  - destruct (String.eqb_spec k k'); [congruence | reflexivity].
  - destruct (String.eqb_spec k0 k) as [-> | Hk]; simpl.
    + destruct (String.eqb_spec k k'); [congruence | reflexivity].
    + destruct (String.eqb k0 k'); [reflexivity | exact IH].
Qed.

Lemma set_fresh m k v :
  JSMap.get m k = None -> JSMap.set m k v = m ++ [(k, v)].
Proof.
  induction m as [| [k' v'] m IH]; simpl; [reflexivity |].
  destruct (String.eqb k' k); [discriminate |].
  intros H. now rewrite IH.
Qed.

Lemma set_present_keys m k v v0 :
  JSMap.get m k = Some v0 -> JSMap.keys (JSMap.set m k v) = JSMap.keys m.
Proof.
  induction m as [| [k' v'] m IH]; simpl; [discriminate |].
  destruct (String.eqb k' k); simpl; [reflexivity |].
  intros H. now rewrite IH.
Qed.


Lemma get_In m k v : JSMap.get m k = Some v -> In v (JSMap.values m).
Proof.
  induction m as [| [k' v'] m IH]; simpl; [discriminate |].
  destruct (String.eqb k' k); [intros [= ->]; now left | right; auto].
Qed.

Lemma values_set_Forall (P : V -> Prop) m k v :
  Forall P (JSMap.values m) -> P v -> Forall P (JSMap.values (JSMap.set m k v)).
Proof.
  intros Hm Hv. induction m as [| [k' v'] m IH]; simpl in *.
  - now constructor.
  - inversion Hm; subst. destruct (String.eqb k' k); simpl; constructor; auto.
Qed.

End WithValue.
End MapFacts.

Module SortFacts.
Import NumberFacts.

(** The comparator of [getBookings] has the sign of the difference of the
    time values: the subtraction may round, yet never to zero or across it. *)
Lemma sub_sign (ta tb : Z) :
  Z.abs ta <= maxTime -> Z.abs tb <= maxTime ->
  Number.lt (Int 0) (Int tb - Int ta)%js = (ta <? tb).
Proof.
  unfold maxTime. intros Ha Hb. rewrite sub_Int.
  destruct (Z_le_gt_dec (Z.abs (tb - ta)) (2 ^ 53)) as [Hs | Hl].
  - rewrite round64_Z by assumption. rewrite lt_Int.
    destruct (Z.ltb_spec 0 (tb - ta)), (Z.ltb_spec ta tb); lia.
  - change (2 ^ 53) with 9007199254740992 in Hl.
    rewrite round64_Z_54
      by (change (2 ^ 53) with 9007199254740992;
          change (2 ^ 54) with 18014398509481984; lia).
    rewrite lt_Int. pose proof (rne_bounds (tb - ta) 2 ltac:(lia)).
    destruct (Z.ltb_spec 0 (rne (tb - ta) 2 * 2)), (Z.ltb_spec ta tb); lia.
Qed.

Section Generic.
Context {A : Type}.
Variable comparefn : A -> A -> number.
Variable key : A -> Z.
Variable ok : A -> Prop.

(** On the elements at hand [x] goes behind [y] exactly when its key is
    smaller. *)
Hypothesis comparefn_key :
  forall x y, ok x -> ok y ->
    Number.lt (Int 0) (comparefn x y) = (key x <? key y).

Lemma sort_insert_perm (x : A) (l : list A) :
  Permutation (sort_insert comparefn x l) (x :: l).
Proof.
  induction l as [| y l IH]; cbn [sort_insert]; [reflexivity |].
  destruct (Number.lt (Int 0) (comparefn x y)); [| reflexivity].
  rewrite IH. apply perm_swap.
Qed.

Lemma Array_sort_perm (l : list A) : Permutation (Array_sort comparefn l) l.
Proof.
  induction l as [| x l IH]; cbn [Array_sort]; [reflexivity |].
  rewrite sort_insert_perm. now constructor.
Qed.

Lemma Array_sort_ok (l : list A) : Forall ok l -> Forall ok (Array_sort comparefn l).
Proof.
  intros H. eapply Permutation_Forall; [| exact H].
  symmetry. apply Array_sort_perm.
Qed.

Lemma sort_insert_sorted (x : A) (l : list A) :
  ok x -> Forall ok l ->
  StronglySorted (descending key) l -> StronglySorted (descending key) (sort_insert comparefn x l).
Proof.
  intros Hx Hl Hs. induction Hs as [| y l Hs IH Hy]; cbn [sort_insert].
  - repeat constructor.
  - inversion Hl as [| ? ? Hoky Hokl]; subst.
    rewrite comparefn_key by assumption.
    destruct (Z.ltb_spec (key x) (key y)) as [Hlt | Hge].
    + constructor; [now apply IH |].
      eapply Permutation_Forall; [symmetry; apply sort_insert_perm |].
      constructor; [unfold descending; lia | assumption].
    + constructor; [now constructor |].
      constructor; [exact Hge |].
      eapply Forall_impl; [| exact Hy]. unfold descending. intros z Hz. lia.
Qed.

Lemma Array_sort_sorted (l : list A) :
  Forall ok l -> StronglySorted (descending key) (Array_sort comparefn l).
Proof.
  induction l as [| x l IH]; cbn [Array_sort]; intros H; [constructor |].
  inversion H; subst.
  apply sort_insert_sorted; auto using Array_sort_ok.
Qed.

(** Stability: among the elements of one key nothing moves. *)
Lemma sort_insert_stable (t : Z) (x : A) (l : list A) :
  ok x -> Forall ok l ->
  filter (fun a => key a =? t) (sort_insert comparefn x l)
  = filter (fun a => key a =? t) (x :: l).
Proof.
  intros Hx Hl. induction Hl as [| y l Hy Hl IH]; [reflexivity |].
  cbn [sort_insert]. rewrite comparefn_key by assumption.
  destruct (Z.ltb_spec (key x) (key y)) as [Hlt | Hge]; [| reflexivity].
  cbn [filter] in *. rewrite IH.
  destruct (Z.eqb_spec (key x) t), (Z.eqb_spec (key y) t); try reflexivity; lia.
Qed.

Lemma Array_sort_stable (t : Z) (l : list A) :
  Forall ok l ->
  filter (fun a => key a =? t) (Array_sort comparefn l)
  = filter (fun a => key a =? t) l.
Proof.
  induction l as [| x l IH]; intros H; [reflexivity |].
  inversion H; subst. cbn [Array_sort].
  rewrite sort_insert_stable by auto using Array_sort_ok.
  cbn [filter]. now rewrite IH.
Qed.

End Generic.

Lemma by_createdAt_desc_key (a b : Booking) :
  valid_created a -> valid_created b ->
  Number.lt (Int 0) (by_createdAt_desc a b) = (created_time a <? created_time b).
Proof.
  intros (ta & Ea & Ha) (tb & Eb & Hb).
  unfold by_createdAt_desc, created_time, Date_copy. rewrite Ea, Eb. simpl getTime.
  now apply sub_sign.
Qed.

End SortFacts.

Module RepositoryFacts.
Import MapFacts SortFacts.

Lemma getBookings_unfold (s : MemStorage) :
  getBookings s = Array_sort by_createdAt_desc (JSMap.values (bookings s)).
Proof. reflexivity. Qed.

Lemma createBooking_valid (uuid : string) (now : Z) (s : MemStorage) (data : InsertBooking) :
  Z.abs now <= maxTime ->
  Forall valid_created (JSMap.values (bookings s)) ->
  Forall valid_created (JSMap.values (bookings (snd (createBooking uuid now s data)))).
Proof.
  intros Hn Hs. cbn [createBooking snd with_bookings bookings].
  apply values_set_Forall; [assumption |]. now exists now.
Qed.

Lemma updateBooking_valid (s : MemStorage) (key : string) (updateData : PartialBooking) :
  Partial.createdAt updateData = None ->
  Forall valid_created (JSMap.values (bookings s)) ->
  Forall valid_created (JSMap.values (bookings (snd (updateBooking s key updateData)))).
Proof.
  intros Hp Hs. unfold updateBooking.
  destruct (JSMap.get (bookings s) key) as [existing |] eqn:E; [| exact Hs].
  cbn [snd with_bookings bookings].
  apply values_set_Forall; [assumption |].
  apply get_In in E. rewrite Forall_forall in Hs. specialize (Hs _ E).
  unfold valid_created, merge. cbn [createdAt]. now rewrite Hp.
Qed.

End RepositoryFacts.
Import MapFacts SortFacts RepositoryFacts.




(** C4.  [getBookings] returns the stored records, all of them, by creation
    time with the newest first, and records of one creation time in the order
    of their insertion; three records created in an empty repository at
    increasing times come back last-created first. *)
Theorem getBookings_newest_first (s : MemStorage) :
  Forall valid_created (JSMap.values (bookings s)) ->
  Permutation (getBookings s) (JSMap.values (bookings s))
  /\ StronglySorted (descending created_time) (getBookings s)
  /\ (forall t,
        filter (fun b => created_time b =? t) (getBookings s)
        = filter (fun b => created_time b =? t) (JSMap.values (bookings s)))
  /\ (forall u1 u2 u3 t1 t2 t3 d1 d2 d3,
        bookings s = JSMap.empty ->
        u1 <> u2 -> u1 <> u3 -> u2 <> u3 ->
        Z.abs t1 <= maxTime -> Z.abs t2 <= maxTime -> Z.abs t3 <= maxTime ->
        t1 < t2 < t3 ->
        let r1 := createBooking u1 t1 s d1 in
        let r2 := createBooking u2 t2 (snd r1) d2 in
        let r3 := createBooking u3 t3 (snd r2) d3 in
        getBookings (snd r3) = [fst r3; fst r2; fst r1]).
Proof.
  intros Hs. rewrite getBookings_unfold.
  split; [apply Array_sort_perm |].
  split; [apply (Array_sort_sorted _ created_time valid_created by_createdAt_desc_key _ Hs) |].
  split; [intros t; apply (Array_sort_stable _ created_time valid_created
                             by_createdAt_desc_key _ _ Hs) |].
  intros u1 u2 u3 t1 t2 t3 d1 d2 d3 He H12 H13 H23 Ht1 Ht2 Ht3 Hlt.
  cbn zeta. rewrite getBookings_unfold.
  cbn [createBooking fst snd with_bookings bookings]. rewrite He.
  cbn [JSMap.empty JSMap.set].
  apply String.eqb_neq in H12, H13, H23. rewrite H12. cbn [JSMap.set]. rewrite H13, H23.
  cbn [JSMap.set JSMap.values map snd Array_sort sort_insert].
  repeat match goal with
  | |- context [Number.lt (Int 0) (by_createdAt_desc ?a ?b)] =>
      rewrite (by_createdAt_desc_key a b) by (eexists; split; [reflexivity | assumption]);
      cbn [created_time createdAt]
  end.
  destruct (Z.ltb_spec t2 t3); [| lia]. cbn [sort_insert].
  repeat match goal with
  | |- context [Number.lt (Int 0) (by_createdAt_desc ?a ?b)] =>
      rewrite (by_createdAt_desc_key a b) by (eexists; split; [reflexivity | assumption]);
      cbn [created_time createdAt]
  end.
  destruct (Z.ltb_spec t1 t3); [| lia]. cbn [sort_insert].
  repeat match goal with
  | |- context [Number.lt (Int 0) (by_createdAt_desc ?a ?b)] =>
      rewrite (by_createdAt_desc_key a b) by (eexists; split; [reflexivity | assumption]);
      cbn [created_time createdAt]
  end.
  destruct (Z.ltb_spec t1 t2); [| lia]. reflexivity.
Qed.

Lemma getBookings_newest_first_witness :
  getBookings
    (snd (createBooking "b-3" 3000
       (snd (createBooking "b-2" 2000
          (snd (createBooking "b-1" 1000 no_records (payload "Ada" "1")))
          (payload "Grace" "2")))
       (payload "Edsger" "3")))
  = [fst (createBooking "b-3" 3000 no_records (payload "Edsger" "3"));
     fst (createBooking "b-2" 2000 no_records (payload "Grace" "2"));
     fst (createBooking "b-1" 1000 no_records (payload "Ada" "1"))]
  /\ StronglySorted (descending created_time) (getBookings one_booking).
Proof.
  split.
  - apply (proj2 (proj2 (proj2 (getBookings_newest_first no_records (Forall_nil _))))
             "b-1" "b-2" "b-3" 1000 2000 3000
             (payload "Ada" "1") (payload "Grace" "2") (payload "Edsger" "3")
             eq_refl)%string;
      try discriminate; unfold maxTime; simpl; lia.
  - apply (getBookings_newest_first one_booking).
    repeat constructor. exists 1710028800000. split; [reflexivity |].
    unfold maxTime. simpl. lia.
Defined.

(** C5.  [updateBooking] on an identifier that is not stored returns
    undefined and the repository as it was. *)
Theorem updateBooking_unknown (s : MemStorage) (unknownId : string)
    (updateData : PartialBooking) :
  getBooking s unknownId = None ->
  updateBooking s unknownId updateData = (None, s).
Proof.
  unfold getBooking, updateBooking. now intros ->.
Qed.

Lemma updateBooking_unknown_witness :
  updateBooking one_booking "b-9" (Partial.status_only (VString "confirmed"))
  = (None, one_booking).
Proof.
  apply (updateBooking_unknown one_booking "b-9"
           (Partial.status_only (VString "confirmed"))).
  reflexivity.
Defined.

(** C6.  [updateBooking] on a stored identifier returns and stores the merged
    record: each property has the payload's value if the payload gives one and
    its previous value if not; the entry keeps its place and no other entry
    changes. *)
Theorem updateBooking_merges (s : MemStorage) (key : string)
    (updateData : PartialBooking) (existing : Booking) :
  getBooking s key = Some existing ->
  exists updated,
    updateBooking s key updateData
      = (Some updated, with_bookings s (JSMap.set (bookings s) key updated))
    /\ getBooking (snd (updateBooking s key updateData)) key = Some updated
    /\ merged (id existing) (Partial.id updateData) (id updated)
    /\ merged (checkinDate existing) (Partial.checkinDate updateData) (checkinDate updated)
    /\ merged (checkoutDate existing) (Partial.checkoutDate updateData) (checkoutDate updated)
    /\ merged (guests existing) (Partial.guests updateData) (guests updated)
    /\ merged (guestName existing) (Partial.guestName updateData) (guestName updated)
    /\ merged (guestEmail existing) (Partial.guestEmail updateData) (guestEmail updated)
    /\ merged (guestPhone existing) (Partial.guestPhone updateData) (guestPhone updated)
    /\ merged (totalAmount existing) (Partial.totalAmount updateData) (totalAmount updated)
    /\ merged (status existing) (Partial.status updateData) (status updated)
    /\ merged (createdAt existing) (Partial.createdAt updateData) (createdAt updated)
    /\ JSMap.keys (bookings (snd (updateBooking s key updateData)))
       = JSMap.keys (bookings s)
    /\ (forall other, other <> key ->
          getBooking (snd (updateBooking s key updateData)) other = getBooking s other).
Proof.
  unfold getBooking, updateBooking. intros E. rewrite E.
  exists (merge existing updateData). cbn [snd with_bookings bookings].
  split; [reflexivity |].
  split; [apply get_set_same |].
  unfold merged, merge, spread.
  cbn [id checkinDate checkoutDate guests guestName guestEmail guestPhone
       totalAmount status createdAt].
  repeat (split; [match goal with |- match ?g with _ => _ end => destruct g; reflexivity end |]).
  split.
  - eapply set_present_keys, E.
  - intros other Hne. now apply get_set_other.
Qed.

Lemma updateBooking_merges_witness :
  exists updated,
    fst (updateBooking one_booking "b-1" (Partial.status_only (VString "confirmed")))
    = Some updated
    /\ status updated = VString "confirmed"
    /\ guestName updated = "Ada"%string
    /\ guestPhone updated = Some "555-0100"%string
    /\ createdAt updated = TimeValue 1710028800000.
Proof.
  destruct (updateBooking_merges one_booking "b-1"
              (Partial.status_only (VString "confirmed"))
              (fst (createBooking "b-1" 1710028800000 no_records
                      (payload "Ada" "555-0100")))
              eq_refl)
    as (updated & Hu & _ & _ & _ & _ & _ & Hname & _ & Hphone & _ & Hstatus & Hcreated & _).
  exists updated. rewrite Hu.
  repeat split; assumption.
Defined.

(** ** Validation *)
Module ValidationFacts.

Lemma parse_throws (isEmail : string -> bool) (o : list (string * value)) (i : issue) :
  In i (Zod.insertBookingSchema_issues isEmail o) ->
  Zod.insertBookingSchema_parse isEmail (VObject o)
  = Throw (ZodError (Zod.insertBookingSchema_issues isEmail o)).
Proof.
  intros Hin. unfold Zod.insertBookingSchema_parse.
  destruct (Zod.insertBookingSchema_issues isEmail o) as [| i0 l]; [contradiction |].
  reflexivity.
Qed.

Lemma guests_issue (isEmail : string -> bool) (o : list (string * value)) (i : issue) :
  In i (fst (Zod.field o "guests" Zod.guests_)) ->
  In i (Zod.insertBookingSchema_issues isEmail o).
Proof.
  intros H. unfold Zod.insertBookingSchema_issues.
  rewrite !in_app_iff. tauto.
Qed.

Lemma guestEmail_issue (isEmail : string -> bool) (o : list (string * value)) (i : issue) :
  In i (fst (Zod.field o "guestEmail" (Zod.guestEmail_ isEmail))) ->
  In i (Zod.insertBookingSchema_issues isEmail o).
Proof.
  intros H. unfold Zod.insertBookingSchema_issues.
  rewrite !in_app_iff. tauto.
Qed.

(** A guest count below 1 is refused with the message of the [guests] key. *)
Lemma guests_below_1 (isEmail : string -> bool) (o : list (string * value)) (n : number) :
  Zod.prop o "guests" = VNumber n ->
  Number.lt n (Int 1) = true ->
  exists issues,
    Zod.insertBookingSchema_parse isEmail (VObject o) = Throw (ZodError issues)
    /\ In (mkIssue ["guests"%string] too_small (Custom "At least 1 guest is required")) issues.
Proof.
  intros Hp Hlt.
  assert (In (mkIssue ["guests"%string] too_small (Custom "At least 1 guest is required"))
             (Zod.insertBookingSchema_issues isEmail o)) as Hin.
  { apply guests_issue. unfold Zod.field. rewrite Hp.
    unfold Zod.guests_, Zod.number_. destruct n as [| neg | q]; [discriminate | |];
    cbn [fst Zod.run_checks flat_map]; unfold Zod.min at 1; rewrite Hlt; now left. }
  eexists. split; [eapply parse_throws, Hin | exact Hin].
Qed.

(** A guest count above 10 is refused with the message of the [guests] key. *)
Lemma guests_above_10 (isEmail : string -> bool) (o : list (string * value)) (n : number) :
  Zod.prop o "guests" = VNumber n ->
  Number.lt (Int 10) n = true ->
  exists issues,
    Zod.insertBookingSchema_parse isEmail (VObject o) = Throw (ZodError issues)
    /\ In (mkIssue ["guests"%string] too_big (Custom "Maximum 10 guests allowed")) issues.
Proof.
  intros Hp Hlt.
  assert (In (mkIssue ["guests"%string] too_big (Custom "Maximum 10 guests allowed"))
             (Zod.insertBookingSchema_issues isEmail o)) as Hin.
  { apply guests_issue. unfold Zod.field. rewrite Hp.
    unfold Zod.guests_, Zod.number_. destruct n as [| neg | q]; [discriminate | |];
    cbn [fst Zod.run_checks flat_map]; rewrite in_app_iff; right;
    unfold Zod.max at 1; rewrite Hlt; now left. }
  eexists. split; [eapply parse_throws, Hin | exact Hin].
Qed.

(** An email without an at sign is refused with the message of the
    [guestEmail] key. *)
Lemma email_without_at (isEmail : string -> bool) (o : list (string * value)) (e : string) :
  email_needs_at isEmail ->
  Zod.prop o "guestEmail" = VString e ->
  has_at e = false ->
  exists issues,
    Zod.insertBookingSchema_parse isEmail (VObject o) = Throw (ZodError issues)
    /\ In (mkIssue ["guestEmail"%string] invalid_string (Custom "Valid email is required")) issues.
Proof.
  intros Hat Hp He.
  assert (isEmail e = false) as Hno.
  { destruct (isEmail e) eqn:E; [| reflexivity]. apply Hat in E. congruence. }
  assert (In (mkIssue ["guestEmail"%string] invalid_string (Custom "Valid email is required"))
             (Zod.insertBookingSchema_issues isEmail o)) as Hin.
  { apply guestEmail_issue. unfold Zod.field. rewrite Hp.
    unfold Zod.guestEmail_, Zod.string_. cbn [fst Zod.run_checks flat_map].
    unfold Zod.email. rewrite Hno. now left. }
  eexists. split; [eapply parse_throws, Hin | exact Hin].
Qed.

End ValidationFacts.

(** C7.  Two and a half guests pass the validation: the schema asks for a
    number from 1 to 10 and not for an integer. *)
Theorem validation_accepts_fractional_guests (isEmail : string -> bool) :
  isEmail "ada@example.com"%string = true ->
  Zod.insertBookingSchema_parse isEmail
    (booking_body (VNumber (Fin (5 # 2))) "ada@example.com")
  = Return (Insert.mk "2024-03-10" "2024-03-11" (Fin (5 # 2)) "Ada"
              "ada@example.com" None "969" "confirmed").
Proof.
  intros He. unfold Zod.insertBookingSchema_parse, booking_body,
    Zod.insertBookingSchema_issues, Zod.field, Zod.guestEmail_, Zod.string_,
    Zod.email.
  cbn [Zod.prop String.eqb Ascii.eqb Bool.eqb fst snd Zod.run_checks flat_map app].
  rewrite He. reflexivity.
Qed.

Lemma validation_accepts_fractional_guests_witness :
  Zod.insertBookingSchema_parse has_at
    (booking_body (VNumber (Fin (5 # 2))) "ada@example.com")
  = Return (Insert.mk "2024-03-10" "2024-03-11" (Fin (5 # 2)) "Ada"
              "ada@example.com" None "969" "confirmed").
Proof. apply (validation_accepts_fractional_guests has_at). reflexivity. Defined.

(** ** Routes *)
Module RouteFacts.

(** The mail call never throws: a rejection of the mail service is logged and
    answered with [false]; the repository is not touched. *)
Lemma sendEmail_returns send (params : EmailParams) (w : World) :
  exists sent entries,
    sendEmail send params w
    = (Return sent, mkWorld (storage w) (console w ++ entries))
    /\ (sent = true <-> send params = Return tt).
Proof.
  unfold sendEmail, try_catch, bind, lift, ret, console_error.
  destruct (send params) as [[] | e].
  - exists true, []. rewrite app_nil_r. destruct w; split; [reflexivity | tauto].
  - eexists false, [_]. cbn [storage console].
    split; [reflexivity |]. split; discriminate.
Qed.

Lemma notify_returns send gen (booking : Booking) (w : World) :
  exists entries,
    notify send gen booking w = (Return tt, mkWorld (storage w) (console w ++ entries)).
Proof.
  unfold notify, sendBookingConfirmation, try_catch, bind, lift.
  destruct (gen booking) as [html | e]; cbv beta iota.
  - match goal with |- context [sendEmail send ?p w] =>
      destruct (sendEmail_returns send p w) as (sent & entries & -> & _) end.
    destruct sent; cbn [negb].
    + exists entries. reflexivity.
    + exists (entries ++ [Warn ("Failed to send confirmation email for booking "
                                 ++ id booking)]).
      unfold console_warn. cbn [storage console]. now rewrite app_assoc.
  - eexists [_]. reflexivity.
Qed.

End RouteFacts.
Import RouteFacts.

(** C8.  A booking that validates and is confirmed is stored and answered
    with 201 and the stored record whatever the notifier does: the mail
    service may resolve or reject, the template may throw; nothing reaches the
    caller as an exception and the record stays in the repository. *)
Theorem post_bookings_survives_notifier (isEmail : string -> bool)
    (send : EmailParams -> result unit) (gen : Booking -> result string)
    (uuid : string) (now : Z) (req_body : value) (w : World) (data : InsertBooking) :
  Zod.insertBookingSchema_parse isEmail req_body = Return data ->
  Insert.status data = "confirmed"%string ->
  let booking := fst (createBooking uuid now (storage w) data) in
  let out := post_bookings isEmail send gen uuid now req_body w in
  fst out = Return (mkResponse 201 (JBooking booking))
  /\ storage (snd out) = snd (createBooking uuid now (storage w) data)
  /\ getBooking (storage (snd out)) uuid = Some booking.
Proof.
  intros Hparse Hst booking out.
  assert (exists entries,
            out = (Return (mkResponse 201 (JBooking booking)),
                   mkWorld (snd (createBooking uuid now (storage w) data))
                           (console w ++ entries))) as (entries & E).
  { assert (strict_eq_string (status booking) "confirmed" = true) as Hc.
    { subst booking. cbn [createBooking fst status strict_eq_string].
      rewrite Hst. reflexivity. }
    subst out booking. unfold post_bookings.
    unfold try_catch at 1. unfold bind at 1. unfold lift at 1. rewrite Hparse.
    unfold bind at 1. unfold storage_createBooking.
    destruct (createBooking uuid now (storage w) data) as [b s'].
    cbn [fst snd] in *. rewrite Hc.
    unfold bind at 1.
    match goal with |- context [try_catch ?c ?h ?w'] =>
      change (try_catch c h w') with (notify send gen b w');
      destruct (notify_returns send gen b w') as (entries & ->) end.
    exists entries. reflexivity. }
  rewrite E. cbn [fst snd storage].
  split; [reflexivity |]. split; [reflexivity |].
  cbn [createBooking snd]. unfold getBooking. cbn [with_bookings bookings].
  apply MapFacts.get_set_same.
Qed.

Lemma post_bookings_survives_notifier_witness :
  fst (post_bookings has_at mail_down template_ok "b-2" 1710028800000
         (booking_body (VNumber (Int 2)) "ada@example.com") fresh_world)
  = Return (mkResponse 201
              (JBooking (mkBooking "b-2" "2024-03-10" "2024-03-11" (Int 2) "Ada"
                           "ada@example.com" None "969" (VString "confirmed")
                           (TimeValue 1710028800000))))
  /\ fst (post_bookings has_at mail_up template_throws "b-2" 1710028800000
         (booking_body (VNumber (Int 2)) "ada@example.com") fresh_world)
  = Return (mkResponse 201
              (JBooking (mkBooking "b-2" "2024-03-10" "2024-03-11" (Int 2) "Ada"
                           "ada@example.com" None "969" (VString "confirmed")
                           (TimeValue 1710028800000)))).
Proof.
  split.
  - apply (post_bookings_survives_notifier has_at mail_down template_ok "b-2"
             1710028800000 (booking_body (VNumber (Int 2)) "ada@example.com")
             fresh_world
             (Insert.mk "2024-03-10" "2024-03-11" (Int 2) "Ada" "ada@example.com"
                None "969" "confirmed")); reflexivity.
  - apply (post_bookings_survives_notifier has_at mail_up template_throws "b-2"
             1710028800000 (booking_body (VNumber (Int 2)) "ada@example.com")
             fresh_world
             (Insert.mk "2024-03-10" "2024-03-11" (Int 2) "Ada" "ada@example.com"
                None "969" "confirmed")); reflexivity.
Defined.

(** C9.  A PATCH whose body has the empty string as status is answered like
    one without a status: 400, whatever the repository holds, and the
    repository stays as it is.  A non-empty string is not checked against any
    list: it is written into the booking of that identifier, which is
    returned, or the answer is 404 when there is none. *)
Theorem patch_booking_status (key : string) (props : list (string * value)) (w : World) :
  (Zod.prop props "status" = VString EmptyString ->
     patch_booking key (VObject props) w
     = (Return (mkResponse 400 (JMessage "Status is required")), w)
     /\ (forall props' w',
           Zod.prop props' "status" = VUndefined ->
           fst (patch_booking key (VObject props') w')
           = fst (patch_booking key (VObject props) w)))
  /\ (forall s,
        s <> EmptyString ->
        Zod.prop props "status" = VString s ->
        match getBooking (storage w) key with
        | Some existing =>
            let updated := merge existing (Partial.status_only (VString s)) in
            patch_booking key (VObject props) w
            = (Return (mkResponse 200 (JBooking updated)),
               mkWorld (with_bookings (storage w)
                          (JSMap.set (bookings (storage w)) key updated))
                       (console w))
            /\ status updated = VString s
            /\ getBooking (with_bookings (storage w)
                             (JSMap.set (bookings (storage w)) key updated)) key
               = Some updated
        | None =>
            patch_booking key (VObject props) w
            = (Return (mkResponse 404 (JMessage "Booking not found")), w)
        end).
Proof.
  split.
  - intros Hs.
    assert (forall o w0, truthy (Zod.prop o "status") = false ->
              patch_booking key (VObject o) w0
              = (Return (mkResponse 400 (JMessage "Status is required")), w0)) as H400.
    { intros o w0 Hf. unfold patch_booking, try_catch, bind, lift, destructure.
      rewrite Hf. reflexivity. }
    split.
    + apply H400. now rewrite Hs.
    + intros props' w' Hu. rewrite !H400; [reflexivity | now rewrite Hs | now rewrite Hu].
  - intros s Hne Hs.
    assert (truthy (VString s) = true) as Ht by (destruct s; [congruence | reflexivity]).
    unfold patch_booking, try_catch, bind, lift, destructure, storage_updateBooking,
      updateBooking, getBooking.
    rewrite Hs, Ht. cbn [negb].
    destruct (JSMap.get (bookings (storage w)) key) as [existing |].
    + cbn zeta. split; [reflexivity |]. split; [reflexivity |].
      cbn [with_bookings bookings]. apply MapFacts.get_set_same.
    + destruct w; reflexivity.
Qed.

Lemma patch_booking_status_witness :
  patch_booking "b-1" (VObject [("status"%string, VString EmptyString)])
    (mkWorld one_booking [])
  = (Return (mkResponse 400 (JMessage "Status is required")), mkWorld one_booking [])
  /\ fst (patch_booking "b-1" (VObject [("status"%string, VString "archived")])
            (mkWorld one_booking []))
     = Return (mkResponse 200
                 (JBooking (mkBooking "b-1" "2024-03-10" "2024-03-11" (Int 2) "Ada"
                              "ada@example.com" (Some "555-0100"%string) "969"
                              (VString "archived") (TimeValue 1710028800000)))).
Proof.
  split.
  - apply (proj1 (patch_booking_status "b-1"
                    [("status"%string, VString EmptyString)] (mkWorld one_booking []))).
    reflexivity.
  - pose proof (proj2 (patch_booking_status "b-1"
                         [("status"%string, VString "archived")]
                         (mkWorld one_booking []))
                  "archived"%string ltac:(discriminate) eq_refl) as H.
    cbv in H. destruct H as [H _]. exact (f_equal fst H).
Defined.

(** ** Card fields of the payment form *)
Module CardFacts.

Lemma digit_not_space (c : ascii) : is_digit c = true -> is_space c = false.
Proof.
  unfold is_digit, is_space. intros H.
  apply andb_prop in H as [H1 H2].
  apply Nat.leb_le in H1, H2.
  destruct (Nat.leb_spec 9 (nat_of_ascii c)), (Nat.leb_spec (nat_of_ascii c) 13),
    (Nat.eqb_spec (nat_of_ascii c) 32), (Nat.eqb_spec (nat_of_ascii c) 160);
    simpl; try reflexivity; lia.
Qed.

Lemma digits_after_spaces (s : string) :
  delete_all (fun c => negb (is_digit c)) (delete_all is_space s) = digits_of s.
Proof.
  unfold digits_of. induction s as [| c s IH]; [reflexivity |].
  cbn [delete_all]. destruct (is_space c) eqn:Es.
  - destruct (is_digit c) eqn:Ed; [now rewrite (digit_not_space c Ed) in Es | exact IH].
  - cbn [delete_all]. destruct (is_digit c); cbn [negb]; now rewrite IH.
Qed.

Lemma digits_of_all_digits (s : string) : all_chars is_digit (digits_of s) = true.
Proof.
  unfold digits_of. induction s as [| c s IH]; [reflexivity |].
  cbn [delete_all]. destruct (is_digit c) eqn:E; cbn [negb all_chars]; [| exact IH].
  now rewrite E.
Qed.

Lemma delete_none (class : ascii -> bool) (s : string) :
  all_chars (fun c => negb (class c)) s = true -> delete_all class s = s.
Proof.
  induction s as [| c s IH]; [reflexivity |]. cbn [all_chars delete_all].
  intros [Hc Hs]%andb_prop. apply negb_true_iff in Hc. rewrite Hc. now rewrite IH.
Qed.

Lemma all_chars_impl (p q : ascii -> bool) (s : string) :
  (forall c, p c = true -> q c = true) ->
  all_chars p s = true -> all_chars q s = true.
Proof.
  intros Hpq. induction s as [| c s IH]; [reflexivity |]. cbn [all_chars].
  intros [Hc Hs]%andb_prop. now rewrite (Hpq _ Hc), IH.
Qed.

Lemma digits_of_digits (s : string) : all_chars is_digit s = true -> digits_of s = s.
Proof.
  intros H. apply delete_none. revert H. apply all_chars_impl.
  intros c ->. reflexivity.
Qed.

Lemma spaces_of_digits (s : string) :
  all_chars is_digit s = true -> delete_all is_space s = s.
Proof.
  intros H. apply delete_none. revert H. apply all_chars_impl.
  intros c Hc. now rewrite (digit_not_space c Hc).
Qed.

Lemma delete_all_app (class : ascii -> bool) (s t : string) :
  delete_all class (s ++ t) = (delete_all class s ++ delete_all class t)%string.
Proof.
  induction s as [| c s IH]; [reflexivity |]. cbn [append delete_all].
  destruct (class c); cbn [append]; now rewrite IH.
Qed.

Lemma all_chars_app (class : ascii -> bool) (s t : string) :
  all_chars class (s ++ t) = all_chars class s && all_chars class t.
Proof.
  induction s as [| c s IH]; [reflexivity |]. cbn [append all_chars].
  now rewrite IH, andb_assoc.
Qed.

Lemma length_app (s t : string) :
  String.length (s ++ t) = (String.length s + String.length t)%nat.
Proof. induction s as [| c s IH]; [reflexivity |]. cbn. now rewrite IH. Qed.

(** [substring] by taking and dropping. *)
Lemma substring_drop (i n : nat) (s : string) :
  substring i n s = substring 0 n (drop i s).
Proof.
  revert s. induction i as [| i IH]; intros s.
  - destruct s; reflexivity.
  - destruct s as [| c s]; [destruct n; reflexivity |]. cbn [substring drop]. apply IH.
Qed.

Lemma take_drop (n : nat) (s : string) : (substring 0 n s ++ drop n s)%string = s.
Proof.
  revert s. induction n as [| n IH]; intros [| c s]; try reflexivity.
  cbn [substring drop append]. now rewrite IH.
Qed.

Lemma length_take (n : nat) (s : string) :
  String.length (substring 0 n s) = Nat.min n (String.length s).
Proof.
  revert s. induction n as [| n IH]; intros [| c s]; try reflexivity.
  cbn [substring String.length Nat.min]. now rewrite IH.
Qed.

Lemma length_drop (n : nat) (s : string) :
  String.length (drop n s) = (String.length s - n)%nat.
Proof.
  revert s. induction n as [| n IH]; intros [| c s]; try reflexivity.
  cbn [drop String.length Nat.sub]. apply IH.
Qed.

Lemma drop_drop (n m : nat) (s : string) : drop n (drop m s) = drop (m + n) s.
Proof.
  revert s. induction m as [| m IH]; intros s; [reflexivity |].
  destruct s as [| c s]; [destruct n; reflexivity |]. cbn [drop Nat.add]. apply IH.
Qed.

Lemma all_chars_take (class : ascii -> bool) (n : nat) (s : string) :
  all_chars class s = true -> all_chars class (substring 0 n s) = true.
Proof.
  revert s. induction n as [| n IH]; intros [| c s]; try reflexivity.
  cbn [substring all_chars]. intros [Hc Hs]%andb_prop. now rewrite Hc, IH.
Qed.

Lemma all_chars_drop (class : ascii -> bool) (n : nat) (s : string) :
  all_chars class s = true -> all_chars class (drop n s) = true.
Proof.
  revert s. induction n as [| n IH]; intros [| c s]; try (intros; assumption || reflexivity).
  cbn [drop all_chars]. intros [Hc Hs]%andb_prop. now apply IH.
Qed.

Lemma take_all (n : nat) (s : string) :
  (String.length s <= n)%nat -> substring 0 n s = s.
Proof.
  revert s. induction n as [| n IH]; intros [| c s]; cbn [String.length substring];
    intros H; try reflexivity; try lia.
  now rewrite IH by lia.
Qed.

(** On a string of digits the pattern matches at once, or not at all. *)
Lemma digit_run_digits (n : nat) (s : string) :
  all_chars is_digit s = true -> digit_run n s = substring 0 n s.
Proof.
  revert s. induction n as [| n IH]; intros [| c s]; try reflexivity.
  cbn [all_chars digit_run substring]. intros [Hc Hs]%andb_prop.
  now rewrite Hc, IH.
Qed.

Lemma length_digit_run (n : nat) (s : string) :
  (String.length (digit_run n s) <= String.length s)%nat.
Proof.
  revert s. induction n as [| n IH]; intros [| c s]; cbn [digit_run String.length]; try lia.
  destruct (is_digit c); cbn [String.length]; [| lia].
  specialize (IH s). lia.
Qed.

Lemma first_card_match_short (s : string) :
  (String.length s < 4)%nat -> first_card_match s = None.
Proof.
  induction s as [| c s IH]; [reflexivity |]. intros H.
  cbn [first_card_match].
  pose proof (length_digit_run 16 (String c s)) as Hr.
  destruct (Nat.leb_spec 4 (String.length (digit_run 16 (String c s)))); [lia |].
  apply IH. cbn [String.length] in H. lia.
Qed.

Lemma first_card_match_digits (s : string) :
  all_chars is_digit s = true -> (4 <= String.length s)%nat ->
  first_card_match s = Some (substring 0 16 s).
Proof.
  intros Hd Hl. destruct s as [| c s]; [cbn in Hl; lia |].
  cbn [first_card_match]. rewrite (digit_run_digits 16 _ Hd), length_take.
  destruct (Nat.leb_spec 4 (Nat.min 16 (String.length (String c s)))); [reflexivity | lia].
Qed.

(** The parts are the groups of four of what is left from index [i]. *)
Lemma card_parts_spaces (fuel i : nat) (m : string) :
  all_chars is_digit m = true ->
  (String.length m - i <= fuel)%nat ->
  delete_all is_space (join " " (card_parts fuel i m)) = drop i m
  /\ all_chars (fun c => is_digit c || Ascii.eqb c " ") (join " " (card_parts fuel i m)) = true
  /\ (i < String.length m ->
      4 * String.length (join " " (card_parts fuel i m)) + 1
      <= 5 * (String.length m - i))%nat
  /\ (card_parts fuel i m = [] <-> String.length m <= i)%nat.
Proof.
  intros Hd. revert i. induction fuel as [| fuel IH]; intros i Hf.
  - cbn [card_parts join delete_all all_chars].
    assert (drop i m = EmptyString) as ->.
    { pose proof (length_drop i m). destruct (drop i m); [reflexivity | cbn in *; lia]. }
    repeat split; try reflexivity; try lia.
  - cbn [card_parts]. destruct (Nat.ltb_spec i (String.length m)) as [Hi | Hi].
    + destruct (IH (i + 4)%nat ltac:(lia)) as (IH1 & IH2 & IH3 & IH4).
      assert (all_chars is_digit (substring i 4 m) = true) as Hc.
      { rewrite substring_drop. now apply all_chars_take, all_chars_drop. }
      assert (all_chars (fun c => is_digit c || Ascii.eqb c " ") (substring i 4 m) = true)
        as Hc' by (revert Hc; apply all_chars_impl; intros c ->; reflexivity).
      assert (String.length (substring i 4 m) = Nat.min 4 (String.length m - i)) as Hlen.
      { now rewrite substring_drop, length_take, length_drop. }
      assert (drop i m = (substring i 4 m ++ drop (i + 4) m)%string) as Hsplit.
      { rewrite substring_drop, <- drop_drop. symmetry. apply take_drop. }
      destruct (card_parts fuel (i + 4) m) as [| p rest] eqn:Ep.
      * cbn [join].
        assert (String.length m <= i + 4)%nat as Hend by (now apply IH4).
        assert (drop (i + 4) m = EmptyString) as Hnil.
        { pose proof (length_drop (i + 4) m). destruct (drop (i + 4) m);
            [reflexivity | cbn in *; lia]. }
        rewrite Hnil in Hsplit.
        assert (forall t, (t ++ EmptyString)%string = t) as app_nil.
        { induction t as [| a t IHt]; [reflexivity |]. cbn. now rewrite IHt. }
        rewrite app_nil in Hsplit. rewrite Hsplit.
        split; [now apply spaces_of_digits |].
        split; [exact Hc' |].
        split; [intros _; lia |].
        split; [discriminate | lia].
      * change (join " " (substring i 4 m :: p :: rest))
          with (substring i 4 m ++ " " ++ join " " (p :: rest))%string.
        rewrite !delete_all_app, !all_chars_app, !length_app, IH1, IH2, Hc'.
        rewrite (spaces_of_digits _ Hc).
        assert (i + 4 < String.length m)%nat as Hmore.
        { destruct (Nat.lt_ge_cases (i + 4) (String.length m)) as [H | H]; [exact H |].
          apply IH4 in H. discriminate. }
        specialize (IH3 Hmore).
        split; [cbn [delete_all is_space nat_of_ascii]; cbn; now rewrite Hsplit |].
        split; [reflexivity |].
        split; [intros _; cbn [String.length]; lia |].
        split; [discriminate | lia].
    + assert (drop i m = EmptyString) as ->.
      { pose proof (length_drop i m). destruct (drop i m); [reflexivity | cbn in *; lia]. }
      cbn [join delete_all all_chars]. repeat split; try reflexivity; try lia.
Qed.

Lemma formatCardNumber_short (value : string) :
  (String.length (digits_of value) < 4)%nat ->
  formatCardNumber value = digits_of value.
Proof.
  intros H. unfold formatCardNumber. rewrite digits_after_spaces.
  now rewrite (first_card_match_short _ H).
Qed.

Lemma formatCardNumber_long (value : string) :
  (4 <= String.length (digits_of value))%nat ->
  let m := substring 0 16 (digits_of value) in
  formatCardNumber value = join " " (card_parts (String.length m) 0 m)
  /\ all_chars is_digit m = true
  /\ (4 <= String.length m <= 16)%nat.
Proof.
  intros H m.
  assert (all_chars is_digit m = true) as Hm
      by (apply all_chars_take, digits_of_all_digits).
  assert (4 <= String.length m <= 16)%nat as Hl by (unfold m; rewrite length_take; lia).
  split; [| split; assumption].
  unfold formatCardNumber. rewrite digits_after_spaces.
  rewrite (first_card_match_digits _ (digits_of_all_digits value) H). fold m.
  destruct (card_parts_spaces (String.length m) 0 m Hm ltac:(lia)) as (_ & _ & _ & Hnil).
  destruct (card_parts (String.length m) 0 m) eqn:E; [| reflexivity].
  assert (String.length m <= 0)%nat by (now apply Hnil). lia.
Qed.

End CardFacts.
Import CardFacts.


(** X2.  Formatting a formatted card number changes nothing: the field can format
    its value on every keystroke. *)
Theorem formatCardNumber_idempotent (value : string) :
  formatCardNumber (formatCardNumber value) = formatCardNumber value.
Proof.
  assert (forall t, digits_of t = digits_of (delete_all is_space t)) as Hsp
      by (intros t; symmetry; apply digits_after_spaces).
  destruct (Nat.leb_spec 4 (String.length (digits_of value))) as [Hl | Hs].
  - destruct (formatCardNumber_long value Hl) as (E & Hm & Hlen).
    set (m := substring 0 16 (digits_of value)) in *.
    assert (digits_of (formatCardNumber value) = m) as Hd.
    { rewrite Hsp, E.
      destruct (card_parts_spaces (String.length m) 0 m Hm ltac:(lia)) as (H1 & _).
      rewrite H1. now apply digits_of_digits. }
    destruct (formatCardNumber_long (formatCardNumber value)) as (E' & _).
    { rewrite Hd. lia. }
    rewrite E', Hd, (take_all 16 m) by lia. now rewrite <- E.
  - rewrite (formatCardNumber_short value Hs).
    pose proof (digits_of_all_digits value) as Hd.
    rewrite formatCardNumber_short; rewrite (digits_of_digits _ Hd); [reflexivity | exact Hs].
Qed.

Module ExpiryFacts.

Lemma formatExpiry_cases (value : string) :
  formatExpiry value
  = if Nat.leb 2 (String.length (digits_of value))
    then (substring 0 2 (digits_of value) ++ "/" ++ substring 2 2 (digits_of value))%string
    else digits_of value.
Proof. unfold formatExpiry. now rewrite digits_after_spaces. Qed.

Lemma substring_0_0 (s : string) : substring 0 0 s = EmptyString.
Proof. destruct s; reflexivity. Qed.

End ExpiryFacts.
Import ExpiryFacts.

(** X3.  The expiry field: from two digits on the value is the first two digits, a
    slash, and the next two digits as far as typed, five characters at most;
    formatting it again changes nothing. *)
Theorem formatExpiry_shape (value : string) :
  (String.length (formatExpiry value) <= 5)%nat
  /\ digits_of (formatExpiry value) = substring 0 4 (digits_of value)
  /\ ((2 <= String.length (digits_of value))%nat ->
      substring 2 1 (formatExpiry value) = "/"%string)
  /\ formatExpiry (formatExpiry value) = formatExpiry value.
Proof.
  pose proof (digits_of_all_digits value) as Hd.
  set (d := digits_of value) in *.
  assert (digits_of (formatExpiry value) = substring 0 4 d) as Hdig.
  { rewrite formatExpiry_cases. fold d.
    destruct (Nat.leb_spec 2 (String.length d)) as [Hl | Hs].
    - destruct d as [| a [| b d']]; try (cbn in Hl; lia).
      cbn [all_chars] in Hd.
      apply andb_prop in Hd as [Ha Hd]. apply andb_prop in Hd as [Hb Hd].
      cbn [substring append]. unfold digits_of. cbn [delete_all].
      rewrite Ha, Hb. cbn [negb].
      change (is_digit "/") with false. cbn [negb].
      replace (substring 0 0 d') with EmptyString by (destruct d'; reflexivity).
      cbn [append delete_all]. change (is_digit "/") with false. cbn [negb].
      fold (digits_of (substring 0 2 d')).
      now rewrite (digits_of_digits (substring 0 2 d')) by (now apply all_chars_take).
    - rewrite (digits_of_digits _ Hd). symmetry. apply take_all. lia. }
  split; [| split; [exact Hdig | split]].
  - rewrite formatExpiry_cases. fold d.
    destruct (Nat.leb_spec 2 (String.length d)) as [Hl | Hs]; [| lia].
    rewrite !length_app, (substring_drop 2 2 d), !length_take. cbn [String.length]. lia.
  - intros Hl. rewrite formatExpiry_cases. fold d.
    destruct (Nat.leb_spec 2 (String.length d)); [| lia].
    destruct d as [| a [| b d']]; try (cbn in Hl; lia).
    cbn [substring append].
    replace (substring 0 0 d') with EmptyString by (destruct d'; reflexivity).
    cbn [append substring]. now destruct (substring 0 2 d').
  - rewrite (formatExpiry_cases (formatExpiry value)), Hdig.
    rewrite formatExpiry_cases. fold d.
    destruct (Nat.leb_spec 2 (String.length d)) as [Hl | Hs].
    + rewrite length_take.
      destruct (Nat.leb_spec 2 (Nat.min 4 (String.length d))); [| lia].
      destruct d as [| a [| b d']]; try (cbn in Hl; lia).
      destruct d' as [| c [| e d'']]; cbn [substring append];
        rewrite ?substring_0_0; reflexivity.
    + rewrite (take_all 4 d) by lia.
      destruct (Nat.leb_spec 2 (String.length d)); [lia | reflexivity].
Qed.

Lemma formatExpiry_shape_witness :
  substring 2 1 (formatExpiry "1234") = "/"%string
  /\ formatExpiry "1234" = "12/34"%string.
Proof.
  split; [| reflexivity].
  apply (proj1 (proj2 (proj2 (formatExpiry_shape "1234")))).
  vm_compute. repeat constructor.
Defined.

(** ** Slideshow *)
Module SlideFacts.
Import NumberFacts.

Lemma rem_Int (a n : Z) : 0 <= a -> 0 < n -> (Int a mod Int n)%js = Int (a mod n).
Proof.
  intros Ha Hn. unfold Number_rem, Int, Number.is_zero. cbn [Qnum inject_Z].
  destruct (Z.eqb_spec n 0); [lia |].
  f_equal. apply Qred_Int_eq.
  assert (Qtrunc (inject_Z a / inject_Z n) = a / n) as ->.
  { unfold Qtrunc.
    assert (0 <= inject_Z a / inject_Z n)%Q as Hq.
    { apply Qle_shift_div_l; [unfold Qlt, inject_Z; simpl; lia |].
      unfold Qle, Qmult, inject_Z; simpl. lia. }
    apply Qle_bool_iff in Hq. rewrite Hq. symmetry. apply Zdiv_Qdiv. }
  unfold Qeq, Qminus, Qplus, Qopp, Qmult, inject_Z. cbn [Qnum Qden].
  pose proof (Z.div_mod a n ltac:(lia)). simpl. lia.
Qed.

Lemma nextSlide_Int (n i : Z) :
  0 < n <= 2 ^ 32 -> 0 <= i < n ->
  nextSlide (Int n) (Int i) = Int ((i + 1) mod n).
Proof.
  intros Hn Hi. change (2 ^ 32) with 4294967296 in Hn.
  unfold nextSlide. rewrite add_Int, round64_Z
    by (change (2 ^ 53) with 9007199254740992; lia).
  apply rem_Int; lia.
Qed.

Lemma previousSlide_Int (n i : Z) :
  0 < n <= 2 ^ 32 -> 0 <= i < n ->
  previousSlide (Int n) (Int i) = Int ((i - 1) mod n).
Proof.
  intros Hn Hi. change (2 ^ 32) with 4294967296 in Hn.
  unfold previousSlide.
  rewrite sub_Int, round64_Z by (change (2 ^ 53) with 9007199254740992; lia).
  rewrite add_Int, round64_Z by (change (2 ^ 53) with 9007199254740992; lia).
  rewrite rem_Int by lia. f_equal.
  replace (i - 1 + n) with (i - 1 + 1 * n) by ring. apply Z.mod_add. lia.
Qed.

End SlideFacts.
Import SlideFacts.

(** X4.  With one image or more and the index on one of them, next and previous
    keep the index on an image, wrapping around at the ends, and each undoes
    the other. *)
Theorem slide_index_stays_on_an_image (n i : Z) :
  0 < n <= 2 ^ 32 -> 0 <= i < n ->
  (exists j, nextSlide (Int n) (Int i) = Int j /\ 0 <= j < n
             /\ j = (if i + 1 =? n then 0 else i + 1))
  /\ (exists j, previousSlide (Int n) (Int i) = Int j /\ 0 <= j < n
                /\ j = (if i =? 0 then n - 1 else i - 1))
  /\ previousSlide (Int n) (nextSlide (Int n) (Int i)) = Int i
  /\ nextSlide (Int n) (previousSlide (Int n) (Int i)) = Int i.
Proof.
  intros Hn Hi.
  assert ((i + 1) mod n = if i + 1 =? n then 0 else i + 1) as Enext.
  { destruct (Z.eqb_spec (i + 1) n) as [-> | Hne].
    - apply Z.mod_same. lia.
    - apply Z.mod_small. lia. }
  assert ((i - 1) mod n = if i =? 0 then n - 1 else i - 1) as Eprev.
  { destruct (Z.eqb_spec i 0) as [-> | Hne].
    - replace (0 - 1) with (n - 1 + (-1) * n) by ring.
      rewrite Z.mod_add by lia. apply Z.mod_small. lia.
    - apply Z.mod_small. lia. }
  pose proof (Z.mod_pos_bound (i + 1) n ltac:(lia)) as Bnext.
  pose proof (Z.mod_pos_bound (i - 1) n ltac:(lia)) as Bprev.
  split; [exists ((i + 1) mod n); rewrite nextSlide_Int by assumption; auto |].
  split; [exists ((i - 1) mod n); rewrite previousSlide_Int by assumption; auto |].
  split.
  - rewrite nextSlide_Int, previousSlide_Int by assumption. f_equal.
    rewrite Enext. destruct (Z.eqb_spec (i + 1) n) as [E | Hne].
    + replace (0 - 1) with (n - 1 + (-1) * n) by ring.
      rewrite Z.mod_add by lia. rewrite Z.mod_small; lia.
    + rewrite Z.mod_small; lia.
  - rewrite previousSlide_Int, nextSlide_Int by assumption. f_equal.
    rewrite Eprev. destruct (Z.eqb_spec i 0) as [-> | Hne].
    + replace (n - 1 + 1) with n by ring. apply Z.mod_same. lia.
    + rewrite Z.mod_small; lia.
Qed.

Lemma slide_index_stays_on_an_image_witness :
  nextSlide (Int 5) (Int 4) = Int 0
  /\ previousSlide (Int 5) (Int 0) = Int 4
  /\ previousSlide (Int 5) (nextSlide (Int 5) (Int 4)) = Int 4.
Proof.
  assert (0 < 5 <= 2 ^ 32) as Hn by (split; [lia | vm_compute; discriminate]).
  destruct (slide_index_stays_on_an_image 5 4 Hn ltac:(lia))
    as ((j & Ej & _ & ->) & _ & Einv & _).
  destruct (slide_index_stays_on_an_image 5 0 Hn ltac:(lia))
    as (_ & (k & Ek & _ & ->) & _).
  repeat apply conj; assumption.
Defined.

(** X5.  Without images an advance makes the index NaN, and no later advance
    brings it back, however many images there are by then. *)
Theorem slide_index_lost_without_images (images_length prev : number) :
  nextSlide (Int 0) prev = NaN
  /\ previousSlide (Int 0) prev = NaN
  /\ nextSlide images_length NaN = NaN
  /\ previousSlide images_length NaN = NaN.
Proof.
  unfold nextSlide, previousSlide.
  repeat apply conj.
  - destruct (prev + Int 1)%js as [| s | p]; reflexivity.
  - destruct (prev - Int 1 + Int 0)%js as [| s | p]; reflexivity.
  - reflexivity.
  - destruct images_length; reflexivity.
Qed.

(** ** The rest of the repository *)
Module StoreFacts.
Import NumberFacts MapFacts SortFacts.

Lemma values_app {V : Type} (m : JSMap.t V) (k : string) (v : V) :
  JSMap.values (m ++ [(k, v)]) = JSMap.values m ++ [v].
Proof. unfold JSMap.values. now rewrite map_app. Qed.

Lemma values_set_cases {V : Type} (m : JSMap.t V) (k : string) (v x : V) :
  In x (JSMap.values (JSMap.set m k v)) -> x = v \/ In x (JSMap.values m).
Proof.
  induction m as [| [k' v'] m IH]; cbn [JSMap.set JSMap.values map snd].
  - intros [<- | []]. now left.
  - destruct (String.eqb k' k); cbn [map snd In].
    + intros [<- | H]; [now left | right; now right].
    + intros [<- | H]; [right; now left |].
      destruct (IH H) as [-> | H']; [now left | right; now right].
Qed.

Lemma values_set_new {V : Type} (m : JSMap.t V) (k : string) (v : V) :
  In v (JSMap.values (JSMap.set m k v)).
Proof.
  induction m as [| [k' v'] m IH]; cbn [JSMap.set JSMap.values map snd].
  - now left.
  - destruct (String.eqb k' k); cbn [map snd In]; [now left | right; exact IH].
Qed.

Lemma find_app {A : Type} (p : A -> bool) (l : list A) (x : A) :
  find p (l ++ [x])
  = match find p l with
    | Some y => Some y
    | None => if p x then Some x else None
    end.
Proof.
  induction l as [| a l IH]; [reflexivity |]. cbn [app find].
  destruct (p a); [reflexivity | exact IH].
Qed.

(** The sign of a difference of time values. *)
Lemma date_sub_sign (a b : Date) :
  valid_date a -> valid_date b ->
  Number.lt (Int 0) (getTime (Date_copy b) - getTime (Date_copy a))%js
  = (time_of a <? time_of b).
Proof.
  intros (ta & -> & Ha) (tb & -> & Hb). now apply sub_sign.
Qed.


(** In a list sorted by descending key an element whose key is above all
    others comes first. *)
Lemma sorted_head {A : Type} (key : A -> Z) (l : list A) (u : A) :
  StronglySorted (descending key) l ->
  In u l ->
  (forall x, In x l -> x = u \/ key x < key u) ->
  hd_error l = Some u.
Proof.
  intros Hs Hu Hmax. destruct l as [| h t]; [contradiction |].
  cbn [hd_error]. f_equal.
  destruct (Hmax h (or_introl eq_refl)) as [-> | Hlt]; [reflexivity |].
  destruct Hu as [-> | Hin]; [reflexivity |].
  inversion Hs as [| ? ? _ Hall]; subst.
  rewrite Forall_forall in Hall. specialize (Hall u Hin). unfold descending in Hall. lia.
Qed.

(** Under the invariant a section is found by its property where the map has
    it under its key. *)
Lemma getContentSection_get (s : MemStorage) (key : string) :
  sections_keyed s ->
  getContentSection s key = JSMap.get (contentSections s) key.
Proof.
  unfold sections_keyed, getContentSection.
  induction (contentSections s) as [| [k v] m IH]; [reflexivity |].
  intros H. inversion H as [| ? ? Hk Hm]; subst. cbn [fst snd] in Hk.
  cbn [JSMap.values map snd find JSMap.get]. rewrite Hk.
  destruct (String.eqb k key); [reflexivity | now apply IH].
Qed.

Lemma set_keyed {V : Type} (key_of : V -> string) (m : JSMap.t V) (k : string) (v : V) :
  Forall (fun entry => key_of (snd entry) = fst entry) m ->
  key_of v = k ->
  Forall (fun entry => key_of (snd entry) = fst entry) (JSMap.set m k v).
Proof.
  intros Hm Hv. induction m as [| [k' v'] m IH]; cbn [JSMap.set].
  - constructor; [exact Hv | constructor].
  - pose proof (Forall_inv Hm) as Hk. pose proof (Forall_inv_tail Hm) as Hrest.
    cbn [fst snd] in Hk.
    destruct (String.eqb_spec k' k) as [E | Hne].
    + constructor; [cbn [fst snd]; congruence | exact Hrest].
    + constructor; [exact Hk | now apply IH].
Qed.

Lemma get_keyed {V : Type} (key_of : V -> string) (m : JSMap.t V) (k : string) (v : V) :
  Forall (fun entry => key_of (snd entry) = fst entry) m ->
  JSMap.get m k = Some v -> key_of v = k.
Proof.
  intros Hm. induction m as [| [k' v'] m IH]; [discriminate |].
  pose proof (Forall_inv Hm) as Hv. cbn [fst snd] in Hv.
  cbn [JSMap.get]. destruct (String.eqb_spec k' k) as [<- | _].
  - intros [= <-]. exact Hv.
  - apply IH. exact (Forall_inv_tail Hm).
Qed.

Lemma delete_get {V : Type} (m : JSMap.t V) (k : string) :
  fst (Map_delete m k) = match JSMap.get m k with Some _ => true | None => false end
  /\ (JSMap.get m k = None -> snd (Map_delete m k) = m)
  /\ (forall other, other <> k ->
        JSMap.get (snd (Map_delete m k)) other = JSMap.get m other)
  /\ (NoDup (JSMap.keys m) -> JSMap.get (snd (Map_delete m k)) k = None).
Proof.
  induction m as [| [k' v] m IH]; cbn [Map_delete JSMap.get].
  - repeat split; auto.
  - destruct IH as (IH1 & IH2 & IH3 & IH4).
    destruct (String.eqb_spec k' k) as [-> | Hne].
    + cbn [fst snd]. split; [reflexivity |]. split; [discriminate |]. split.
      * intros other Ho. destruct (String.eqb_spec k other); [congruence | reflexivity].
      * cbn [JSMap.keys map fst]. intros Hnd. inversion Hnd as [| ? ? Hnotin _]; subst.
        clear -Hnotin. induction m as [| [k2 v2] m IHm]; [reflexivity |].
        cbn [JSMap.get]. cbn [map fst In] in Hnotin.
        destruct (String.eqb_spec k2 k) as [-> | _]; [tauto |]. apply IHm. tauto.
    + destruct (Map_delete m k) as [found rest]. cbn [fst snd] in *.
      split; [exact IH1 |]. split; [intros H; now rewrite IH2 |]. split.
      * intros other Ho. cbn [JSMap.get].
        destruct (String.eqb k' other); [reflexivity | now apply IH3].
      * cbn [JSMap.keys map fst JSMap.get]. intros Hnd.
        inversion Hnd; subst.
        destruct (String.eqb_spec k' k); [congruence |]. now apply IH4.
Qed.






End StoreFacts.

Import MapFacts SortFacts StoreFacts.

(** X6.  [createUser] stores the user under the identifier drawn for it, and does
    not look at the names in use: a user who already has the name stays the
    one [getUserByUsername] finds, and the new user is found by name only
    where nobody had it. *)
Theorem createUser_name_taken (uuid : string) (s : MemStorage)
    (insertUser : NewUser.InsertUser) :
  getUser s uuid = None ->
  let user := fst (createUser uuid s insertUser) in
  let s' := snd (createUser uuid s insertUser) in
  getUser s' uuid = Some user
  /\ username user = NewUser.username insertUser
  /\ password user = NewUser.password insertUser
  /\ (forall name first,
        getUserByUsername s name = Some first ->
        getUserByUsername s' name = Some first)
  /\ (getUserByUsername s (NewUser.username insertUser) = None ->
      getUserByUsername s' (NewUser.username insertUser) = Some user)
  /\ (forall name, name <> NewUser.username insertUser ->
        getUserByUsername s' name = getUserByUsername s name).
Proof.
  unfold getUser. intros Hfresh. cbn zeta. cbn [createUser fst snd].
  unfold getUserByUsername. cbn [with_users users username password].
  split; [apply get_set_same |]. split; [reflexivity |]. split; [reflexivity |].
  rewrite set_fresh by assumption. rewrite values_app.
  split; [| split].
  - intros name first H. rewrite find_app, H. reflexivity.
  - intros H. rewrite find_app, H. cbn [username]. now rewrite String.eqb_refl.
  - intros name Hne. rewrite find_app. cbn [username].
    destruct (String.eqb_spec (NewUser.username insertUser) name); [congruence |].
    now destruct (find _ _).
Qed.

Lemma createUser_name_taken_witness :
  let s1 := snd (createUser "u-1" no_records (NewUser.mk "ada" "first")) in
  let s2 := snd (createUser "u-2" s1 (NewUser.mk "ada" "second")) in
  getUser s1 "u-2" = None
  /\ getUserByUsername s2 "ada" = Some (mkUser "u-1" "ada" "first")
  /\ getUser s2 "u-2" = Some (mkUser "u-2" "ada" "second").
Proof.
  cbn zeta.
  pose proof (createUser_name_taken "u-2"
                (snd (createUser "u-1" no_records (NewUser.mk "ada" "first")))
                (NewUser.mk "ada" "second") eq_refl) as H.
  cbn zeta in H. destruct H as (Hget & _ & _ & Hfirst & _).
  split; [reflexivity |]. split; [| exact Hget].
  apply Hfirst. reflexivity.
Defined.

(** The comparators of [getContacts] and [getContentSections] have the sign
    of the difference of the two time values. *)
Lemma contact_order_key (a b : Contact) :
  valid_date (contact_createdAt a) -> valid_date (contact_createdAt b) ->
  Number.lt (Int 0)
    (getTime (Date_copy (contact_createdAt b))
     - getTime (Date_copy (contact_createdAt a)))%js
  = (time_of (contact_createdAt a) <? time_of (contact_createdAt b)).
Proof. apply date_sub_sign. Qed.

Lemma section_order_key (a b : ContentSection) :
  valid_date (section_updatedAt a) -> valid_date (section_updatedAt b) ->
  Number.lt (Int 0)
    (getTime (Date_copy (section_updatedAt b))
     - getTime (Date_copy (section_updatedAt a)))%js
  = (time_of (section_updatedAt a) <? time_of (section_updatedAt b)).
Proof. apply date_sub_sign. Qed.

(** X7.  [getContacts] returns the stored messages, all of them, by creation time
    with the newest first and messages of one creation time in the order of
    their insertion; a message created later than all stored ones is the
    first of the next listing. *)
Theorem getContacts_newest_first (s : MemStorage) :
  Forall (fun c => valid_date (contact_createdAt c)) (JSMap.values (contacts s)) ->
  Permutation (getContacts s) (JSMap.values (contacts s))
  /\ StronglySorted (descending (fun c => time_of (contact_createdAt c)))
       (getContacts s)
  /\ (forall t,
        filter (fun c => time_of (contact_createdAt c) =? t) (getContacts s)
        = filter (fun c => time_of (contact_createdAt c) =? t)
            (JSMap.values (contacts s)))
  /\ (forall uuid now insertContact,
        Z.abs now <= maxTime ->
        Forall (fun c => time_of (contact_createdAt c) < now)
          (JSMap.values (contacts s)) ->
        hd_error (getContacts (snd (createContact uuid now s insertContact)))
        = Some (fst (createContact uuid now s insertContact))).
Proof.
  intros Hs. unfold getContacts.
  split; [apply Array_sort_perm |].
  split; [apply (Array_sort_sorted _ _ _ contact_order_key _ Hs) |].
  split; [intros t; apply (Array_sort_stable _ _ _ contact_order_key _ _ Hs) |].
  intros uuid now ins Hnow Hlater. cbn [createContact fst snd with_contacts contacts].
  set (contact := mkContact _ _ _ _ _).
  assert (Hs' : Forall (fun c => valid_date (contact_createdAt c))
                  (JSMap.values (JSMap.set (contacts s) uuid contact))).
  { apply values_set_Forall; [exact Hs |]. exists now. split; [reflexivity | exact Hnow]. }
  apply (sorted_head (fun c => time_of (contact_createdAt c))).
  - apply (Array_sort_sorted _ _ _ contact_order_key _ Hs').
  - apply (Permutation_in _ (Permutation_sym (Array_sort_perm _ _))).
    apply values_set_new.
  - intros x Hx.
    apply (Permutation_in _ (Array_sort_perm _ _)) in Hx.
    apply values_set_cases in Hx. destruct Hx as [-> | Hx]; [now left | right].
    rewrite Forall_forall in Hlater. exact (Hlater x Hx).
Qed.

Lemma getContacts_newest_first_witness :
  let s1 := snd (createContact "c-1" 1000 no_records (NewContact.mk "Ada" "ada@example.com" "Hello")) in
  hd_error (getContacts (snd (createContact "c-2" 2000 s1
                                (NewContact.mk "Grace" "grace@example.com" "Hi"))))
  = Some (mkContact "c-2" "Grace" "grace@example.com" "Hi" (TimeValue 2000)).
Proof.
  cbn zeta.
  assert (Hv : Forall (fun c => valid_date (contact_createdAt c))
                 (JSMap.values (contacts
                    (snd (createContact "c-1" 1000 no_records
                            (NewContact.mk "Ada" "ada@example.com" "Hello")))))).
  { repeat constructor. exists 1000. split; [reflexivity |]. unfold maxTime. simpl. lia. }
  assert (Hn : Z.abs 2000 <= maxTime) by (unfold maxTime; simpl; lia).
  assert (Hl : Forall (fun c => time_of (contact_createdAt c) < 2000)
                 (JSMap.values (contacts
                    (snd (createContact "c-1" 1000 no_records
                            (NewContact.mk "Ada" "ada@example.com" "Hello")))))).
  { repeat constructor. }
  exact (proj2 (proj2 (proj2 (getContacts_newest_first _ Hv)))
           "c-2"%string 2000 (NewContact.mk "Grace" "grace@example.com" "Hi") Hn Hl).
Defined.

(** X8.  [createContentSection] stores the section under its [sectionKey], not
    under the identifier drawn for it: a section of a key in use replaces
    the one stored, the sections of other keys are found as before, and
    empty metadata are stored as null.  Sections stay stored under their own
    keys. *)
Theorem createContentSection_by_key (uuid : string) (now : Z) (s : MemStorage)
    (insertContent : NewSection.InsertContentSection) :
  sections_keyed s ->
  let content := fst (createContentSection uuid now s insertContent) in
  let s' := snd (createContentSection uuid now s insertContent) in
  getContentSection s' (NewSection.sectionKey insertContent) = Some content
  /\ section_id content = uuid
  /\ section_updatedAt content = TimeValue now
  /\ section_metadata content =
       match NewSection.metadata insertContent with
       | None => None
       | Some EmptyString => None
       | Some text => Some text
       end
  /\ (forall other, other <> NewSection.sectionKey insertContent ->
        getContentSection s' other = getContentSection s other)
  /\ (forall old,
        getContentSection s (NewSection.sectionKey insertContent) = Some old ->
        JSMap.keys (contentSections s') = JSMap.keys (contentSections s))
  /\ (getContentSection s (NewSection.sectionKey insertContent) = None ->
      JSMap.keys (contentSections s')
      = JSMap.keys (contentSections s) ++ [NewSection.sectionKey insertContent])
  /\ sections_keyed s'.
Proof.
  intros Hk. cbn zeta. cbn [createContentSection fst snd].
  cbn [sectionKey section_id section_updatedAt section_metadata].
  set (content := mkContentSection _ _ _ _ _ _).
  assert (Hk' : sections_keyed
                  (with_contentSections s
                     (JSMap.set (contentSections s)
                        (NewSection.sectionKey insertContent) content))).
  { unfold sections_keyed. cbn [with_contentSections contentSections].
    apply (set_keyed sectionKey); [exact Hk | reflexivity]. }
  rewrite (getContentSection_get _ _ Hk').
  cbn [with_contentSections contentSections].
  split; [apply get_set_same |].
  split; [reflexivity |]. split; [reflexivity |].
  split; [destruct (NewSection.metadata insertContent) as [[| c t] |]; reflexivity |].
  split.
  { intros other Hne.
    rewrite (getContentSection_get _ other Hk'), (getContentSection_get _ other Hk).
    cbn [with_contentSections contentSections]. now apply get_set_other. }
  rewrite (getContentSection_get _ _ Hk).
  split; [intros old Hold; now apply (set_present_keys _ _ _ old) |].
  split; [| exact Hk'].
  intros Hnone. rewrite set_fresh by assumption. unfold JSMap.keys. now rewrite map_app.
Qed.

Lemma createContentSection_by_key_witness :
  let s1 := snd (createContentSection "s-1" 1000 no_records
                   (NewSection.mk "hero-title" "Hero Title" "Luxury Villa Retreat" None)) in
  let s2 := snd (createContentSection "s-2" 2000 s1
                   (NewSection.mk "hero-title" "Hero Title" "Seaside Villa" (Some EmptyString))) in
  sections_keyed s1
  /\ getContentSection s2 "hero-title"
     = Some (mkContentSection "s-2" "hero-title" "Hero Title" "Seaside Villa" None
               (TimeValue 2000))
  /\ JSMap.keys (contentSections s2) = ["hero-title"%string].
Proof.
  cbn zeta.
  assert (Hk : sections_keyed
                 (snd (createContentSection "s-1" 1000 no_records
                         (NewSection.mk "hero-title" "Hero Title"
                            "Luxury Villa Retreat" None))))
    by (repeat constructor).
  pose proof (createContentSection_by_key "s-2" 2000 _
                (NewSection.mk "hero-title" "Hero Title" "Seaside Villa"
                   (Some EmptyString)) Hk) as H.
  cbn zeta in H. destruct H as (Hget & _ & _ & _ & _ & Hkeys & _).
  split; [exact Hk |]. split; [exact Hget |].
  exact (Hkeys _ eq_refl).
Defined.

(** X9.  [updateContentSection] on a key that no section has returns undefined
    and the repository as it was.  On a key in use the section is merged
    with the payload, property by property, and stamped with the time of the
    call whatever the payload gives as [updatedAt]; it is stored in place of
    the old one and, unless the payload renames it, found under its key.  If
    the call is later than every stamp in the repository, the section is the
    first that [getContentSections] lists. *)
Theorem updateContentSection_stamps (now : Z) (s : MemStorage) (key : string)
    (updateData : PartialSection.PartialContentSection) :
  sections_keyed s ->
  match getContentSection s key with
  | None => updateContentSection now s key updateData = (None, s)
  | Some existing =>
      exists updated s',
        updateContentSection now s key updateData = (Some updated, s')
        /\ section_updatedAt updated = TimeValue now
        /\ merged (section_id existing) (PartialSection.id updateData) (section_id updated)
        /\ merged (sectionKey existing) (PartialSection.sectionKey updateData)
             (sectionKey updated)
        /\ merged (section_title existing) (PartialSection.title updateData)
             (section_title updated)
        /\ merged (section_content existing) (PartialSection.content updateData)
             (section_content updated)
        /\ merged (section_metadata existing) (PartialSection.metadata updateData)
             (section_metadata updated)
        /\ JSMap.get (contentSections s') key = Some updated
        /\ JSMap.keys (contentSections s') = JSMap.keys (contentSections s)
        /\ (forall other, other <> key ->
              JSMap.get (contentSections s') other = JSMap.get (contentSections s) other)
        /\ (PartialSection.sectionKey updateData = None ->
            getContentSection s' key = Some updated /\ sections_keyed s')
        /\ (Z.abs now <= maxTime ->
            Forall (fun c => valid_date (section_updatedAt c)
                             /\ time_of (section_updatedAt c) < now)
              (JSMap.values (contentSections s)) ->
            hd_error (getContentSections s') = Some updated)
  end.
Proof.
  intros Hk. unfold updateContentSection.
  destruct (getContentSection s key) as [existing |] eqn:E; [| reflexivity].
  rewrite (getContentSection_get _ _ Hk) in E.
  eexists _, _. split; [reflexivity |].
  cbn [merge_section section_updatedAt section_id sectionKey section_title
       section_content section_metadata with_contentSections contentSections].
  split; [reflexivity |].
  assert (Hm : forall (A : Type) (x : A) (g : option A), merged x g (spread x g))
    by (intros A x [v |]; reflexivity).
  do 5 (split; [apply Hm |]).
  split; [apply get_set_same |].
  split; [now apply (set_present_keys _ _ _ existing) |].
  split; [intros other Hne; now apply get_set_other |].
  split.
  - intros Hsame.
    assert (Hk' : sections_keyed
                    (with_contentSections s
                       (JSMap.set (contentSections s) key
                          (merge_section now existing updateData)))).
    { unfold sections_keyed. cbn [with_contentSections contentSections].
      apply (set_keyed sectionKey); [exact Hk |].
      cbn [merge_section sectionKey]. rewrite Hsame. cbn [spread].
      exact (get_keyed sectionKey _ _ _ Hk E). }
    split; [| exact Hk'].
    rewrite (getContentSection_get _ _ Hk').
    cbn [with_contentSections contentSections]. apply get_set_same.
  - intros Hnow Hold. unfold getContentSections.
    cbn [with_contentSections contentSections].
    set (updated := merge_section now existing updateData).
    assert (Hs' : Forall (fun c => valid_date (section_updatedAt c))
                    (JSMap.values (JSMap.set (contentSections s) key updated))).
    { apply values_set_Forall.
      - eapply Forall_impl; [| exact Hold]. intros c Hc. exact (proj1 Hc).
      - exists now. split; [reflexivity | exact Hnow]. }
    apply (sorted_head (fun c => time_of (section_updatedAt c))).
    + apply (Array_sort_sorted _ _ _ section_order_key _ Hs').
    + apply (Permutation_in _ (Permutation_sym (Array_sort_perm _ _))).
      apply values_set_new.
    + intros x Hx.
      apply (Permutation_in _ (Array_sort_perm _ _)) in Hx.
      apply values_set_cases in Hx. destruct Hx as [-> | Hx]; [now left | right].
      rewrite Forall_forall in Hold. exact (proj2 (Hold x Hx)).
Qed.

Lemma updateContentSection_stamps_witness :
  let s1 := snd (createContentSection "s-1" 1000 no_records
                   (NewSection.mk "hero-title" "Hero Title" "Luxury Villa Retreat" None)) in
  let updateData :=
    PartialSection.mk None None None (Some "Seaside Villa"%string) None
      (Some (TimeValue 5)) in
  sections_keyed s1
  /\ exists updated s',
       updateContentSection 3000 s1 "hero-title" updateData = (Some updated, s')
       /\ section_updatedAt updated = TimeValue 3000
       /\ section_content updated = "Seaside Villa"%string
       /\ hd_error (getContentSections s') = Some updated.
Proof.
  cbn zeta.
  set (s1 := snd (createContentSection "s-1" 1000 no_records
                    (NewSection.mk "hero-title" "Hero Title" "Luxury Villa Retreat" None))).
  set (updateData := PartialSection.mk None None None (Some "Seaside Villa"%string) None
                       (Some (TimeValue 5))).
  assert (Hk : sections_keyed s1) by (repeat constructor).
  assert (E : getContentSection s1 "hero-title"
              = Some (mkContentSection "s-1" "hero-title" "Hero Title"
                        "Luxury Villa Retreat" None (TimeValue 1000))) by reflexivity.
  assert (Hnow : Z.abs 3000 <= maxTime) by (unfold maxTime; simpl; lia).
  assert (Hold : Forall (fun c => valid_date (section_updatedAt c)
                                  /\ time_of (section_updatedAt c) < 3000)
                   (JSMap.values (contentSections s1))).
  { repeat constructor. exists 1000. split; [reflexivity |]. unfold maxTime. simpl. lia. }
  pose proof (updateContentSection_stamps 3000 s1 "hero-title" updateData Hk) as H.
  rewrite E in H.
  destruct H as (updated & s' & Hupd & Hstamp & _ & _ & _ & Hcontent & _ & _ & _ & _ & _ & Hhead).
  split; [exact Hk |].
  exists updated, s'.
  split; [exact Hupd |]. split; [exact Hstamp |]. split; [exact Hcontent |].
  exact (Hhead Hnow Hold).
Defined.





(** X12.  [deletePropertyImage] answers whether an image was stored under the
    identifier.  If none was, the repository stays as it is; otherwise the
    image is gone from the lookup, and in both cases the images of the other
    identifiers and the rest of the repository are untouched. *)
Theorem deletePropertyImage_removes (s : MemStorage) (id : string) :
  NoDup (JSMap.keys (propertyImages s)) ->
  let deleted := fst (deletePropertyImage s id) in
  let s' := snd (deletePropertyImage s id) in
  deleted = match getPropertyImage s id with Some _ => true | None => false end
  /\ getPropertyImage s' id = None
  /\ (getPropertyImage s id = None -> s' = s)
  /\ (forall other, other <> id -> getPropertyImage s' other = getPropertyImage s other)
  /\ users s' = users s /\ bookings s' = bookings s /\ contacts s' = contacts s
  /\ contentSections s' = contentSections s.
Proof.
  unfold getPropertyImage, deletePropertyImage. intros Hnd. cbn zeta.
  destruct (delete_get (propertyImages s) id) as (H1 & H2 & H3 & H4).
  destruct (Map_delete (propertyImages s) id) as [found rest]. cbn [fst snd] in *.
  cbn [with_propertyImages propertyImages users bookings contacts contentSections].
  split; [exact H1 |]. split; [exact (H4 Hnd) |].
  split; [intros Hnone; rewrite (H2 Hnone); now destruct s |].
  split; [exact H3 |]. repeat split.
Qed.

Lemma deletePropertyImage_removes_witness :
  let s1 := snd (createPropertyImage "i-1" no_records
                   (NewImage.mk "exterior" "https://example.com/a.jpg" None None
                      (Int 2) "true")) in
  NoDup (JSMap.keys (propertyImages s1))
  /\ fst (deletePropertyImage s1 "i-1") = true
  /\ getPropertyImage (snd (deletePropertyImage s1 "i-1")) "i-1" = None
  /\ snd (deletePropertyImage s1 "i-9") = s1.
Proof.
  cbn zeta.
  match goal with |- NoDup (JSMap.keys (propertyImages ?s)) /\ _ => set (s1 := s) end.
  assert (Hnd : NoDup (JSMap.keys (propertyImages s1)))
    by (constructor; [intros [] | constructor]).
  split; [exact Hnd |].
  split; [exact (proj1 (deletePropertyImage_removes s1 "i-1" Hnd)) |].
  split; [exact (proj1 (proj2 (deletePropertyImage_removes s1 "i-1" Hnd))) |].
  exact (proj1 (proj2 (proj2 (deletePropertyImage_removes s1 "i-9" Hnd))) eq_refl).
Defined.



(** ** Validation and routes of the bookings, continued *)
Module HandlerFacts.
Import RouteFacts ValidationFacts.

(** A body that validates is stored and answered with 201; the console gets
    what the notifier logs, and nothing if the booking is not confirmed. *)
Lemma post_bookings_valid (isEmail : string -> bool)
    (send : EmailParams -> result unit) (gen : Booking -> result string)
    (uuid : string) (now : Z) (req_body : value) (w : World) (data : InsertBooking) :
  Zod.insertBookingSchema_parse isEmail req_body = Return data ->
  exists entries,
    post_bookings isEmail send gen uuid now req_body w
    = (Return (mkResponse 201 (JBooking (fst (createBooking uuid now (storage w) data)))),
       mkWorld (snd (createBooking uuid now (storage w) data)) (console w ++ entries))
    /\ (Insert.status data <> "confirmed"%string -> entries = []).
Proof.
  intros Hparse. unfold post_bookings.
  unfold try_catch at 1. unfold bind at 1. unfold lift at 1. rewrite Hparse.
  unfold bind at 1. unfold storage_createBooking.
  assert (Hst : status (fst (createBooking uuid now (storage w) data))
                = VString (Insert.status data)) by reflexivity.
  destruct (createBooking uuid now (storage w) data) as [b s'].
  cbn [fst snd] in *. rewrite Hst. cbn [strict_eq_string].
  destruct (String.eqb_spec (Insert.status data) "confirmed") as [E | E].
  - unfold bind at 1.
    match goal with |- context [try_catch ?c ?h ?w'] =>
      change (try_catch c h w') with (notify send gen b w');
      destruct (notify_returns send gen b w') as (entries & ->) end.
    exists entries. split; [reflexivity | congruence].
  - exists []. rewrite app_nil_r. split; [reflexivity | reflexivity].
Qed.

Lemma post_bookings_invalid (isEmail : string -> bool)
    (send : EmailParams -> result unit) (gen : Booking -> result string)
    (uuid : string) (now : Z) (req_body : value) (w : World) (issues : list issue) :
  Zod.insertBookingSchema_parse isEmail req_body = Throw (ZodError issues) ->
  post_bookings isEmail send gen uuid now req_body w
  = (Return (mkResponse 400 (JValidation "Validation error" issues)), w).
Proof.
  intros Hparse. unfold post_bookings, try_catch, bind, lift. now rewrite Hparse.
Qed.

(** What a key of the shape has accepted. *)
Lemma required_string (o : list (string * value)) (key msg : string) (s : string) :
  fst (Zod.field o key (Zod.string_ [Zod.min_length 1 msg])) = [] ->
  snd (Zod.field o key (Zod.string_ [Zod.min_length 1 msg])) = Some s ->
  Zod.prop o key = VString s /\ s <> EmptyString.
Proof.
  unfold Zod.field, Zod.string_.
  destruct (Zod.prop o key) as [| | | | text | |]; try discriminate.
  destruct text as [| c t]; [discriminate |].
  intros _ [= <-]. split; [reflexivity | discriminate].
Qed.

Lemma accepted_guests (o : list (string * value)) (g : number) :
  fst (Zod.field o "guests" Zod.guests_) = [] ->
  snd (Zod.field o "guests" Zod.guests_) = Some g ->
  Zod.prop o "guests" = VNumber g
  /\ g <> NaN /\ Number.lt g (Int 1) = false /\ Number.lt (Int 10) g = false.
Proof.
  unfold Zod.field, Zod.guests_, Zod.number_.
  destruct (Zod.prop o "guests") as [| | | n | | |]; try discriminate.
  destruct n as [| neg | q]; try discriminate;
    cbn [fst snd Zod.run_checks flat_map]; unfold Zod.min, Zod.max;
    intros Hi [= <-];
    (destruct (Number.lt _ (Int 1)); [discriminate |]);
    (destruct (Number.lt (Int 10) _); [discriminate |]);
    repeat split; discriminate.
Qed.

Lemma accepted_email (isEmail : string -> bool) (o : list (string * value)) (e : string) :
  fst (Zod.field o "guestEmail" (Zod.guestEmail_ isEmail)) = [] ->
  snd (Zod.field o "guestEmail" (Zod.guestEmail_ isEmail)) = Some e ->
  Zod.prop o "guestEmail" = VString e /\ isEmail e = true.
Proof.
  unfold Zod.field, Zod.guestEmail_, Zod.string_.
  destruct (Zod.prop o "guestEmail") as [| | | | text | |]; try discriminate.
  cbn [fst snd Zod.run_checks flat_map]. unfold Zod.email.
  intros Hi [= <-]. destruct (isEmail text); [now split | discriminate].
Qed.

Lemma accepted_phone (o : list (string * value)) (ph : option string) :
  fst (Zod.field o "guestPhone" Zod.guestPhone_) = [] ->
  snd (Zod.field o "guestPhone" Zod.guestPhone_) = Some ph ->
  match ph with
  | Some p => Zod.prop o "guestPhone" = VString p
  | None => Zod.prop o "guestPhone" = VUndefined
  end.
Proof.
  unfold Zod.field, Zod.guestPhone_, Zod.optional, Zod.string_.
  destruct (Zod.prop o "guestPhone") as [| | | | text | |]; cbn [fst snd option_map];
    try discriminate; intros _ [= <-]; reflexivity.
Qed.

Lemma accepted_status (o : list (string * value)) (st : string) :
  fst (Zod.field o "status" Zod.status_) = [] ->
  snd (Zod.field o "status" Zod.status_) = Some st ->
  Zod.prop o "status" = VString st
  \/ (Zod.prop o "status" = VUndefined /\ st = "pending"%string).
Proof.
  unfold Zod.field, Zod.status_, Zod.default, Zod.string_.
  destruct (Zod.prop o "status") as [| | | | text | |]; cbn [fst snd];
    try discriminate; intros _ [= <-]; [right; now split | now left].
Qed.

Lemma accepted_fields (isEmail : string -> bool) (o : list (string * value))
    (data : InsertBooking) :
  Zod.insertBookingSchema_parse isEmail (VObject o) = Return data ->
  Zod.insertBookingSchema_issues isEmail o = []
  /\ snd (Zod.field o "checkinDate" Zod.checkinDate_) = Some (Insert.checkinDate data)
  /\ snd (Zod.field o "checkoutDate" Zod.checkoutDate_) = Some (Insert.checkoutDate data)
  /\ snd (Zod.field o "guests" Zod.guests_) = Some (Insert.guests data)
  /\ snd (Zod.field o "guestName" Zod.guestName_) = Some (Insert.guestName data)
  /\ snd (Zod.field o "guestEmail" (Zod.guestEmail_ isEmail)) = Some (Insert.guestEmail data)
  /\ snd (Zod.field o "guestPhone" Zod.guestPhone_) = Some (Insert.guestPhone data)
  /\ snd (Zod.field o "totalAmount" Zod.totalAmount_) = Some (Insert.totalAmount data)
  /\ snd (Zod.field o "status" Zod.status_) = Some (Insert.status data).
Proof.
  unfold Zod.insertBookingSchema_parse.
  destruct (Zod.insertBookingSchema_issues isEmail o) as [| i l].
  - destruct (snd (Zod.field o "checkinDate" Zod.checkinDate_)); [| discriminate].
    destruct (snd (Zod.field o "checkoutDate" Zod.checkoutDate_)); [| discriminate].
    destruct (snd (Zod.field o "guests" Zod.guests_)); [| discriminate].
    destruct (snd (Zod.field o "guestName" Zod.guestName_)); [| discriminate].
    destruct (snd (Zod.field o "guestEmail" (Zod.guestEmail_ isEmail))); [| discriminate].
    destruct (snd (Zod.field o "guestPhone" Zod.guestPhone_)); [| discriminate].
    destruct (snd (Zod.field o "totalAmount" Zod.totalAmount_)); [| discriminate].
    destruct (snd (Zod.field o "status" Zod.status_)); [| discriminate].
    intros [= <-]. cbn. repeat split.
  - discriminate.
Qed.

Lemma insertBookingSchema_accepts_status (isEmail : string -> bool)
    (o : list (string * value)) (data : InsertBooking) :
  Zod.insertBookingSchema_parse isEmail (VObject o) = Return data ->
  Zod.prop o "status" = VString (Insert.status data)
  \/ (Zod.prop o "status" = VUndefined /\ Insert.status data = "pending"%string).
Proof.
  intros Hparse.
  destruct (accepted_fields _ _ _ Hparse) as (Hi & _ & _ & _ & _ & _ & _ & _ & Hs).
  unfold Zod.insertBookingSchema_issues in Hi.
  repeat match type of Hi with
  | _ ++ _ = [] => apply app_eq_nil in Hi; destruct Hi as [_ Hi]
  end.
  now apply accepted_status.
Qed.

End HandlerFacts.
Import RouteFacts ValidationFacts HandlerFacts.

(** X14.  What [insertBookingSchema] lets through: the dates, the name and the
    amount are strings that are not empty, the guest count is a number from 1
    to 10 (not NaN, not necessarily whole), the email is a string that passes
    the library's test, the phone a string or left out, the status a string
    or left out, and then ["pending"].  The parsed payload has exactly these
    values. *)
Theorem insertBookingSchema_accepts (isEmail : string -> bool)
    (o : list (string * value)) (data : InsertBooking) :
  Zod.insertBookingSchema_parse isEmail (VObject o) = Return data ->
  (Zod.prop o "checkinDate" = VString (Insert.checkinDate data)
   /\ Insert.checkinDate data <> EmptyString)
  /\ (Zod.prop o "checkoutDate" = VString (Insert.checkoutDate data)
      /\ Insert.checkoutDate data <> EmptyString)
  /\ (Zod.prop o "guests" = VNumber (Insert.guests data)
      /\ Insert.guests data <> NaN
      /\ Number.lt (Insert.guests data) (Int 1) = false
      /\ Number.lt (Int 10) (Insert.guests data) = false)
  /\ (Zod.prop o "guestName" = VString (Insert.guestName data)
      /\ Insert.guestName data <> EmptyString)
  /\ (Zod.prop o "guestEmail" = VString (Insert.guestEmail data)
      /\ isEmail (Insert.guestEmail data) = true)
  /\ match Insert.guestPhone data with
     | Some p => Zod.prop o "guestPhone" = VString p
     | None => Zod.prop o "guestPhone" = VUndefined
     end
  /\ (Zod.prop o "totalAmount" = VString (Insert.totalAmount data)
      /\ Insert.totalAmount data <> EmptyString)
  /\ (Zod.prop o "status" = VString (Insert.status data)
      \/ (Zod.prop o "status" = VUndefined /\ Insert.status data = "pending"%string)).
Proof.
  intros Hparse.
  destruct (accepted_fields _ _ _ Hparse)
    as (Hi & Hci & Hco & Hg & Hn & He & Hp & Ht & Hs).
  unfold Zod.insertBookingSchema_issues in Hi.
  repeat match type of Hi with
  | _ ++ _ = [] => apply app_eq_nil in Hi; let H := fresh "Hi" in destruct Hi as [H Hi]
  end.
  split; [now apply (required_string _ _ _ _ Hi0 Hci) |].
  split; [now apply (required_string _ _ _ _ Hi1 Hco) |].
  split; [now apply accepted_guests |].
  split; [now apply (required_string _ _ _ _ Hi3 Hn) |].
  split; [now apply accepted_email |].
  split; [now apply accepted_phone |].
  split; [now apply (required_string _ _ _ _ Hi6 Ht) |].
  now apply accepted_status.
Qed.

Lemma insertBookingSchema_accepts_witness :
  Zod.insertBookingSchema_parse has_at (plain_body (VNumber (Int 2)) "ada@example.com")
  = Return (Insert.mk "2024-03-10" "2024-03-11" (Int 2) "Ada" "ada@example.com" None
              "969" "pending")
  /\ Number.lt (Int 10) (Int 2) = false.
Proof.
  assert (H : Zod.insertBookingSchema_parse has_at
                (plain_body (VNumber (Int 2)) "ada@example.com")
              = Return (Insert.mk "2024-03-10" "2024-03-11" (Int 2) "Ada"
                          "ada@example.com" None "969" "pending"))
    by (vm_compute; reflexivity).
  split; [exact H |].
  exact (proj2 (proj2 (proj2 (proj1 (proj2 (proj2
           (insertBookingSchema_accepts has_at _ _ H))))))).
Defined.

(** X15.  POST /api/bookings answers 400 with the issues of the schema, and leaves
    the repository and the console as they are, for a body that is not an
    object, for a guest count below 1 or above 10, and for an email without
    an at sign. *)
Theorem post_bookings_rejects (isEmail : string -> bool)
    (send : EmailParams -> result unit) (gen : Booking -> result string)
    (uuid : string) (now : Z) (w : World) :
  (forall req_body,
     (forall o, req_body <> VObject o) ->
     post_bookings isEmail send gen uuid now req_body w
     = (Return (mkResponse 400
                  (JValidation "Validation error" [mkIssue [] invalid_type LibraryDefault])),
        w))
  /\ (forall o n,
        Zod.prop o "guests" = VNumber n ->
        Number.lt n (Int 1) = true ->
        exists issues,
          post_bookings isEmail send gen uuid now (VObject o) w
          = (Return (mkResponse 400 (JValidation "Validation error" issues)), w)
          /\ In (mkIssue ["guests"%string] too_small
                   (Custom "At least 1 guest is required")) issues)
  /\ (forall o n,
        Zod.prop o "guests" = VNumber n ->
        Number.lt (Int 10) n = true ->
        exists issues,
          post_bookings isEmail send gen uuid now (VObject o) w
          = (Return (mkResponse 400 (JValidation "Validation error" issues)), w)
          /\ In (mkIssue ["guests"%string] too_big
                   (Custom "Maximum 10 guests allowed")) issues)
  /\ (forall o e,
        email_needs_at isEmail ->
        Zod.prop o "guestEmail" = VString e ->
        has_at e = false ->
        exists issues,
          post_bookings isEmail send gen uuid now (VObject o) w
          = (Return (mkResponse 400 (JValidation "Validation error" issues)), w)
          /\ In (mkIssue ["guestEmail"%string] invalid_string
                   (Custom "Valid email is required")) issues).
Proof.
  split; [| split; [| split]].
  - intros req_body Hno. apply post_bookings_invalid.
    destruct req_body; try reflexivity. now elim (Hno props).
  - intros o n Hg Hlt.
    destruct (guests_below_1 isEmail o n Hg Hlt) as (issues & Hp & Hin).
    exists issues. split; [now apply post_bookings_invalid | exact Hin].
  - intros o n Hg Hlt.
    destruct (guests_above_10 isEmail o n Hg Hlt) as (issues & Hp & Hin).
    exists issues. split; [now apply post_bookings_invalid | exact Hin].
  - intros o e Hat He Hno.
    destruct (email_without_at isEmail o e Hat He Hno) as (issues & Hp & Hin).
    exists issues. split; [now apply post_bookings_invalid | exact Hin].
Qed.

Lemma post_bookings_rejects_witness :
  Number.lt (Int 0) (Int 1) = true
  /\ exists issues,
       post_bookings has_at mail_up template_ok "b-1" 1710028800000
         (booking_body (VNumber (Int 0)) "ada@example.com") fresh_world
       = (Return (mkResponse 400 (JValidation "Validation error" issues)), fresh_world)
       /\ In (mkIssue ["guests"%string] too_small
                (Custom "At least 1 guest is required")) issues.
Proof.
  assert (Hlt : Number.lt (Int 0) (Int 1) = true) by (vm_compute; reflexivity).
  assert (Hg : Zod.prop [("checkinDate", VString "2024-03-10");
                         ("checkoutDate", VString "2024-03-11");
                         ("guests", VNumber (Int 0));
                         ("guestName", VString "Ada");
                         ("guestEmail", VString "ada@example.com");
                         ("totalAmount", VString "969");
                         ("status", VString "confirmed")]%string "guests"
               = VNumber (Int 0)) by reflexivity.
  split; [exact Hlt |].
  exact (proj1 (proj2 (post_bookings_rejects has_at mail_up template_ok "b-1"
                         1710028800000 fresh_world)) _ (Int 0) Hg Hlt).
Defined.

(** X16.  A body that validates and leaves the status out is stored as pending and
    answered with 201; no confirmation is attempted: the answer and the state
    afterwards are the same for every mail service and template, and the
    console stays as it is. *)
Theorem post_bookings_pending_by_default (isEmail : string -> bool)
    (send : EmailParams -> result unit) (gen : Booking -> result string)
    (uuid : string) (now : Z) (o : list (string * value)) (w : World)
    (data : InsertBooking) :
  Zod.insertBookingSchema_parse isEmail (VObject o) = Return data ->
  Zod.prop o "status" = VUndefined ->
  let booking := fst (createBooking uuid now (storage w) data) in
  status booking = VString "pending"
  /\ post_bookings isEmail send gen uuid now (VObject o) w
     = (Return (mkResponse 201 (JBooking booking)),
        mkWorld (snd (createBooking uuid now (storage w) data)) (console w)).
Proof.
  intros Hparse Hst. cbn zeta.
  assert (Hpending : Insert.status data = "pending"%string).
  { destruct (insertBookingSchema_accepts_status _ _ _ Hparse) as [H | [_ H]];
      [congruence | exact H]. }
  split; [cbn [createBooking fst status]; now rewrite Hpending |].
  destruct (post_bookings_valid isEmail send gen uuid now _ w data Hparse)
    as (entries & -> & Hnone).
  rewrite Hnone by (rewrite Hpending; discriminate).
  now rewrite app_nil_r.
Qed.

Lemma post_bookings_pending_by_default_witness :
  post_bookings has_at mail_down template_throws "b-1" 1710028800000
    (plain_body (VNumber (Int 2)) "ada@example.com") fresh_world
  = (Return (mkResponse 201
               (JBooking (mkBooking "b-1" "2024-03-10" "2024-03-11" (Int 2) "Ada"
                            "ada@example.com" None "969" (VString "pending")
                            (TimeValue 1710028800000)))),
     mkWorld (snd (createBooking "b-1" 1710028800000 no_records
                     (Insert.mk "2024-03-10" "2024-03-11" (Int 2) "Ada"
                        "ada@example.com" None "969" "pending"))) []).
Proof.
  assert (H : Zod.insertBookingSchema_parse has_at
                (plain_body (VNumber (Int 2)) "ada@example.com")
              = Return (Insert.mk "2024-03-10" "2024-03-11" (Int 2) "Ada"
                          "ada@example.com" None "969" "pending"))
    by (vm_compute; reflexivity).
  exact (proj2 (post_bookings_pending_by_default has_at mail_down template_throws
                  "b-1" 1710028800000 _ fresh_world _ H eq_refl)).
Defined.

(** X17.  A booking that POST /api/bookings has accepted is what
    GET /api/bookings/:id answers under its identifier right away, and it is
    in the list of GET /api/bookings; an identifier that is not stored is
    answered with 404.  The reading routes change nothing. *)
Theorem post_then_get_booking (isEmail : string -> bool)
    (send : EmailParams -> result unit) (gen : Booking -> result string)
    (uuid : string) (now : Z) (req_body : value) (w : World) (data : InsertBooking) :
  Zod.insertBookingSchema_parse isEmail req_body = Return data ->
  let booking := fst (createBooking uuid now (storage w) data) in
  let w1 := snd (post_bookings isEmail send gen uuid now req_body w) in
  get_booking uuid w1 = (Return (mkResponse 200 (JBooking booking)), w1)
  /\ (forall other,
        other <> uuid -> getBooking (storage w) other = None ->
        get_booking other w1
        = (Return (mkResponse 404 (JMessage "Booking not found")), w1))
  /\ exists listed,
       get_bookings w1 = (Return (mkResponse 200 (JBookings listed)), w1)
       /\ In booking listed.
Proof.
  intros Hparse. cbn zeta.
  destruct (post_bookings_valid isEmail send gen uuid now _ w data Hparse)
    as (entries & -> & _).
  cbn [snd]. unfold get_booking, get_bookings, try_catch, bind, ret,
    storage_getBooking, storage_getBookings. cbn [storage].
  cbn [createBooking fst snd]. unfold getBooking. cbn [with_bookings bookings].
  split; [now rewrite MapFacts.get_set_same |].
  split.
  - intros other Hne Hnone. rewrite MapFacts.get_set_other by assumption.
    unfold getBooking in Hnone. now rewrite Hnone.
  - eexists. split; [reflexivity |].
    rewrite getBookings_unfold. cbn [with_bookings bookings].
    apply (Permutation_in _ (Permutation_sym (Array_sort_perm _ _))).
    apply values_set_new.
Qed.

Lemma post_then_get_booking_witness :
  get_booking "b-1"
    (snd (post_bookings has_at mail_down template_throws "b-1" 1710028800000
            (booking_body (VNumber (Int 2)) "ada@example.com") fresh_world))
  = (Return (mkResponse 200
               (JBooking (mkBooking "b-1" "2024-03-10" "2024-03-11" (Int 2) "Ada"
                            "ada@example.com" None "969" (VString "confirmed")
                            (TimeValue 1710028800000)))),
     snd (post_bookings has_at mail_down template_throws "b-1" 1710028800000
            (booking_body (VNumber (Int 2)) "ada@example.com") fresh_world)).
Proof.
  assert (H : Zod.insertBookingSchema_parse has_at
                (booking_body (VNumber (Int 2)) "ada@example.com")
              = Return (Insert.mk "2024-03-10" "2024-03-11" (Int 2) "Ada"
                          "ada@example.com" None "969" "confirmed"))
    by (vm_compute; reflexivity).
  exact (proj1 (post_then_get_booking has_at mail_down template_throws "b-1"
                  1710028800000 _ fresh_world _ H)).
Defined.

Module InvariantFacts.
Import MapFacts RepositoryFacts StoreFacts.

Lemma createBooking_ok (uuid : string) (now : Z) (s : MemStorage) (data : InsertBooking) :
  Z.abs now <= maxTime -> repository_ok s ->
  repository_ok (snd (createBooking uuid now s data)).
Proof.
  intros Hnow [Hv Hk]. split.
  - now apply createBooking_valid.
  - unfold bookings_keyed. cbn [createBooking snd with_bookings bookings].
    apply (set_keyed id); [exact Hk | reflexivity].
Qed.

Lemma updateBooking_status_ok (s : MemStorage) (key : string) (v : value) :
  repository_ok s ->
  repository_ok (snd (updateBooking s key (Partial.status_only v))).
Proof.
  intros [Hv Hk]. split.
  - now apply updateBooking_valid.
  - unfold updateBooking.
    destruct (JSMap.get (bookings s) key) as [existing |] eqn:E; [| exact Hk].
    unfold bookings_keyed. cbn [snd with_bookings bookings].
    apply (set_keyed id); [exact Hk |].
    cbn [merge id Partial.status_only Partial.id spread].
    exact (get_keyed id _ _ _ Hk E).
Qed.

(** What the PATCH handler does to the repository: nothing, or the update
    of the status alone. *)
Lemma patch_booking_storage (key : string) (req_body : value) (w : World) :
  storage (snd (patch_booking key req_body w)) = storage w
  \/ exists v,
       storage (snd (patch_booking key req_body w))
       = snd (updateBooking (storage w) key (Partial.status_only v)).
Proof.
  unfold patch_booking, try_catch, bind, lift, ret.
  destruct (destructure req_body "status") as [v | e]; [| now left].
  destruct (truthy v); cbn [negb]; [| now left].
  right. exists v. unfold storage_updateBooking.
  destruct (updateBooking (storage w) key (Partial.status_only v)) as [[b |] s'];
    reflexivity.
Qed.

Lemma post_bookings_storage (isEmail : string -> bool)
    (send : EmailParams -> result unit) (gen : Booking -> result string)
    (uuid : string) (now : Z) (req_body : value) (w : World) :
  storage (snd (post_bookings isEmail send gen uuid now req_body w)) = storage w
  \/ exists data,
       storage (snd (post_bookings isEmail send gen uuid now req_body w))
       = snd (createBooking uuid now (storage w) data).
Proof.
  destruct (Zod.insertBookingSchema_parse isEmail req_body) as [data | e] eqn:Hparse.
  - right. exists data.
    destruct (HandlerFacts.post_bookings_valid isEmail send gen uuid now _ w data Hparse)
      as (entries & -> & _). reflexivity.
  - left. unfold post_bookings, try_catch, bind, lift. rewrite Hparse.
    destruct e; reflexivity.
Qed.

End InvariantFacts.
Import InvariantFacts.

(** X18.  The booking routes keep the repository in order: after POST
    /api/bookings and after PATCH /api/bookings/:id, whatever the request and
    whatever the mail service does, every stored booking still has a valid
    creation date and is stored under its own [id]; so the listing stays
    sorted from one request to the next. *)
Theorem booking_routes_keep_order (isEmail : string -> bool)
    (send : EmailParams -> result unit) (gen : Booking -> result string)
    (uuid : string) (now : Z) (key : string) (req_body : value) (w : World) :
  Z.abs now <= maxTime ->
  repository_ok (storage w) ->
  let posted := storage (snd (post_bookings isEmail send gen uuid now req_body w)) in
  let patched := storage (snd (patch_booking key req_body w)) in
  repository_ok posted
  /\ repository_ok patched
  /\ StronglySorted (descending created_time) (getBookings posted)
  /\ StronglySorted (descending created_time) (getBookings patched)
  /\ JSMap.keys (bookings patched) = JSMap.keys (bookings (storage w)).
Proof.
  intros Hnow Hok. cbn zeta.
  assert (Hposted : repository_ok
                      (storage (snd (post_bookings isEmail send gen uuid now req_body w)))).
  { destruct (post_bookings_storage isEmail send gen uuid now req_body w)
      as [-> | (data & ->)]; [exact Hok | now apply createBooking_ok]. }
  assert (Hpatched : repository_ok (storage (snd (patch_booking key req_body w)))).
  { destruct (patch_booking_storage key req_body w) as [-> | (v & ->)];
      [exact Hok | now apply updateBooking_status_ok]. }
  split; [exact Hposted |]. split; [exact Hpatched |].
  split; [| split].
  - rewrite getBookings_unfold.
    apply (SortFacts.Array_sort_sorted _ created_time valid_created
             SortFacts.by_createdAt_desc_key _ (proj1 Hposted)).
  - rewrite getBookings_unfold.
    apply (SortFacts.Array_sort_sorted _ created_time valid_created
             SortFacts.by_createdAt_desc_key _ (proj1 Hpatched)).
  - destruct (patch_booking_storage key req_body w) as [-> | (v & ->)]; [reflexivity |].
    unfold updateBooking.
    destruct (JSMap.get (bookings (storage w)) key) as [existing |] eqn:E; [| reflexivity].
    cbn [snd with_bookings bookings]. now apply (set_present_keys _ _ _ existing).
Qed.

Lemma booking_routes_keep_order_witness :
  repository_ok one_booking
  /\ repository_ok
       (storage (snd (patch_booking "b-1"
                        (VObject [("status"%string, VString "confirmed")])
                        (mkWorld one_booking []))))
  /\ repository_ok
       (storage (snd (post_bookings has_at mail_down template_throws "b-2" 1710115200000
                        (booking_body (VNumber (Int 2)) "ada@example.com")
                        (mkWorld one_booking [])))).
Proof.
  assert (Hnow : Z.abs 1710115200000 <= maxTime) by (unfold maxTime; simpl; lia).
  assert (Hok : repository_ok (storage (mkWorld one_booking []))).
  { split; repeat constructor. exists 1710028800000. split; [reflexivity |].
    unfold maxTime. simpl. lia. }
  split; [exact Hok |]. split.
  - exact (proj1 (proj2 (booking_routes_keep_order has_at mail_down template_throws
                           "b-2" 1710115200000 "b-1"
                           (VObject [("status"%string, VString "confirmed")])
                           (mkWorld one_booking []) Hnow Hok))).
  - exact (proj1 (booking_routes_keep_order has_at mail_down template_throws
                    "b-2" 1710115200000 "b-1"
                    (booking_body (VNumber (Int 2)) "ada@example.com")
                    (mkWorld one_booking []) Hnow Hok)).
Defined.

(** X19.  [calculateTotal] gives 0 where there is no stay to price: a date is
    missing (the empty string of an empty field), or both dates parse and the
    check-out is not after the check-in; the guest count plays no part. *)
Theorem calculateTotal_no_stay (Date_parse : string -> option Z)
    (H : DateHost Date_parse) (checkin checkout : string) (guests : number) :
  checkin = EmptyString \/ checkout = EmptyString
  \/ (exists t1 t2,
        Date_parse checkin = Some t1 /\ Date_parse checkout = Some t2 /\ t2 <= t1) ->
  calculateTotal Date_parse checkin checkout guests = Int 0.
Proof.
  intros [Hin | [Hout | (t1 & t2 & H1 & H2 & Hle)]].
  - apply PricingFacts.calculateTotal_missing. now left.
  - apply PricingFacts.calculateTotal_missing. now right.
  - exact (PricingFacts.calculateTotal_not_after Date_parse H _ _ _ t1 t2 H1 H2 Hle).
Qed.

Lemma calculateTotal_no_stay_witness :
  calculateTotal sample_Date_parse "2024-03-11" "2024-03-10" (Int 2) = Int 0
  /\ calculateTotal sample_Date_parse "2024-03-10" "2024-03-10" (Int 2) = Int 0
  /\ calculateTotal sample_Date_parse "2024-03-10" EmptyString (Int 2) = Int 0.
Proof.
  split; [| split].
  - apply (calculateTotal_no_stay sample_Date_parse PricingFacts.sample_host).
    right. right. exists 1710115200000, 1710028800000.
    split; [reflexivity |]. split; [reflexivity |]. lia.
  - apply (calculateTotal_no_stay sample_Date_parse PricingFacts.sample_host).
    right. right. exists 1710028800000, 1710028800000.
    split; [reflexivity |]. split; [reflexivity |]. lia.
  - apply (calculateTotal_no_stay sample_Date_parse PricingFacts.sample_host).
    right. left. reflexivity.
Defined.
